(** * The interview question flow: a model of the React components

    This development embeds two components of the repository:

    - [CustomQuestionInput] (both variants of the source), whose Add
      button is guarded by [!questionText.trim()];
    - [QuestionFlow], the answer-capture controller, as a transition
      system over the component's [useState] cells, its refs, the props it
      receives, and the browser objects it creates (media streams, media
      recorders, speech recognizers, audio contexts, buffer sources,
      utterances and pending promises).

    React is modelled the way the component relies on it: an event handler
    runs against the values of the render it was created in, the state
    setters it calls are applied, and then the effects whose dependency
    arrays changed are run, render after render, until nothing changes. *)

From Stdlib Require Import NArith ZArith Lia.
From Stdlib Require QArith.
From Stdlib Require Import Strings.Byte.
From Stdlib Require Import Ascii.
From stdpp Require Import base option list strings pretty.

Open Scope string_scope.
Open Scope list_scope.

(** ** CustomQuestionInput *)

Module CustomQuestionInput.

(** A JavaScript string is a sequence of UTF-16 code units. *)
Definition jsstring := list N.

(** [String.prototype.trim] removes WhiteSpace and LineTerminator code
    points (ECMA-262, 22.1.3.32 with 12.2 and 12.3): TAB, VT, FF, SP,
    NBSP, ZWNBSP, the Unicode Zs category, LF, CR, LS and PS.  All of
    them are in the basic plane, so each is one code unit. *)
Definition isWhiteSpace (c : N) : bool :=
  ((9 <=? c) && (c <=? 13) ||
   (c =? 32) || (c =? 160) || (c =? 5760) ||
   (8192 <=? c) && (c <=? 8202) ||
   (c =? 8232) || (c =? 8233) || (c =? 8239) || (c =? 8287) ||
   (c =? 12288) || (c =? 65279))%N.

Fixpoint trimStart (s : jsstring) : jsstring :=
  match s with
  | [] => []
  | c :: s' => if isWhiteSpace c then trimStart s' else s
  end.

Definition trimEnd (s : jsstring) : jsstring := rev (trimStart (rev s)).

Definition trim (s : jsstring) : jsstring := trimEnd (trimStart s).

(** JavaScript truthiness of a string: the empty string is falsy. *)
Definition truthy (s : jsstring) : bool :=
  match s with [] => false | _ => true end.

(** The two variants of the component differ in what they pass to
    [onAdd]: the question alone, or the question and the answer. *)
Inductive Variant := QuestionOnly | QuestionAndAnswer.

Record State := mkState {
  questionText : jsstring;
  answerText : jsstring;
  isExpanded : bool
}.

(** [useState('')], [useState('')], [useState(false)]. *)
Definition initial : State := mkState [] [] false.

Inductive Call :=
| onAdd1 (questionText : jsstring)
| onAdd2 (questionText answerText : jsstring).

Inductive Event :=
| ChangeQuestion (value : jsstring)
| ChangeAnswer (value : jsstring)
| ClickExpand
| ClickAdd.

(** [disabled={!questionText.trim()}] *)
Definition addDisabled (st : State) : bool := negb (truthy (trim (questionText st))).

Definition addEnabled (st : State) : bool := negb (addDisabled st).

Definition onClickAdd (v : Variant) (st : State) : Call :=
  match v with
  | QuestionOnly => onAdd1 (questionText st)
  | QuestionAndAnswer => onAdd2 (questionText st) (answerText st)
  end.

(** One event: the new state and the calls made on the props.  A
    disabled button dispatches no click; the expand button exists in
    the second variant only. *)
Definition step (v : Variant) (st : State) (e : Event) : State * list Call :=
  match e with
  | ChangeQuestion x => (mkState x (answerText st) (isExpanded st), [])
  | ChangeAnswer x => (mkState (questionText st) x (isExpanded st), [])
  | ClickExpand =>
      match v with
      | QuestionOnly => (st, [])
      | QuestionAndAnswer =>
          (mkState (questionText st) (answerText st) (negb (isExpanded st)), [])
      end
  | ClickAdd => if addDisabled st then (st, []) else (st, [onClickAdd v st])
  end.

Fixpoint run (v : Variant) (st : State) (es : list Event) : State * list Call :=
  match es with
  | [] => (st, [])
  | e :: es' =>
      let '(st1, c1) := step v st e in
      let '(st2, c2) := run v st1 es' in
      (st2, c1 ++ c2)
  end.

Definition calledQuestion (c : Call) : jsstring :=
  match c with onAdd1 q => q | onAdd2 q _ => q end.

Definition nonBlank (s : jsstring) : Prop :=
  exists c, In c s /\ isWhiteSpace c = false.

End CustomQuestionInput.

(** ** QuestionFlow: data *)

Module QuestionFlow.

(** [type FlowState = 'READING' | 'INPUT_SELECTION' | ...] *)
Inductive FlowState :=
| READING | INPUT_SELECTION | RECORDING_VOICE | PREVIEW_CAMERA
| RECORDING_CAMERA | TYPING | REVIEW | REDO_CONFIRM.

(** The argument of [initiateRedo] and [performRedo]:
    ['voice' | 'camera' | 'typing']. *)
Inductive RedoMode := voice | camera | typing.

(** The argument of [startRecording]: ['video' | 'audio']. *)
Inductive RecordMode := video | audio.

(** Modelled from the spec: the [Question] type of [../types], which is
    not among the sources (identifier, display text, category tag).  A
    Question object is identified with its contents: the dependency
    array [[question]] changes exactly when the contents do. *)
Record Question := mkQuestion { qid : string; qtext : string; qtype : string }.

(** The result of [URL.createObjectURL(new Blob(chunks, {type}))]: the
    MIME type is ['video/webm'] or ['audio/webm'] by the recording mode,
    the number names the blob. *)
Record Url := mkUrl { url_mode : RecordMode; url_blob : nat }.

(** Modelled from the spec: the [Recording] type of [../types], which is
    not among the sources: a discriminated union of audio URL with
    transcript, video URL with transcript, or typed text only. *)
Inductive Recording :=
| AudioRecording (audioUrl : Url) (transcript : string)
| VideoRecording (videoUrl : Url) (transcript : string)
| TypedRecording (text : string).

(** *** Browser objects *)

(** [MediaRecorder.state], and whether a [stop] event is queued. *)
Inductive RecorderState := inactive | recording | paused.

Record MediaRecorder := mkRecorder {
  rec_stream : nat;
  rec_mode : RecordMode;        (* the [mode] its [onstop] closure captured *)
  rec_state : RecorderState;
  rec_stopQueued : bool
}.

(** A [SpeechRecognition] instance, with the values its [onend] closure
    captured from the render that created it. *)
Inductive RecognizerStatus := Idle | Listening | Ending.

Record Recognizer := mkRecognizer {
  rg_status : RecognizerStatus;
  rg_isRecordingMedia : bool;
  rg_isPaused : bool;
  rg_flowState : FlowState
}.

(** Who started a narration: the [[question]] effect (its run number
    names the [isMounted] variable the callbacks close over) or
    [performRedo] (whose callbacks close over [mode]). *)
Inductive Owner := ByEffect (run : nat) | ByRedo (mode : RedoMode).

(** An [AudioBufferSourceNode] that was started; [src_ended] says that
    its [ended] event has been delivered. *)
Record BufferSource := mkSource {
  src_owner : Owner;
  src_stopped : bool;
  src_ended : bool
}.

Inductive UtteranceStatus := Speaking | Cancelled | Finished.

Record Utterance := mkUtterance {
  utt_owner : Owner;
  utt_text : string;
  utt_status : UtteranceStatus
}.

(** A pending [generateSpeech(question.text)] promise. *)
Record SpeechCall := mkSpeechCall {
  sc_owner : Owner;
  sc_text : string;
  sc_settled : bool
}.

(** How a [generateSpeech] promise settles, and what playing its result
    does: no data; data that plays; data whose playback throws inside
    the [try] block, before or after the [AudioContext] was created and
    stored in the ref; or a rejected promise. *)
Inductive SpeechOutcome :=
| NoData
| Playable
| PlaybackThrows (contextCreated : bool)
| Rejected.

(** A pending [getUserMedia] promise: from [startCamera]
    ([{video: true, audio: true}]) or from [startRecording('audio')]
    ([{audio: true}]). *)
Inductive GumRequest := CameraRequest | VoiceRequest.

Record GumCall := mkGumCall {
  gum_request : GumRequest;
  gum_settled : bool
}.

(** One run of the [[question]] effect: its [isMounted] variable, its
    pending 500 ms timer, the question it narrates and the
    [voiceStream] and [cameraStream] values of the render it ran in,
    which its cleanup closes over. *)
Record EffectRun := mkRun {
  run_isMounted : bool;
  run_timer : bool;
  run_question : Question;
  run_voiceStream : option nat;
  run_cameraStream : option nat
}.

(** What the component does that its environment can observe. *)
Inductive Obs :=
| ConsoleError (message : string)
| ConsoleLog (message : string)
| Call_onComplete (recording : Recording)
| Call_setDontAskRedo (val : bool)
| Uncaught (what : string).

(** *** Component state *)

Record Props := mkProps {
  question : Question;
  dontAskRedo : bool
}.

(** The [useState] cells. *)
Record Cells := mkCells {
  flowState : FlowState;
  transcript : string;
  cameraStream : option nat;
  voiceStream : option nat;
  recordedVideoUrl : option Url;
  recordedAudioUrl : option Url;
  isRecordingMedia : bool;
  recordingDuration : nat;
  playbackIsPlaying : bool;
  isPaused : bool;
  nextRedoMode : option RedoMode
}.

(** The [useRef] cells that hold browser objects, by their index. *)
Record Refs := mkRefs {
  mediaRecorderRef : option nat;
  ttsSourceRef : option nat;
  ttsAudioContextRef : option nat;
  recognitionRef : option nat
}.

(** The browser: every object the component has created.  A stream is
    [true] while its tracks are live, an audio context while it is not
    closed. *)
Record Browser := mkBrowser {
  speechRecognitionSupported : bool;
  streams : list bool;
  recorders : list MediaRecorder;
  recognizers : list Recognizer;
  contexts : list bool;
  sources : list BufferSource;
  utterances : list Utterance;
  speechCalls : list SpeechCall;
  gumCalls : list GumCall;
  objectUrls : nat
}.

(** The dependency values of the four effects with dependencies. *)
Record Deps := mkDeps {
  d_flowState : FlowState;
  d_isPaused : bool;
  d_isRecordingMedia : bool;
  d_question : Question
}.

(** React's bookkeeping: whether the component is mounted, the
    dependency values of the last committed render, whether the timer
    effect's interval is set, and the runs of the [[question]] effect
    (the last one is the current one). *)
Record Hooks := mkHooks {
  mounted : bool;
  rendered : option Deps;
  interval : bool;
  runs : list EffectRun
}.

Record State := mkState {
  props : Props;
  cells : Cells;
  refs : Refs;
  browser : Browser;
  hooks : Hooks;
  trace : list Obs
}.

#[global] Instance FlowState_eq_dec : EqDecision FlowState.
Proof. solve_decision. Defined.
#[global] Instance RedoMode_eq_dec : EqDecision RedoMode.
Proof. solve_decision. Defined.
#[global] Instance RecordMode_eq_dec : EqDecision RecordMode.
Proof. solve_decision. Defined.
#[global] Instance Question_eq_dec : EqDecision Question.
Proof. solve_decision. Defined.
#[global] Instance Deps_eq_dec : EqDecision Deps.
Proof. solve_decision. Defined.
#[global] Instance RecorderState_eq_dec : EqDecision RecorderState.
Proof. solve_decision. Defined.
#[global] Instance Url_eq_dec : EqDecision Url.
Proof. solve_decision. Defined.
#[global] Instance Recording_eq_dec : EqDecision Recording.
Proof. solve_decision. Defined.
#[global] Instance Obs_eq_dec : EqDecision Obs.
Proof. solve_decision. Defined.

(** *** Updating the records *)

Definition Act := State -> State.

Definition andThen (a b : Act) : Act := fun s => b (a s).
Notation "a >>> b" := (andThen a b) (at level 60, right associativity).

Definition skip : Act := fun s => s.

Definition withProps (f : Props -> Props) : Act := fun s =>
  mkState (f (props s)) (cells s) (refs s) (browser s) (hooks s) (trace s).
Definition withCells (f : Cells -> Cells) : Act := fun s =>
  mkState (props s) (f (cells s)) (refs s) (browser s) (hooks s) (trace s).
Definition withRefs (f : Refs -> Refs) : Act := fun s =>
  mkState (props s) (cells s) (f (refs s)) (browser s) (hooks s) (trace s).
Definition withBrowser (f : Browser -> Browser) : Act := fun s =>
  mkState (props s) (cells s) (refs s) (f (browser s)) (hooks s) (trace s).
Definition withHooks (f : Hooks -> Hooks) : Act := fun s =>
  mkState (props s) (cells s) (refs s) (browser s) (f (hooks s)) (trace s).
Definition emit (o : Obs) : Act := fun s =>
  mkState (props s) (cells s) (refs s) (browser s) (hooks s) (trace s ++ [o]).

(** The state setters; [updFlowState], [updTranscript] and
    [updRecordingDuration] are the functional form [setX(prev => ...)]. *)
Definition updFlowState (f : FlowState -> FlowState) : Act :=
  withCells (fun c => mkCells (f (flowState c)) (transcript c) (cameraStream c)
    (voiceStream c) (recordedVideoUrl c) (recordedAudioUrl c) (isRecordingMedia c)
    (recordingDuration c) (playbackIsPlaying c) (isPaused c) (nextRedoMode c)).
Definition setFlowState (v : FlowState) : Act := updFlowState (fun _ => v).
Definition updTranscript (f : string -> string) : Act :=
  withCells (fun c => mkCells (flowState c) (f (transcript c)) (cameraStream c)
    (voiceStream c) (recordedVideoUrl c) (recordedAudioUrl c) (isRecordingMedia c)
    (recordingDuration c) (playbackIsPlaying c) (isPaused c) (nextRedoMode c)).
Definition setTranscript (v : string) : Act := updTranscript (fun _ => v).
Definition setCameraStream (v : option nat) : Act :=
  withCells (fun c => mkCells (flowState c) (transcript c) v
    (voiceStream c) (recordedVideoUrl c) (recordedAudioUrl c) (isRecordingMedia c)
    (recordingDuration c) (playbackIsPlaying c) (isPaused c) (nextRedoMode c)).
Definition setVoiceStream (v : option nat) : Act :=
  withCells (fun c => mkCells (flowState c) (transcript c) (cameraStream c)
    v (recordedVideoUrl c) (recordedAudioUrl c) (isRecordingMedia c)
    (recordingDuration c) (playbackIsPlaying c) (isPaused c) (nextRedoMode c)).
Definition setRecordedVideoUrl (v : option Url) : Act :=
  withCells (fun c => mkCells (flowState c) (transcript c) (cameraStream c)
    (voiceStream c) v (recordedAudioUrl c) (isRecordingMedia c)
    (recordingDuration c) (playbackIsPlaying c) (isPaused c) (nextRedoMode c)).
Definition setRecordedAudioUrl (v : option Url) : Act :=
  withCells (fun c => mkCells (flowState c) (transcript c) (cameraStream c)
    (voiceStream c) (recordedVideoUrl c) v (isRecordingMedia c)
    (recordingDuration c) (playbackIsPlaying c) (isPaused c) (nextRedoMode c)).
Definition setIsRecordingMedia (v : bool) : Act :=
  withCells (fun c => mkCells (flowState c) (transcript c) (cameraStream c)
    (voiceStream c) (recordedVideoUrl c) (recordedAudioUrl c) v
    (recordingDuration c) (playbackIsPlaying c) (isPaused c) (nextRedoMode c)).
Definition updRecordingDuration (f : nat -> nat) : Act :=
  withCells (fun c => mkCells (flowState c) (transcript c) (cameraStream c)
    (voiceStream c) (recordedVideoUrl c) (recordedAudioUrl c) (isRecordingMedia c)
    (f (recordingDuration c)) (playbackIsPlaying c) (isPaused c) (nextRedoMode c)).
Definition setRecordingDuration (v : nat) : Act := updRecordingDuration (fun _ => v).
Definition setPlaybackIsPlaying (v : bool) : Act :=
  withCells (fun c => mkCells (flowState c) (transcript c) (cameraStream c)
    (voiceStream c) (recordedVideoUrl c) (recordedAudioUrl c) (isRecordingMedia c)
    (recordingDuration c) v (isPaused c) (nextRedoMode c)).
Definition setIsPaused (v : bool) : Act :=
  withCells (fun c => mkCells (flowState c) (transcript c) (cameraStream c)
    (voiceStream c) (recordedVideoUrl c) (recordedAudioUrl c) (isRecordingMedia c)
    (recordingDuration c) (playbackIsPlaying c) v (nextRedoMode c)).
Definition setNextRedoMode (v : option RedoMode) : Act :=
  withCells (fun c => mkCells (flowState c) (transcript c) (cameraStream c)
    (voiceStream c) (recordedVideoUrl c) (recordedAudioUrl c) (isRecordingMedia c)
    (recordingDuration c) (playbackIsPlaying c) (isPaused c) v).

Definition setMediaRecorderRef (v : option nat) : Act :=
  withRefs (fun r => mkRefs v (ttsSourceRef r) (ttsAudioContextRef r) (recognitionRef r)).
Definition setTtsSourceRef (v : option nat) : Act :=
  withRefs (fun r => mkRefs (mediaRecorderRef r) v (ttsAudioContextRef r) (recognitionRef r)).
Definition setTtsAudioContextRef (v : option nat) : Act :=
  withRefs (fun r => mkRefs (mediaRecorderRef r) (ttsSourceRef r) v (recognitionRef r)).
Definition setRecognitionRef (v : option nat) : Act :=
  withRefs (fun r => mkRefs (mediaRecorderRef r) (ttsSourceRef r) (ttsAudioContextRef r) v).

Definition updStreams (f : list bool -> list bool) : Act :=
  withBrowser (fun b => mkBrowser (speechRecognitionSupported b) (f (streams b))
    (recorders b) (recognizers b) (contexts b) (sources b) (utterances b)
    (speechCalls b) (gumCalls b) (objectUrls b)).
Definition updRecorders (f : list MediaRecorder -> list MediaRecorder) : Act :=
  withBrowser (fun b => mkBrowser (speechRecognitionSupported b) (streams b)
    (f (recorders b)) (recognizers b) (contexts b) (sources b) (utterances b)
    (speechCalls b) (gumCalls b) (objectUrls b)).
Definition updRecognizers (f : list Recognizer -> list Recognizer) : Act :=
  withBrowser (fun b => mkBrowser (speechRecognitionSupported b) (streams b)
    (recorders b) (f (recognizers b)) (contexts b) (sources b) (utterances b)
    (speechCalls b) (gumCalls b) (objectUrls b)).
Definition updContexts (f : list bool -> list bool) : Act :=
  withBrowser (fun b => mkBrowser (speechRecognitionSupported b) (streams b)
    (recorders b) (recognizers b) (f (contexts b)) (sources b) (utterances b)
    (speechCalls b) (gumCalls b) (objectUrls b)).
Definition updSources (f : list BufferSource -> list BufferSource) : Act :=
  withBrowser (fun b => mkBrowser (speechRecognitionSupported b) (streams b)
    (recorders b) (recognizers b) (contexts b) (f (sources b)) (utterances b)
    (speechCalls b) (gumCalls b) (objectUrls b)).
Definition updUtterances (f : list Utterance -> list Utterance) : Act :=
  withBrowser (fun b => mkBrowser (speechRecognitionSupported b) (streams b)
    (recorders b) (recognizers b) (contexts b) (sources b) (f (utterances b))
    (speechCalls b) (gumCalls b) (objectUrls b)).
Definition updSpeechCalls (f : list SpeechCall -> list SpeechCall) : Act :=
  withBrowser (fun b => mkBrowser (speechRecognitionSupported b) (streams b)
    (recorders b) (recognizers b) (contexts b) (sources b) (utterances b)
    (f (speechCalls b)) (gumCalls b) (objectUrls b)).
Definition updGumCalls (f : list GumCall -> list GumCall) : Act :=
  withBrowser (fun b => mkBrowser (speechRecognitionSupported b) (streams b)
    (recorders b) (recognizers b) (contexts b) (sources b) (utterances b)
    (speechCalls b) (f (gumCalls b)) (objectUrls b)).
Definition updObjectUrls (f : nat -> nat) : Act :=
  withBrowser (fun b => mkBrowser (speechRecognitionSupported b) (streams b)
    (recorders b) (recognizers b) (contexts b) (sources b) (utterances b)
    (speechCalls b) (gumCalls b) (f (objectUrls b))).

Definition setMounted (v : bool) : Act :=
  withHooks (fun h => mkHooks v (rendered h) (interval h) (runs h)).
Definition setRendered (v : option Deps) : Act :=
  withHooks (fun h => mkHooks (mounted h) v (interval h) (runs h)).
Definition setInterval (v : bool) : Act :=
  withHooks (fun h => mkHooks (mounted h) (rendered h) v (runs h)).
Definition updRuns (f : list EffectRun -> list EffectRun) : Act :=
  withHooks (fun h => mkHooks (mounted h) (rendered h) (interval h) (f (runs h))).

(** *** Browser operations *)

(** [stream.getTracks().forEach(t => t.stop())] *)
Definition stopTracks (i : nat) : Act := updStreams (fun l => <[i := false]> l).

(** [recognition.start()]: starts an idle instance; on any other it
    throws [InvalidStateError], which every caller catches and drops. *)
Definition recognizer_start (g : Recognizer) : Recognizer :=
  match rg_status g with
  | Idle => mkRecognizer Listening (rg_isRecordingMedia g) (rg_isPaused g) (rg_flowState g)
  | _ => g
  end.

(** [recognition.stop()]: a listening instance stops listening and its
    [end] event is queued. *)
Definition recognizer_stop (g : Recognizer) : Recognizer :=
  match rg_status g with
  | Listening => mkRecognizer Ending (rg_isRecordingMedia g) (rg_isPaused g) (rg_flowState g)
  | _ => g
  end.

Definition recognizer_end (g : Recognizer) : Recognizer :=
  mkRecognizer Idle (rg_isRecordingMedia g) (rg_isPaused g) (rg_flowState g).

(** [mediaRecorder.stop()], [.pause()], [.resume()] on a recorder that
    is not inactive. *)
Definition recorder_stop (m : MediaRecorder) : MediaRecorder :=
  mkRecorder (rec_stream m) (rec_mode m) inactive true.
Definition recorder_set (st : RecorderState) (m : MediaRecorder) : MediaRecorder :=
  mkRecorder (rec_stream m) (rec_mode m) st (rec_stopQueued m).
Definition recorder_delivered (m : MediaRecorder) : MediaRecorder :=
  mkRecorder (rec_stream m) (rec_mode m) (rec_state m) false.

(** [window.speechSynthesis.cancel()] *)
Definition utterance_cancel (u : Utterance) : Utterance :=
  match utt_status u with
  | Speaking => mkUtterance (utt_owner u) (utt_text u) Cancelled
  | _ => u
  end.
Definition speechSynthesis_cancel : Act := updUtterances (map utterance_cancel).

(** [window.speechSynthesis.speak(utter)] *)
Definition speechSynthesis_speak (o : Owner) (text : string) : Act :=
  updUtterances (fun l => l ++ [mkUtterance o text Speaking]).

Definition utterance_finish (u : Utterance) : Utterance :=
  mkUtterance (utt_owner u) (utt_text u) Finished.

(** [source.stop()] and the delivery of the [ended] event. *)
Definition source_stop (b : BufferSource) : BufferSource :=
  mkSource (src_owner b) true (src_ended b).
Definition source_finish (b : BufferSource) : BufferSource :=
  mkSource (src_owner b) (src_stopped b) true.

Definition speechCall_settle (c : SpeechCall) : SpeechCall :=
  mkSpeechCall (sc_owner c) (sc_text c) true.
Definition gumCall_settle (c : GumCall) : GumCall :=
  mkGumCall (gum_request c) true.

Definition isRecordingState (f : FlowState) : bool :=
  match f with RECORDING_VOICE | RECORDING_CAMERA => true | _ => false end.
Definition isCameraState (f : FlowState) : bool :=
  match f with PREVIEW_CAMERA | RECORDING_CAMERA => true | _ => false end.

(** *** The component's functions

    A function that reads props or state takes the render [r] it was
    created in; refs and browser objects are read from the current
    state. *)

Definition startListening : Act := fun s =>
  match recognitionRef (refs s) with
  | Some i => updRecognizers (alter recognizer_start i) s
  | None => s
  end.

Definition stopListening : Act := fun s =>
  match recognitionRef (refs s) with
  | Some i => updRecognizers (alter recognizer_stop i) s
  | None => s
  end.

(** [startCamera]: the [getUserMedia] promise is left pending; see
    [settleGum] for its continuation. *)
Definition startCamera : Act :=
  updGumCalls (fun l => l ++ [mkGumCall CameraRequest false]).

(** [stopCamera], with the [cameraStream] value its closure holds. *)
Definition stopCamera (captured : option nat) : Act :=
  match captured with
  | Some i => stopTracks i >>> setCameraStream None
  | None => skip
  end.

(** The part of [startRecording] after the stream is known. *)
Definition recordStream (i : nat) (mode : RecordMode) : Act := fun s =>
  let j := length (recorders (browser s)) in
  (setRecordingDuration 0 >>>
   setIsPaused false >>>
   updRecorders (fun l => l ++ [mkRecorder i mode recording false]) >>>
   setMediaRecorderRef (Some j) >>>
   match mode with
   | video => setFlowState RECORDING_CAMERA
   | audio => setTranscript EmptyString >>> setFlowState RECORDING_VOICE
   end) s.

Definition startRecording (mode : RecordMode) (r : State) : Act :=
  match mode with
  | video =>
      match cameraStream (cells r) with
      | Some i => recordStream i video
      | None => skip
      end
  | audio => updGumCalls (fun l => l ++ [mkGumCall VoiceRequest false])
  end.

(** The continuation of a [getUserMedia] promise. *)
Definition settleGum (c : nat) (granted : bool) : Act := fun s =>
  match gumCalls (browser s) !! c with
  | None => s
  | Some call =>
      let i := length (streams (browser s)) in
      (updGumCalls (alter gumCall_settle c) >>>
       match gum_request call, granted with
       | CameraRequest, true =>
           updStreams (fun l => l ++ [true]) >>> setCameraStream (Some i)
       | CameraRequest, false => emit (ConsoleError "Camera access failed")
       | VoiceRequest, true =>
           updStreams (fun l => l ++ [true]) >>> setVoiceStream (Some i) >>>
           recordStream i audio
       | VoiceRequest, false => emit (ConsoleError "Recording start failed")
       end) s
  end.

(** [mediaRecorder.onstop] *)
Definition onstop (j : nat) : Act := fun s =>
  match recorders (browser s) !! j with
  | None => s
  | Some m =>
      let url := mkUrl (rec_mode m) (objectUrls (browser s)) in
      (updRecorders (alter recorder_delivered j) >>>
       updObjectUrls S >>>
       match rec_mode m with
       | video => setRecordedVideoUrl (Some url)
       | audio =>
           setRecordedAudioUrl (Some url) >>>
           stopTracks (rec_stream m) >>> setVoiceStream None
       end) s
  end.

Definition stopRecordingMedia : Act := fun s =>
  match mediaRecorderRef (refs s) with
  | None => s
  | Some j =>
      match recorders (browser s) !! j with
      | None => s
      | Some m =>
          match rec_state m with
          | inactive => s
          | _ => (updRecorders (alter recorder_stop j) >>> setFlowState REVIEW) s
          end
      end
  end.

(** [togglePause]: [resume()] and [pause()] throw [InvalidStateError]
    on an inactive recorder, and nothing catches it. *)
Definition togglePause (r : State) : Act := fun s =>
  match mediaRecorderRef (refs s) with
  | None => s
  | Some j =>
      match recorders (browser s) !! j with
      | None => s
      | Some m =>
          match rec_state m with
          | inactive => emit (Uncaught "InvalidStateError") s
          | _ =>
              if isPaused (cells r)
              then (updRecorders (alter (recorder_set recording) j) >>>
                    setIsPaused false >>> startListening) s
              else (updRecorders (alter (recorder_set paused) j) >>>
                    setIsPaused true >>> stopListening) s
          end
      end
  end.

Definition handleTypingDone : Act := setFlowState REVIEW.

(** [performRedo]: the reset, then [redoAction()] up to its [await]. *)
Definition performRedo (mode : RedoMode) (r : State) : Act :=
  setTranscript EmptyString >>>
  setRecordedVideoUrl None >>>
  setRecordedAudioUrl None >>>
  setFlowState READING >>>
  setPlaybackIsPlaying false >>>
  speechSynthesis_cancel >>>
  updSpeechCalls (fun l => l ++ [mkSpeechCall (ByRedo mode) (qtext (question (props r))) false]).

Definition initiateRedo (mode : RedoMode) (r : State) : Act :=
  if dontAskRedo (props r)
  then performRedo mode r
  else setNextRedoMode (Some mode) >>> setFlowState REDO_CONFIRM.

(** [startNextMode] of [performRedo]; [mode] has one of three values,
    so the final [else] of the source is not reached. *)
Definition startNextMode (mode : RedoMode) (r : State) : Act :=
  match mode with
  | voice => startRecording audio r
  | camera => setFlowState PREVIEW_CAMERA
  | typing => setFlowState TYPING
  end.

(** [if (isMounted) setFlowState(prev => prev === 'READING' ? 'INPUT_SELECTION' : prev)] *)
Definition isMountedOf (k : nat) (s : State) : bool :=
  match runs (hooks s) !! k with
  | Some run => run_isMounted run
  | None => false
  end.

Definition narrationDone (o : Owner) (r : State) : Act := fun s =>
  match o with
  | ByEffect k =>
      if isMountedOf k s
      then updFlowState (fun prev => match prev with READING => INPUT_SELECTION | _ => prev end) s
      else s
  | ByRedo mode => startNextMode mode r s
  end.

(** [fallbackSynthesis] of the effect cancels first; [fallbackRedoSpeech]
    does not. *)
Definition fallbackSpeech (o : Owner) (text : string) : Act :=
  match o with
  | ByEffect _ => speechSynthesis_cancel >>> speechSynthesis_speak o text
  | ByRedo _ => speechSynthesis_speak o text
  end.

Definition createContext : Act := fun s =>
  let i := length (contexts (browser s)) in
  (updContexts (fun l => l ++ [true]) >>> setTtsAudioContextRef (Some i)) s.

Definition startSource (o : Owner) : Act := fun s =>
  let i := length (sources (browser s)) in
  (updSources (fun l => l ++ [mkSource o false false]) >>> setTtsSourceRef (Some i)) s.

(** [playQuestionAudio] and [redoAction] after their [await]. *)
Definition afterGenerateSpeech (o : Owner) (text : string) (out : SpeechOutcome) : Act := fun s =>
  match out with
  | Rejected => emit (Uncaught "generateSpeech rejected") s
  | _ =>
      let abandoned :=
        match o with ByEffect k => negb (isMountedOf k s) | ByRedo _ => false end in
      if abandoned then s else
      match out with
      | Playable => (createContext >>> startSource o) s
      | NoData => fallbackSpeech o text s
      | PlaybackThrows created =>
          ((if created then createContext else skip) >>>
           match o with
           | ByEffect _ =>
               emit (ConsoleError "Gemini TTS playback failed, falling back to synthesis")
           | ByRedo _ => skip
           end >>>
           fallbackSpeech o text) s
      | Rejected => s
      end
  end.

Definition settleSpeech (c : nat) (out : SpeechOutcome) : Act := fun s =>
  match speechCalls (browser s) !! c with
  | None => s
  | Some call =>
      (updSpeechCalls (alter speechCall_settle c) >>>
       afterGenerateSpeech (sc_owner call) (sc_text call) out) s
  end.

(** The 500 ms timer of the [[question]] effect fires:
    [playQuestionAudio()] up to its [await]. *)
Definition run_clearTimer (x : EffectRun) : EffectRun :=
  mkRun (run_isMounted x) false (run_question x) (run_voiceStream x) (run_cameraStream x).
Definition run_unmount (x : EffectRun) : EffectRun :=
  mkRun false false (run_question x) (run_voiceStream x) (run_cameraStream x).

Definition timerFired (k : nat) : Act := fun s =>
  match runs (hooks s) !! k with
  | None => s
  | Some x =>
      (updRuns (alter run_clearTimer k) >>>
       updSpeechCalls (fun l => l ++ [mkSpeechCall (ByEffect k) (qtext (run_question x)) false])) s
  end.

Definition sourceEnded (i : nat) (r : State) : Act := fun s =>
  match sources (browser s) !! i with
  | None => s
  | Some b => (updSources (alter source_finish i) >>> narrationDone (src_owner b) r) s
  end.

Definition utteranceEnded (j : nat) (r : State) : Act := fun s =>
  match utterances (browser s) !! j with
  | None => s
  | Some u => (updUtterances (alter utterance_finish j) >>> narrationDone (utt_owner u) r) s
  end.

(** [recognition.onresult]: [segments] are [event.results] from
    [event.resultIndex] on, each with its [isFinal] flag. *)
Fixpoint finalTranscript (segments : list (bool * string)) : string :=
  match segments with
  | [] => EmptyString
  | (isFinal, text) :: rest =>
      if isFinal
      then String.append (String.append text " ") (finalTranscript rest)
      else finalTranscript rest
  end.

Definition onresult (segments : list (bool * string)) : Act :=
  let final := finalTranscript segments in
  if decide (final = EmptyString) then skip
  else updTranscript (fun prev => String.append prev final).

(** [recognition.onend] of instance [i], with the values it captured. *)
Definition onend (i : nat) : Act := fun s =>
  match recognizers (browser s) !! i with
  | None => s
  | Some g =>
      let s1 := updRecognizers (alter recognizer_end i) s in
      if rg_isRecordingMedia g && negb (rg_isPaused g) &&
         negb (bool_decide (rg_flowState g = REVIEW))
      then
        match recognitionRef (refs s1) with
        | None => s1
        | Some c =>
            match recognizers (browser s1) !! c with
            | Some g' =>
                match rg_status g' with
                | Idle => (startListening >>> emit (ConsoleLog "Restarted speech recognition")) s1
                | _ => s1
                end
            | None => s1
            end
        end
      else s1
  end.

(** *** The effects *)

(** Timer effect, dependencies [[flowState, isPaused]]. *)
Definition timerCleanup : Act := setInterval false.

Definition timerEffect (r : State) : Act :=
  if isRecordingState (flowState (cells r)) && negb (isPaused (cells r))
  then setInterval true
  else skip.

(** "Initialize Speech Recognition", dependencies
    [[isRecordingMedia, isPaused, flowState]]: every run stores a new
    instance in [recognitionRef]; there is no cleanup. *)
Definition initRecognition (r : State) : Act := fun s =>
  if speechRecognitionSupported (browser s)
  then
    let i := length (recognizers (browser s)) in
    (updRecognizers (fun l => l ++ [mkRecognizer Idle (isRecordingMedia (cells r))
                                      (isPaused (cells r)) (flowState (cells r))]) >>>
     setRecognitionRef (Some i)) s
  else s.

(** The [[question]] effect: its body up to [setTimeout], and the
    cleanup of its latest run. *)
Definition questionEffect (r : State) : Act :=
  setFlowState READING >>>
  setTranscript EmptyString >>>
  setRecordedVideoUrl None >>>
  setRecordedAudioUrl None >>>
  setVoiceStream None >>>
  setCameraStream None >>>
  setRecordingDuration 0 >>>
  setIsPaused false >>>
  updRuns (fun l => l ++ [mkRun true true (question (props r))
                            (voiceStream (cells r)) (cameraStream (cells r))]).

Definition stopTtsSource : Act := fun s =>
  match ttsSourceRef (refs s) with
  | Some i => updSources (alter source_stop i) s
  | None => s
  end.

Definition closeTtsContext : Act := fun s =>
  match ttsAudioContextRef (refs s) with
  | Some i => updContexts (fun l => <[i := false]> l) s
  | None => s
  end.

Definition questionCleanup : Act := fun s =>
  let l := runs (hooks s) in
  match last l with
  | None => s
  | Some x =>
      (updRuns (alter run_unmount (pred (length l))) >>>
       speechSynthesis_cancel >>>
       stopTtsSource >>>
       closeTtsContext >>>
       stopCamera (run_cameraStream x) >>>
       stopListening >>>
       match run_voiceStream x with
       | Some v => stopTracks v
       | None => skip
       end) s
  end.

(** The effect with dependencies [[flowState]]. *)
Definition flowStateEffect (r : State) : Act :=
  (if isCameraState (flowState (cells r))
   then startCamera
   else stopCamera (cameraStream (cells r))) >>>
  (if isRecordingState (flowState (cells r))
   then setIsRecordingMedia true >>> startListening
   else setIsRecordingMedia false >>> stopListening).

(** *** Rendering *)

Definition depsOf (s : State) : Deps :=
  mkDeps (flowState (cells s)) (isPaused (cells s)) (isRecordingMedia (cells s))
         (question (props s)).

(** Did a dependency change since the last committed render?  On the
    first render every effect runs. *)
Definition changed {A} `{EqDecision A} (f : Deps -> A) (prev : option Deps) (cur : Deps) : bool :=
  match prev with
  | None => true
  | Some p => negb (bool_decide (f p = f cur))
  end.

Definition when (b : bool) (a : Act) : Act := if b then a else skip.

(** One render and its passive effects: the cleanups of the effects
    whose dependencies changed, then their bodies, in source order.  All
    of them close over the state [r] being rendered. *)
Definition render : Act := fun r =>
  let prev := rendered (hooks r) in
  let cur := depsOf r in
  let timerC := changed d_flowState prev cur || changed d_isPaused prev cur in
  let recognitionC := changed d_isRecordingMedia prev cur || changed d_isPaused prev cur
                      || changed d_flowState prev cur in
  let questionC := changed d_question prev cur in
  let flowC := changed d_flowState prev cur in
  (setRendered (Some cur) >>>
   when timerC timerCleanup >>>
   when questionC questionCleanup >>>
   when timerC (timerEffect r) >>>
   when recognitionC (initRecognition r) >>>
   when questionC (questionEffect r) >>>
   when flowC (flowStateEffect r)) r.

(** Render until the committed dependencies are the current ones. *)
Fixpoint commit (fuel : nat) (s : State) : State :=
  match fuel with
  | 0 => s
  | S n =>
      if decide (rendered (hooks s) = Some (depsOf s)) then s
      else commit n (render s)
  end.

Definition renderFuel : nat := 4.

Definition settled (s : State) : Prop := rendered (hooks s) = Some (depsOf s).

(** *** Mounting *)

Definition initialCells : Cells :=
  mkCells READING EmptyString None None None None false 0 false false None.

Definition initialState (p : Props) (speechRecognition : bool) : State :=
  mkState p initialCells (mkRefs None None None None)
    (mkBrowser speechRecognition [] [] [] [] [] [] [] [] 0)
    (mkHooks true None false []) [].

Definition mount (p : Props) (speechRecognition : bool) : State :=
  commit renderFuel (initialState p speechRecognition).

(** Unmounting runs the cleanups in source order. *)
Definition unmount : Act := timerCleanup >>> questionCleanup >>> setMounted false.

(** *** Events *)

Inductive Event :=
(* the respondent *)
| ClickMic | ClickVideo | ClickKeyboard
| ClickPause | ClickVoiceDone
| ClickCameraStart | ClickCameraDone
| ChangeTranscript (value : string)
| ClickTypingDone
| ClickRedo (mode : RedoMode)
| ClickRedoYes | ClickRedoCancel | ClickDontAskAgain
(* the parent component *)
| NewProps (p : Props)
| Unmount
(* the browser *)
| TimerFired (run : nat)
| SpeechSettled (call : nat) (out : SpeechOutcome)
| SourceEnded (source : nat)
| UtteranceEnded (utterance : nat)
| GumSettled (call : nat) (granted : bool)
| RecorderStopped (recorder : nat)
| Tick
| RecognitionResult (recognizer : nat) (segments : list (bool * string))
| RecognitionError (recognizer : nat) (error : string)
| RecognitionEnded (recognizer : nat).

Definition flowIs (f : FlowState) (s : State) : bool :=
  mounted (hooks s) && bool_decide (flowState (cells s) = f).

Definition recognizerStatus (i : nat) (s : State) : option RecognizerStatus :=
  rg_status <$> recognizers (browser s) !! i.

(** Which events can occur: a button can be clicked while the JSX
    renders it, a callback can be delivered while the browser holds
    it. *)
Definition enabled (s : State) (e : Event) : bool :=
  match e with
  | ClickMic | ClickVideo | ClickKeyboard => flowIs INPUT_SELECTION s
  | ClickPause | ClickVoiceDone => flowIs RECORDING_VOICE s
  | ClickCameraStart => flowIs PREVIEW_CAMERA s
  | ClickCameraDone => flowIs RECORDING_CAMERA s
  | ChangeTranscript _ => flowIs TYPING s || flowIs REVIEW s
  | ClickTypingDone => flowIs TYPING s
  | ClickRedo _ => flowIs REVIEW s
  | ClickRedoYes | ClickRedoCancel | ClickDontAskAgain => flowIs REDO_CONFIRM s
  | NewProps _ | Unmount => mounted (hooks s)
  | TimerFired k =>
      match runs (hooks s) !! k with Some x => run_timer x | None => false end
  | SpeechSettled c _ =>
      match speechCalls (browser s) !! c with Some x => negb (sc_settled x) | None => false end
  | SourceEnded i =>
      match sources (browser s) !! i with Some x => negb (src_ended x) | None => false end
  | UtteranceEnded j =>
      match utterances (browser s) !! j with
      | Some x => match utt_status x with Finished => false | _ => true end
      | None => false
      end
  | GumSettled c _ =>
      match gumCalls (browser s) !! c with Some x => negb (gum_settled x) | None => false end
  | RecorderStopped j =>
      match recorders (browser s) !! j with Some x => rec_stopQueued x | None => false end
  | Tick => interval (hooks s)
  | RecognitionResult i _ =>
      match recognizerStatus i s with Some Listening => true | _ => false end
  | RecognitionError i _ | RecognitionEnded i =>
      match recognizerStatus i s with Some Listening | Some Ending => true | _ => false end
  end.

(** The handler of each event, created in render [r]. *)
Definition handle (e : Event) (r : State) : Act :=
  match e with
  | ClickMic => startRecording audio r
  | ClickVideo => setFlowState PREVIEW_CAMERA
  | ClickKeyboard => setFlowState TYPING
  | ClickPause => togglePause r
  | ClickVoiceDone => stopRecordingMedia
  | ClickCameraStart => startRecording video r
  | ClickCameraDone => stopRecordingMedia
  | ChangeTranscript v => setTranscript v
  | ClickTypingDone => handleTypingDone
  | ClickRedo mode => initiateRedo mode r
  | ClickRedoYes =>
      match nextRedoMode (cells r) with
      | Some mode => performRedo mode r
      | None => skip
      end
  | ClickRedoCancel => setFlowState REVIEW
  | ClickDontAskAgain => emit (Call_setDontAskRedo (negb (dontAskRedo (props r))))
  | NewProps p => withProps (fun _ => p)
  | Unmount => unmount
  | TimerFired k => timerFired k
  | SpeechSettled c out => settleSpeech c out
  | SourceEnded i => sourceEnded i r
  | UtteranceEnded j => utteranceEnded j r
  | GumSettled c granted => settleGum c granted
  | RecorderStopped j => onstop j
  | Tick => updRecordingDuration S
  | RecognitionResult _ segments => onresult segments
  | RecognitionError _ error =>
      emit (ConsoleLog (String.append "Speech recognition error " error))
  | RecognitionEnded i => onend i
  end.

(** After a handler: a mounted component re-renders; on an unmounted
    one the state setters do nothing. *)
Definition afterHandler (before after : State) : State :=
  if mounted (hooks after)
  then commit renderFuel after
  else withCells (fun _ => cells before) after.

Definition step (s : State) (e : Event) : State :=
  if enabled s e then afterHandler s (handle e s s) else s.

Definition run (s : State) (es : list Event) : State := fold_left step es s.

(** *** Reading the state *)

(** The answer the Reviewing screen holds: the video player is rendered
    when [recordedVideoUrl] is set, the audio player when
    [recordedAudioUrl] is set, the transcript always. *)
Definition heldRecording (s : State) : option Recording :=
  match recordedVideoUrl (cells s), recordedAudioUrl (cells s) with
  | None, Some a => Some (AudioRecording a (transcript (cells s)))
  | Some v, None => Some (VideoRecording v (transcript (cells s)))
  | None, None => Some (TypedRecording (transcript (cells s)))
  | Some _, Some _ => None
  end.

Definition liveStreams (s : State) : nat :=
  length (filter (fun b => b = true) (streams (browser s))).

Definition openContexts (s : State) : nat :=
  length (filter (fun b => b = true) (contexts (browser s))).

Definition isCompletion (o : Obs) : bool :=
  match o with Call_onComplete _ => true | _ => false end.

Definition completions (s : State) : list Obs := List.filter isCompletion (trace s).

(** *** Relations between states used to state and prove the properties *)

(** What a render that does not re-run the [[question]] effect leaves
    alone: the timer, recognition and [[flowState]] effects touch only
    the interval, the recognizers and their ref, the camera stream and
    its pending requests, and [isRecordingMedia]. *)
Record effectsFrame (s s' : State) : Prop := mkEffectsFrame {
  ef_props : props s' = props s;
  ef_flowState : flowState (cells s') = flowState (cells s);
  ef_transcript : transcript (cells s') = transcript (cells s);
  ef_voiceStream : voiceStream (cells s') = voiceStream (cells s);
  ef_recordedVideoUrl : recordedVideoUrl (cells s') = recordedVideoUrl (cells s);
  ef_recordedAudioUrl : recordedAudioUrl (cells s') = recordedAudioUrl (cells s);
  ef_recordingDuration : recordingDuration (cells s') = recordingDuration (cells s);
  ef_playbackIsPlaying : playbackIsPlaying (cells s') = playbackIsPlaying (cells s);
  ef_isPaused : isPaused (cells s') = isPaused (cells s);
  ef_nextRedoMode : nextRedoMode (cells s') = nextRedoMode (cells s);
  ef_mediaRecorderRef : mediaRecorderRef (refs s') = mediaRecorderRef (refs s);
  ef_ttsSourceRef : ttsSourceRef (refs s') = ttsSourceRef (refs s);
  ef_ttsAudioContextRef : ttsAudioContextRef (refs s') = ttsAudioContextRef (refs s);
  ef_supported : speechRecognitionSupported (browser s') = speechRecognitionSupported (browser s);
  ef_recorders : recorders (browser s') = recorders (browser s);
  ef_contexts : contexts (browser s') = contexts (browser s);
  ef_sources : sources (browser s') = sources (browser s);
  ef_utterances : utterances (browser s') = utterances (browser s);
  ef_speechCalls : speechCalls (browser s') = speechCalls (browser s);
  ef_objectUrls : objectUrls (browser s') = objectUrls (browser s);
  ef_mounted : mounted (hooks s') = mounted (hooks s);
  ef_runs : runs (hooks s') = runs (hooks s);
  ef_trace : trace s' = trace s
}.

(** The last committed render was for the current question. *)
Definition questionCommitted (s : State) : Prop :=
  exists d, rendered (hooks s) = Some d /\ d_question d = question (props s).

(** An action that relates every state to its result. *)
Definition Pres (R : State -> State -> Prop) (a : Act) : Prop := forall s, R s (a s).

(** Equality of one reading of the state. *)
Definition same {A} (f : State -> A) (s s' : State) : Prop := f s' = f s.

(** The dependency values after one render, from those of the previous
    render and of the render itself: the [[question]] effect resets
    [flowState] and [isPaused], the [[flowState]] effect sets
    [isRecordingMedia]. *)
Definition nextDeps (prev : option Deps) (cur : Deps) : Deps :=
  let qC := changed d_question prev cur in
  let fC := changed d_flowState prev cur in
  mkDeps (if qC then READING else d_flowState cur)
         (if qC then false else d_isPaused cur)
         (if fC then isRecordingState (d_flowState cur) else d_isRecordingMedia cur)
         (d_question cur).

(** Between two events React has committed the render of a mounted
    component. *)
Definition committed (s : State) : Prop := mounted (hooks s) = true -> settled s.

(** The states the component can be in: mounted with some props, then
    any events. *)
Definition reachable (s : State) : Prop :=
  exists p speechRecognition es, s = run (mount p speechRecognition) es.



(** The message [console.error] gets when a [getUserMedia] promise is
    rejected. *)
Definition denialMessage (r : GumRequest) : string :=
  match r with
  | CameraRequest => "Camera access failed"
  | VoiceRequest => "Recording start failed"
  end.

(** The events that can reach the component while it records: timer
    ticks, the pause button, and the speech recognizers. *)
Definition duringRecording (e : Event) : bool :=
  match e with
  | Tick | ClickPause
  | RecognitionResult _ _ | RecognitionError _ _ | RecognitionEnded _ => true
  | _ => false
  end.

(** *** Sample data *)

Definition sampleQuestion : Question :=
  mkQuestion "q1" "Tell me about yourself" "Background".
Definition otherQuestion : Question :=
  mkQuestion "q2" "Why this team?" "Role".
Definition sampleProps : Props := mkProps sampleQuestion false.
Definition hastyProps : Props := mkProps sampleQuestion true.

(** Narration through the fallback synthesizer, up to the input
    selection. *)
Definition narrated : list Event :=
  [TimerFired 0; SpeechSettled 0 NoData; UtteranceEnded 0].

(** *** Runs of the [[question]] effect *)

(** A run whose [isMounted] is false and whose timer is cleared: its
    narration callbacks do nothing. *)
Definition deadRun (x : EffectRun) : Prop :=
  run_isMounted x = false /\ run_timer x = false.

(** The first [n] runs exist and are dead. *)
Definition deadBelow (n : nat) (s : State) : Prop :=
  n <= length (runs (hooks s)) /\
  forall k x, k < n -> runs (hooks s) !! k = Some x -> deadRun x.

(** Every run but the current one is dead. *)
Definition oldRunsDead (s : State) : Prop :=
  deadBelow (pred (length (runs (hooks s)))) s.

(** Runs are never removed nor revived. *)
Definition runsFade (s s' : State) : Prop :=
  forall k x, runs (hooks s) !! k = Some x ->
    exists x', runs (hooks s') !! k = Some x' /\
      (run_isMounted x = false -> run_isMounted x' = false) /\
      (run_timer x = false -> run_timer x' = false).

(** The run the [[question]] effect adds in render [r]. *)
Definition newRun (r : State) : EffectRun :=
  mkRun true true (question (props r)) (voiceStream (cells r)) (cameraStream (cells r)).

(** *** Recording in progress *)

(** The flow is in state [f], recording in [mode] with recorder [r],
    which is not inactive, and no artifact has been stored yet. *)
Definition recordingWith (f : FlowState) (mode : RecordMode) (r : nat) (s : State) : Prop :=
  mounted (hooks s) = true /\
  settled s /\
  flowState (cells s) = f /\
  mediaRecorderRef (refs s) = Some r /\
  (exists m, recorders (browser s) !! r = Some m /\
             rec_mode m = mode /\ rec_state m <> inactive) /\
  recordedVideoUrl (cells s) = None /\
  recordedAudioUrl (cells s) = None.

End QuestionFlow.

(** ** QuestionFlow: further readings of the state *)

Module QuestionFlowMore.
Import QuestionFlow.

(** The timer effect's interval is set exactly for the dependency
    values of the committed render that say "recording and not
    paused"; an unmounted component has none. *)
Definition intervalFollows (s : State) : Prop :=
  if mounted (hooks s)
  then exists d, rendered (hooks s) = Some d /\
                 interval (hooks s) = isRecordingState (d_flowState d) && negb (d_isPaused d)
  else interval (hooks s) = false.

(** The events that are clicks and edits of the respondent. *)
Definition isRespondentEvent (e : Event) : bool :=
  match e with
  | ClickMic | ClickVideo | ClickKeyboard | ClickPause | ClickVoiceDone
  | ClickCameraStart | ClickCameraDone | ChangeTranscript _ | ClickTypingDone
  | ClickRedo _ | ClickRedoYes | ClickRedoCancel | ClickDontAskAgain => true
  | _ => false
  end.

(** The moves between flow states that the buttons of the JSX make. *)
Definition buttonEdge (from to : FlowState) : bool :=
  match from, to with
  | INPUT_SELECTION, PREVIEW_CAMERA
  | INPUT_SELECTION, TYPING
  | PREVIEW_CAMERA, RECORDING_CAMERA
  | RECORDING_VOICE, REVIEW
  | RECORDING_CAMERA, REVIEW
  | TYPING, REVIEW
  | REVIEW, REDO_CONFIRM
  | REVIEW, READING
  | REDO_CONFIRM, READING
  | REDO_CONFIRM, REVIEW => true
  | _, _ => false
  end.

(** All segments of a recognition result are interim. *)
Definition allInterim (segments : list (bool * string)) : bool :=
  forallb (fun seg => negb (fst seg)) segments.

(** The current run of the [[question]] effect narrates the question
    of the committed render. *)
Definition narratesCommittedQuestion (s : State) : Prop :=
  forall d, rendered (hooks s) = Some d ->
    exists x, last (runs (hooks s)) = Some x /\ run_question x = d_question d.

(** The clicks on the pause button among some events. *)
Definition isPauseClick (e : Event) : bool :=
  match e with ClickPause => true | _ => false end.

Definition pauseClicks (es : list Event) : nat := length (List.filter isPauseClick es).

(** The recorder [r] is in the state the [isPaused] cell says. *)
Definition recorderFollowsPause (r : nat) (s : State) : Prop :=
  exists m, recorders (browser s) !! r = Some m /\
            rec_state m = if isPaused (cells s) then paused else recording.

(** Who started the narration whose end [e] reports: the buffer
    source of [source.onended], the utterance of [utter.onend]. *)
Definition narrationOwner (s : State) (e : Event) : option Owner :=
  match e with
  | SourceEnded i => src_owner <$> sources (browser s) !! i
  | UtteranceEnded j => utt_owner <$> utterances (browser s) !! j
  | _ => None
  end.

(** [isRecordingMedia] is what the [[flowState]] effect made of the
    flow state of the last committed render. *)
Definition flagFollowsFlow (s : State) : Prop :=
  exists d, rendered (hooks s) = Some d /\
            isRecordingMedia (cells s) = isRecordingState (d_flowState d).


End QuestionFlowMore.

(** ** decodePCM *)

Module PCM.
Import QArith_base.
#[local] Close Scope Q_scope.

(** A sample of a [Float32Array]: a number, or [NaN].  The only
    arithmetic of [decodePCM] is the division of a 16-bit integer by
    [32768.0], a power of two, which is exact in binary floating point
    and fits the 24-bit significand of a float32: the quotient is the
    rational number it denotes. *)
Inductive Sample := Number (q : Q) | NaN.

(** The [AudioBuffer] made by [ctx.createBuffer]. *)
Record AudioBuffer := mkBuffer {
  sampleRate : N;
  channels : list (list Sample)
}.

(** Two bytes as a little-endian two's complement 16-bit integer. *)
Definition int16 (lo hi : byte) : Z :=
  let u := (Z.of_N (Byte.to_N lo) + 256 * Z.of_N (Byte.to_N hi))%Z in
  if (u <? 32768)%Z then u else (u - 65536)%Z.

Fixpoint int16s (bytes : list byte) : list Z :=
  match bytes with
  | lo :: hi :: rest => int16 lo hi :: int16s rest
  | _ => []
  end.

(** [new Int16Array(data.buffer)]: a [RangeError] unless the byte
    length is a multiple of two.  (The bytes of the model are those of
    [data.buffer], which is all the code reads of [data].) *)
Definition Int16Array (bytes : list byte) : option (list Z) :=
  if Nat.even (length bytes) then Some (int16s bytes) else None.

(** What [decodePCM] uses of its [AudioContext]: [createBuffer], whose
    limits on the number of channels and on the sample rate are the
    implementation's.  (The Web Audio API asks for at least 32 channels
    and for the rates from 8000 to 96000 Hz.) *)
Record AudioContext := mkContext {
  maxChannels : nat;
  minRate : N;
  maxRate : N
}.

(** An implementation that conforms to the API. *)
Definition conforming (ctx : AudioContext) : Prop :=
  32 <= maxChannels ctx /\ (minRate ctx <= 8000)%N /\ (96000 <= maxRate ctx)%N.

(** A context with 32 channels and the rates from 3000 to 768000 Hz. *)
Definition sampleContext : AudioContext := mkContext 32 3000 768000.

(** [ctx.createBuffer(numChannels, length, sampleRate)]: zero-filled
    channels; a [NotSupportedError] when the number of channels is zero
    or above the limit, when there is no frame, or when the rate is
    outside the limits.  (A limit on the length, where an
    implementation has one, is not modelled.) *)
Definition createBuffer (ctx : AudioContext) (numChannels frames : nat) (rate : N)
    : option AudioBuffer :=
  if Nat.eqb numChannels 0 || Nat.ltb (maxChannels ctx) numChannels || Nat.eqb frames 0
     || N.ltb rate (minRate ctx) || N.ltb (maxRate ctx) rate
  then None
  else Some (mkBuffer rate (replicate numChannels (replicate frames (Number 0)))).

(** [dataInt16[k] / 32768.0]; reading past the end gives [undefined],
    and [undefined / 32768.0] is [NaN]. *)
Definition scaled (dataInt16 : list Z) (k : nat) : Sample :=
  match dataInt16 !! k with
  | Some v => Number (v # 32768)
  | None => NaN
  end.

(** The inner loop [for (let i = 0; i < frameCount; i++)], run for
    [iterations] values of [i]; storing past the end of a typed array
    does nothing. *)
Definition fillChannel (dataInt16 : list Z) (numChannels channel iterations : nat)
    (channelData : list Sample) : list Sample :=
  fold_left (fun arr i => <[i := scaled dataInt16 (i * numChannels + channel)]> arr)
            (seq 0 iterations) channelData.

(** [frameCount = dataInt16.length / numChannels] is a JavaScript
    number: [createBuffer] truncates it, the loop test [i < frameCount]
    holds for the integers below its ceiling.  (Lengths are below
    [2^32], where the double-precision quotient orders like the exact
    one.) *)
Definition framesOf (samples numChannels : nat) : nat := samples / numChannels.
Definition iterationsOf (samples numChannels : nat) : nat :=
  (samples + numChannels - 1) / numChannels.

Definition setChannel (channel : nat) (f : list Sample -> list Sample) (b : AudioBuffer)
    : AudioBuffer :=
  mkBuffer (sampleRate b) (alter f channel (channels b)).

(** [decodePCM(data, ctx, sampleRate, numChannels)]; [None] when it
    throws. *)
Definition decodePCM (data : list byte) (ctx : AudioContext) (rate : N) (numChannels : nat)
    : option AudioBuffer :=
  match Int16Array data with
  | None => None
  | Some dataInt16 =>
      let samples := length dataInt16 in
      match createBuffer ctx numChannels (framesOf samples numChannels) rate with
      | None => None
      | Some buffer =>
          Some (fold_left
                  (fun buf channel =>
                     setChannel channel
                       (fillChannel dataInt16 numChannels channel
                          (iterationsOf samples numChannels)) buf)
                  (seq 0 numChannels) buffer)
      end
  end.

(** The call of the component: [decodePCM(pcmData, ctx)], with the
    default rate and one channel. *)
Definition decodeQuestionAudio (pcmData : list byte) (ctx : AudioContext)
    : option AudioBuffer :=
  decodePCM pcmData ctx 24000 1.

(** A sample is a number in the range of the audio API, [-1 <= x < 1]. *)
Definition inRange (x : Sample) : Prop :=
  match x with
  | Number q => (-1 <= q)%Q /\ (q < 1)%Q
  | NaN => False
  end.

End PCM.

(** ** formatTime *)

Module FormatTime.

(** [String.prototype.padStart(targetLength, padString)]: the string is
    returned as it is when it is long enough or the filler is empty;
    otherwise the filler, repeated and cut to the missing length, is put
    in front. *)
Fixpoint cycle (missing : nat) (padString rest : string) : string :=
  match missing with
  | 0 => EmptyString
  | S n =>
      match rest with
      | String c rest' => String c (cycle n padString rest')
      | EmptyString =>
          match padString with
          | String c rest' => String c (cycle n padString rest')
          | EmptyString => EmptyString
          end
      end
  end.

Definition padStart (targetLength : nat) (padString s : string) : string :=
  String.append (cycle (targetLength - String.length s) padString padString) s.

(** [formatTime(seconds)] for the counter, a natural number;
    [pretty] is the decimal notation of [Number.prototype.toString]. *)
Definition formatTime (seconds : nat) : string :=
  let mins := seconds / 60 in
  let secs := seconds mod 60 in
  String.append (pretty mins) (String.append ":" (padStart 2 "0" (pretty secs))).

(** The value of a decimal digit, ["0"] to ["9"]; no other character
    has one. *)
Definition digitValue (c : ascii) : option nat :=
  let n := nat_of_ascii c in
  if Nat.leb 48 n && Nat.leb n 57 then Some (n - 48) else None.

(** The value of a field of exactly two decimal digits. *)
Definition twoDigits (s : string) : option nat :=
  match s with
  | String a (String b EmptyString) =>
      match digitValue a, digitValue b with
      | Some x, Some y => Some (10 * x + y)
      | _, _ => None
      end
  | _ => None
  end.

(** The seconds as [formatTime] shows them. *)
Definition secondsField (secs : nat) : string := padStart 2 "0" (pretty secs).

End FormatTime.

(** ** Playback of the recorded audio *)

Module Playback.
Import QuestionFlow.

(** The [HTMLAudioElement] made by [new Audio(recordedAudioUrl)]. *)
Record AudioElement := mkAudio {
  audio_src : Url;
  audio_playing : bool
}.

(** The cells and the ref that [handlePlayPause], the playback cleanup
    and [performRedo] use. *)
Record State := mkState {
  recordedAudioUrl : option Url;
  playbackIsPlaying : bool;
  playbackAudioRef : option AudioElement
}.

(** [useState(false)], [useRef(null)], and no recording yet. *)
Definition initial : State := mkState None false None.

Definition audio_set (playing : bool) (a : AudioElement) : AudioElement :=
  mkAudio (audio_src a) playing.

(** [handlePlayPause] *)
Definition handlePlayPause (st : State) : State :=
  match recordedAudioUrl st with
  | None => st
  | Some url =>
      let element :=
        match playbackAudioRef st with
        | Some a => a
        | None => mkAudio url false
        end in
      if playbackIsPlaying st
      then mkState (recordedAudioUrl st) false (Some (audio_set false element))
      else mkState (recordedAudioUrl st) true (Some (audio_set true element))
  end.

(** [playbackAudioRef.current.onended] *)
Definition onended (st : State) : State :=
  mkState (recordedAudioUrl st) false (audio_set false <$> playbackAudioRef st).

(** The part of [performRedo] on these cells: the URL is cleared, the
    flag reset, the element paused and dropped. *)
Definition performRedo (st : State) : State := mkState None false None.

(** The cleanup of the effect with no dependencies, at unmount: the
    element is paused and dropped; the cells are no longer used. *)
Definition cleanup (st : State) : State :=
  mkState (recordedAudioUrl st) (playbackIsPlaying st) None.

Inductive Event :=
| ClickPlayPause            (* the play button of the Reviewing screen *)
| Ended                     (* the element played to its end *)
| Redo                      (* [performRedo] *)
| UrlSet (url : option Url) (* [setRecordedAudioUrl] of [onstop] or of the [[question]] effect *)
| Unmount.

(** The play button is rendered while [recordedAudioUrl] is set; the
    [ended] event comes from an element that is playing. *)
Definition enabled (st : State) (e : Event) : bool :=
  match e with
  | ClickPlayPause => bool_decide (is_Some (recordedAudioUrl st))
  | Ended =>
      match playbackAudioRef st with Some a => audio_playing a | None => false end
  | _ => true
  end.

Definition step (st : State) (e : Event) : State :=
  if enabled st e then
    match e with
    | ClickPlayPause => handlePlayPause st
    | Ended => onended st
    | Redo => performRedo st
    | UrlSet url => mkState url (playbackIsPlaying st) (playbackAudioRef st)
    | Unmount => cleanup st
    end
  else st.

Definition run (st : State) (es : list Event) : State := fold_left step es st.

(** The flag that draws the pause icon is set exactly when there is an
    element and it plays. *)
Definition flagMirrorsElement (st : State) : Prop :=
  playbackIsPlaying st =
  match playbackAudioRef st with
  | Some a => audio_playing a
  | None => false
  end.

(** No event of the list unmounts the component. *)
Definition staysMounted (es : list Event) : bool :=
  forallb (fun e => match e with Unmount => false | _ => true end) es.

End Playback.

(** ** Navbar *)

Module Navbar.

Record Props := mkProps {
  canGoBack : bool;
  canGoForward : bool
}.

(** [useState(true)] *)
Record State := mkState {
  props : Props;
  isSoundOn : bool
}.

Definition initial (p : Props) : State := mkState p true.

Inductive Call := onBack | onForward | playHoverSound.

Inductive Event :=
| ClickBack | ClickForward | ClickSound
| EnterBack | EnterForward     (* [onMouseEnter] of a button is dispatched *)
| NewProps (p : Props).

(** [toggleSound] *)
Definition toggleSound (st : State) : State := mkState (props st) (negb (isSoundOn st)).

(** [onMouseEnter={isSoundOn ? playHoverSound : undefined}] *)
Definition onMouseEnter (st : State) : list Call :=
  if isSoundOn st then [playHoverSound] else [].

(** One event; a button with [disabled] set dispatches no click. *)
Definition step (st : State) (e : Event) : State * list Call :=
  match e with
  | ClickBack => (st, if canGoBack (props st) then [onBack] else [])
  | ClickForward => (st, if canGoForward (props st) then [onForward] else [])
  | ClickSound => (toggleSound st, [])
  | EnterBack | EnterForward => (st, onMouseEnter st)
  | NewProps p => (mkState p (isSoundOn st), [])
  end.

Fixpoint run (st : State) (es : list Event) : State * list Call :=
  match es with
  | [] => (st, [])
  | e :: es' =>
      let '(st1, c1) := step st e in
      let '(st2, c2) := run st1 es' in
      (st2, c1 ++ c2)
  end.

Definition isSoundClick (e : Event) : bool :=
  match e with ClickSound => true | _ => false end.

Definition soundClicks (es : list Event) : nat := length (List.filter isSoundClick es).

(** A list of events in which the parent never allows going back. *)
Definition neverBack (es : list Event) : bool :=
  forallb (fun e => match e with NewProps p => negb (canGoBack p) | _ => true end) es.

Definition count (c : Call) (l : list Call) : nat :=
  length (List.filter (fun x => match x, c with
                                | onBack, onBack | onForward, onForward
                                | playHoverSound, playHoverSound => true
                                | _, _ => false
                                end) l).

End Navbar.

(** ** CustomQuestionInput: the Add button *)

Module CustomQuestionInputFacts.
Import CustomQuestionInput.

Lemma trimStart_nil_iff s : trimStart s = [] <-> forallb isWhiteSpace s = true.
Proof.
  induction s as [|c s IH]; simpl; [tauto|].
  destruct (isWhiteSpace c); simpl; [exact IH|].
  split; intro H; discriminate H.
Qed.

Lemma trimStart_forallb s :
  forallb isWhiteSpace s = false -> forallb isWhiteSpace (trimStart s) = false.
Proof.
  induction s as [|c s IH]; simpl; [easy|].
  destruct (isWhiteSpace c) eqn:E; simpl; [exact IH|].
  intros _. now rewrite E.
Qed.

Lemma forallb_rev (s : jsstring) :
  forallb isWhiteSpace (rev s) = forallb isWhiteSpace s.
Proof.
  induction s as [|c s IH]; simpl; [reflexivity|].
  rewrite forallb_app, IH. simpl. rewrite andb_true_r. apply andb_comm.
Qed.

Lemma trim_nil_iff s : trim s = [] <-> forallb isWhiteSpace s = true.
Proof.
  unfold trim, trimEnd. split.
  - intro H. apply (f_equal (@rev N)) in H. rewrite rev_involutive in H.
    simpl in H. apply trimStart_nil_iff in H. rewrite forallb_rev in H.
    destruct (forallb isWhiteSpace s) eqn:E; [reflexivity|].
    apply trimStart_forallb in E. congruence.
  - intro H. apply trimStart_nil_iff in H. rewrite H. reflexivity.
Qed.

Lemma addEnabled_forallb st :
  addEnabled st = negb (forallb isWhiteSpace (questionText st)).
Proof.
  unfold addEnabled, addDisabled. rewrite negb_involutive.
  destruct (forallb isWhiteSpace (questionText st)) eqn:E.
  - apply trim_nil_iff in E. now rewrite E.
  - destruct (trim (questionText st)) eqn:T; [|reflexivity].
    apply trim_nil_iff in T. congruence.
Qed.

Lemma nonBlank_forallb s : nonBlank s <-> forallb isWhiteSpace s = false.
Proof.
  unfold nonBlank. induction s as [|c s IH]; simpl.
  - split; [intros (c & [] & _)|discriminate].
  - destruct (isWhiteSpace c) eqn:E; simpl.
    + rewrite <- IH. split.
      * intros (d & [<-|Hd] & Hw); [congruence|eauto].
      * intros (d & Hd & Hw). eauto.
    + split; [reflexivity|]. intros _. exists c. auto.
Qed.

Lemma addEnabled_nonBlank st :
  addEnabled st = true <-> nonBlank (questionText st).
Proof.
  rewrite addEnabled_forallb, nonBlank_forallb.
  destruct (forallb isWhiteSpace (questionText st)); simpl; split; congruence.
Qed.

Lemma step_calls v st e c :
  In c (snd (step v st e)) -> addEnabled st = true /\ calledQuestion c = questionText st.
Proof.
  destruct e; simpl; try (destruct v); simpl; try tauto.
  all: unfold addEnabled; destruct (addDisabled st); simpl; try tauto.
  all: intros [<-|[]]; auto.
Qed.

Lemma run_calls v es : forall st c,
  In c (snd (run v st es)) ->
  nonBlank (calledQuestion c) /\ trim (calledQuestion c) <> [].
Proof.
  induction es as [|e es IH]; intros st c; simpl; [tauto|].
  destruct (step v st e) as [st1 c1] eqn:S1.
  destruct (run v st1 es) as [st2 c2] eqn:R. simpl.
  rewrite in_app_iff. intros [H|H].
  - assert (Hs : In c (snd (step v st e))) by now rewrite S1.
    apply step_calls in Hs as [En ->].
    split; [now apply addEnabled_nonBlank|].
    intro T. apply trim_nil_iff in T.
    rewrite addEnabled_forallb, T in En. discriminate.
  - apply (IH st1). now rewrite R.
Qed.

(** C10.  In both variants of the component the Add button is enabled
    exactly when the question text has a character that is not white
    space, and every [onAdd] call the component ever makes, after any
    sequence of events, carries a question text that is non-blank and
    whose trimmed form is not empty. *)
Theorem add_requires_non_blank_question (v : Variant) :
  (forall st, addEnabled st = true <-> nonBlank (questionText st)) /\
  (forall st es c, In c (snd (run v st es)) ->
     nonBlank (calledQuestion c) /\ trim (calledQuestion c) <> []).
Proof.
  split.
  - apply addEnabled_nonBlank.
  - intros st es c. apply run_calls.
Qed.

(** The question "Hi" typed into the first variant, then Add. *)
Lemma add_requires_non_blank_question_witness :
  let calls := snd (run QuestionOnly initial [ChangeQuestion [72; 105]; ClickAdd])%N in
  In (onAdd1 [72; 105]%N) calls /\
  nonBlank (calledQuestion (onAdd1 [72; 105]%N)) /\
  trim (calledQuestion (onAdd1 [72; 105]%N)) <> [].
Proof.
  intro calls.
  assert (H : In (onAdd1 [72; 105]%N) calls) by (left; reflexivity).
  split; [exact H|].
  destruct (add_requires_non_blank_question QuestionOnly) as [_ A].
  exact (A initial [ChangeQuestion [72; 105]; ClickAdd]%N _ H).
Defined.

End CustomQuestionInputFacts.

(** ** QuestionFlow: rendering facts *)

Module QuestionFlowFacts.
Import QuestionFlow.

Section Preservation.
Context (R : State -> State -> Prop) `{!PreOrder R}.

Lemma Pres_skip : Pres R skip.
Proof. intro s. reflexivity. Qed.

Lemma Pres_andThen a b : Pres R a -> Pres R b -> Pres R (a >>> b).
Proof. intros Ha Hb s. unfold andThen. etransitivity; [apply Ha|apply Hb]. Qed.

Lemma Pres_when c a : Pres R a -> Pres R (when c a).
Proof. intros Ha. destruct c; [exact Ha|apply Pres_skip]. Qed.

End Preservation.

(** Splits a goal [Pres R a] along the structure of [a]. *)
Ltac pres :=
  lazymatch goal with
  | |- Pres _ (_ >>> _) => apply Pres_andThen; [typeclasses eauto ..|pres|pres]
  | |- Pres _ (when false _) => apply Pres_skip; try typeclasses eauto
  | |- Pres _ (when _ _) => apply Pres_when; [typeclasses eauto ..|pres]
  | |- Pres _ skip => apply Pres_skip; try typeclasses eauto
  | |- Pres _ (if ?b then _ else _) => destruct b; pres
  | |- Pres _ (match ?x with _ => _ end) => destruct x; pres
  | |- _ => idtac
  end.

Section Rendering.
Context (R : State -> State -> Prop) `{!PreOrder R}.

(** A relation kept by every stage of a render is kept by the render. *)
Lemma Pres_render :
  (forall d, Pres R (setRendered d)) ->
  Pres R timerCleanup -> Pres R questionCleanup ->
  (forall r, Pres R (timerEffect r)) -> (forall r, Pres R (initRecognition r)) ->
  (forall r, Pres R (questionEffect r)) -> (forall r, Pres R (flowStateEffect r)) ->
  Pres R render.
Proof.
  intros H1 H2 H3 H4 H5 H6 H7 r. unfold render.
  match goal with |- R r (?a r) => cut (Pres R a); [intro H; apply H|] end.
  pres; auto.
Qed.

(** The same for a render that does not re-run the [[question]] effect. *)
Lemma Pres_render_same_question r :
  changed d_question (rendered (hooks r)) (depsOf r) = false ->
  (forall d, Pres R (setRendered d)) ->
  Pres R timerCleanup ->
  (forall r, Pres R (timerEffect r)) -> (forall r, Pres R (initRecognition r)) ->
  (forall r, Pres R (flowStateEffect r)) ->
  R r (render r).
Proof.
  intros Hq H1 H2 H4 H5 H7. unfold render. rewrite Hq.
  match goal with |- R r (?a r) => cut (Pres R a); [intro H; apply H|] end.
  pres; auto.
Qed.

Lemma Pres_commit (P : State -> Prop) :
  (forall s, P s -> R s (render s) /\ P (render s)) ->
  forall n s, P s -> R s (commit n s) /\ P (commit n s).
Proof.
  intros Hr n. induction n as [|n IH]; intros s Hs; simpl.
  - split; [reflexivity|assumption].
  - destruct (decide _); [split; [reflexivity|assumption]|].
    destruct (Hr s Hs) as [H1 H2]. destruct (IH _ H2) as [H3 H4].
    split; [etransitivity; eassumption|assumption].
Qed.

End Rendering.

#[export] Instance effectsFrame_preorder : PreOrder effectsFrame.
Proof.
  split.
  - intro s. split; reflexivity.
  - intros s1 s2 s3 [] []. split; congruence.
Qed.

#[export] Instance same_preorder {A} (f : State -> A) : PreOrder (same f).
Proof. split; unfold same; [intro s; reflexivity|intros s1 s2 s3; congruence]. Qed.


(** *** The effects other than the [[question]] effect *)

Lemma frame_startListening : Pres effectsFrame startListening.
Proof. intro s. unfold startListening. case_match; split; reflexivity. Qed.

Lemma frame_stopListening : Pres effectsFrame stopListening.
Proof. intro s. unfold stopListening. case_match; split; reflexivity. Qed.

Lemma frame_stopCamera c : Pres effectsFrame (stopCamera c).
Proof. unfold stopCamera. pres; intro s; split; reflexivity. Qed.

Lemma frame_flowStateEffect r : Pres effectsFrame (flowStateEffect r).
Proof.
  unfold flowStateEffect.
  pres; try apply frame_startListening; try apply frame_stopListening;
    try apply frame_stopCamera; intro s; split; reflexivity.
Qed.

Lemma frame_initRecognition r : Pres effectsFrame (initRecognition r).
Proof. intro s. unfold initRecognition. case_match; split; reflexivity. Qed.

Lemma frame_timerEffect r : Pres effectsFrame (timerEffect r).
Proof. unfold timerEffect. pres; intro s; split; reflexivity. Qed.

Lemma frame_timerCleanup : Pres effectsFrame timerCleanup.
Proof. intro s; split; reflexivity. Qed.

Lemma frame_setRendered d : Pres effectsFrame (setRendered d).
Proof. intro s; split; reflexivity. Qed.

Lemma changed_question_committed s :
  questionCommitted s -> changed d_question (rendered (hooks s)) (depsOf s) = false.
Proof.
  intros (d & -> & Hd). simpl. rewrite Hd. rewrite bool_decide_eq_true_2; reflexivity.
Qed.

Ltac unfold_effects :=
  unfold flowStateEffect, questionEffect, questionCleanup, initRecognition, timerEffect,
    timerCleanup, stopTtsSource, closeTtsContext, startCamera, stopCamera, startListening,
    stopListening, stopTracks, speechSynthesis_cancel, speechSynthesis_speak,
    setFlowState, setTranscript, setRecordingDuration, when, skip, andThen in *.

(** A reading of the state that no stage of a render changes. *)
Ltac stage := intro; unfold same; unfold_effects; repeat case_match; reflexivity.

Lemma render_rendered r : rendered (hooks (render r)) = Some (depsOf r).
Proof.
  unfold render.
  set (c1 := _ || _). set (c2 := _ || _ || _). set (c3 := changed d_question _ _).
  set (c4 := changed d_flowState _ _). clearbody c1 c2 c3 c4.
  unfold andThen at 1.
  match goal with |- rendered (hooks (?a (setRendered ?d r))) = _ =>
    assert (H : Pres (same (fun s => rendered (hooks s))) a) end.
  { pres; stage. }
  rewrite H. reflexivity.
Qed.

Lemma render_props : Pres (same props) render.
Proof. apply Pres_render; try typeclasses eauto; intros; stage. Qed.

Lemma render_trace : Pres (same trace) render.
Proof. apply Pres_render; try typeclasses eauto; intros; stage. Qed.

Lemma render_mounted : Pres (same (fun s => mounted (hooks s))) render.
Proof. apply Pres_render; try typeclasses eauto; intros; stage. Qed.

Lemma render_frame r : questionCommitted r -> effectsFrame r (render r).
Proof.
  intro H. apply Pres_render_same_question; try typeclasses eauto.
  - now apply changed_question_committed.
  - apply frame_setRendered.
  - apply frame_timerCleanup.
  - apply frame_timerEffect.
  - apply frame_initRecognition.
  - apply frame_flowStateEffect.
Qed.

Lemma render_questionCommitted r : questionCommitted (render r).
Proof.
  exists (depsOf r). split; [apply render_rendered|].
  simpl. symmetry. f_equal. apply render_props.
Qed.

Lemma commit_frame n s : questionCommitted s -> effectsFrame s (commit n s).
Proof.
  intro H. apply (Pres_commit effectsFrame questionCommitted); [|assumption].
  intros r Hr. split; [now apply render_frame|apply render_questionCommitted].
Qed.

Lemma commit_same {A} (f : State -> A) n :
  Pres (same f) render -> Pres (same f) (commit n).
Proof.
  intros H s. apply (Pres_commit (same f) (fun _ => True)); [|exact I].
  intros r _. split; [apply H|exact I].
Qed.

Lemma commit_settled n s : settled s -> commit n s = s.
Proof.
  intro H. destruct n; simpl; [reflexivity|]. unfold settled in H.
  destruct (decide _); [reflexivity|contradiction].
Qed.

(** *** Rendering stops *)

Lemma render_deps r :
  depsOf (render r) =
  let qC := changed d_question (rendered (hooks r)) (depsOf r) in
  let fC := changed d_flowState (rendered (hooks r)) (depsOf r) in
  mkDeps (if qC then READING else flowState (cells r))
         (if qC then false else isPaused (cells r))
         (if fC then isRecordingState (flowState (cells r)) else isRecordingMedia (cells r))
         (question (props r)).
Proof.
  unfold render.
  set (c1 := _ || _). set (c2 := _ || _ || _). set (qC := changed d_question _ _).
  set (fC := changed d_flowState _ _). clearbody c1 c2.
  cbv zeta. clearbody qC fC.
  unfold andThen.
  set (s1 := when c2 _ _).
  assert (H1 : depsOf s1 = depsOf r).
  { subst s1.
    assert (H : Pres (same depsOf)
      (setRendered (Some (depsOf r)) >>> when c1 timerCleanup >>> when qC questionCleanup >>>
       when c1 (timerEffect r) >>> when c2 (initRecognition r))) by (pres; stage).
    apply H. }
  clearbody s1. unfold depsOf in *.
  injection H1 as E1 E2 E3 E4.
  destruct qC, fC; unfold when, skip; unfold_effects; repeat case_match; cbn;
    rewrite ?E1, ?E2, ?E3, ?E4; reflexivity.
Qed.

Lemma render_nextDeps r : depsOf (render r) = nextDeps (rendered (hooks r)) (depsOf r).
Proof. rewrite render_deps. reflexivity. Qed.

Lemma nextDeps_stops p d0 :
  let d1 := nextDeps p d0 in
  let d2 := nextDeps (Some d0) d1 in
  nextDeps (Some d1) d2 = d2.
Proof.
  destruct d0 as [f0 p0 r0 q0]. unfold nextDeps, changed. cbn.
  rewrite !(bool_decide_eq_true_2 (q0 = q0)) by reflexivity. cbn.
  match goal with |- context [bool_decide (?x = ?x)] =>
    rewrite (bool_decide_eq_true_2 (x = x)) by reflexivity end.
  reflexivity.
Qed.

(** Four renders are always enough: the result of [commit] is a
    committed render of the current dependency values. *)
Lemma commit_settles s : settled (commit renderFuel s).
Proof.
  unfold renderFuel, settled.
  cbn [commit]. destruct (decide _) as [E0|_]; [exact E0|].
  pose proof (render_rendered s) as R1. pose proof (render_nextDeps s) as D1.
  set (s1 := render s) in *. clearbody s1.
  destruct (decide _) as [E1|_]; [exact E1|].
  pose proof (render_rendered s1) as R2. pose proof (render_nextDeps s1) as D2.
  set (s2 := render s1) in *. clearbody s2.
  destruct (decide _) as [E2|_]; [exact E2|].
  pose proof (render_rendered s2) as R3. pose proof (render_nextDeps s2) as D3.
  set (s3 := render s2) in *. clearbody s3.
  destruct (decide _) as [E3|N3]; [exact E3|].
  exfalso. apply N3. rewrite R3. f_equal.
  rewrite D3, R2, D2, R1, D1. symmetry. apply nextDeps_stops.
Qed.

(** *** Handlers and steps *)

Ltac unfold_handlers :=
  unfold handle, startRecording, togglePause, stopRecordingMedia, handleTypingDone,
    initiateRedo, performRedo, unmount, timerFired, settleSpeech, afterGenerateSpeech,
    sourceEnded, utteranceEnded, narrationDone, startNextMode, startRecording, settleGum,
    recordStream, onstop, onresult, onend, fallbackSpeech, createContext, startSource,
    questionCleanup, timerCleanup, stopTtsSource, closeTtsContext, stopCamera,
    startListening, stopListening, stopTracks, speechSynthesis_cancel, speechSynthesis_speak,
    setFlowState, setTranscript, setRecordingDuration, skip, andThen in *.

Lemma handle_props e r s :
  (forall p, e <> NewProps p) -> props (handle e r s) = props s.
Proof.
  intro H. destruct e; try (exfalso; eapply H; reflexivity);
    unfold_handlers; repeat (case_match; try reflexivity); reflexivity.
Qed.

Lemma handle_rendered e r s : rendered (hooks (handle e r s)) = rendered (hooks s).
Proof. destruct e; unfold_handlers; repeat (case_match; try reflexivity); reflexivity. Qed.

Lemma handle_mounted e r s :
  e <> Unmount -> mounted (hooks (handle e r s)) = mounted (hooks s).
Proof.
  intro H. destruct e; try (exfalso; apply H; reflexivity);
    unfold_handlers; repeat (case_match; try reflexivity); reflexivity.
Qed.

Lemma step_disabled s e : enabled s e = false -> step s e = s.
Proof. unfold step. now intros ->. Qed.

Lemma settled_questionCommitted s : settled s -> questionCommitted s.
Proof. intro H. exists (depsOf s). split; [exact H|reflexivity]. Qed.

Lemma step_committed s e : committed s -> committed (step s e).
Proof.
  intro Hs. unfold step. destruct (enabled s e); [|exact Hs].
  unfold afterHandler. destruct (mounted (hooks (handle e s s))) eqn:M.
  - intros _. apply commit_settles.
  - unfold committed. simpl. rewrite M. discriminate.
Qed.

Lemma run_committed es : forall s, committed s -> committed (run s es).
Proof.
  induction es as [|e es IH]; intros s Hs; simpl; [exact Hs|].
  apply IH. now apply step_committed.
Qed.

Lemma mount_committed p sr : committed (mount p sr).
Proof. intros _. apply commit_settles. Qed.

Lemma reachable_committed s : reachable s -> committed s.
Proof. intros (p & sr & es & ->). apply run_committed, mount_committed. Qed.

(** An enabled event on a mounted, committed component: the handler
    runs, then the renders, which leave alone what [effectsFrame]
    lists. *)
Lemma step_enabled s e :
  (forall p, e <> NewProps p) -> e <> Unmount ->
  mounted (hooks s) = true -> settled s -> enabled s e = true ->
  effectsFrame (handle e s s) (step s e) /\
  settled (step s e) /\ mounted (hooks (step s e)) = true.
Proof.
  intros Hp Hu Hm Hs He. unfold step. rewrite He. unfold afterHandler.
  assert (M : mounted (hooks (handle e s s)) = true) by (rewrite handle_mounted; auto).
  rewrite M.
  assert (Q : questionCommitted (handle e s s)).
  { exists (depsOf s). rewrite handle_rendered. split; [exact Hs|].
    simpl. now rewrite handle_props. }
  pose proof (commit_frame renderFuel _ Q) as F.
  split; [exact F|]. split; [apply commit_settles|].
  rewrite (ef_mounted _ _ F). exact M.
Qed.

(** A handler that changes neither state nor props causes no render. *)
Lemma afterHandler_quiet s h :
  committed s ->
  cells h = cells s -> props h = props s -> hooks h = hooks s ->
  afterHandler s h = h.
Proof.
  intros Hs Hc Hp Hh. unfold afterHandler. rewrite Hh.
  destruct (mounted (hooks s)) eqn:M.
  - apply commit_settled. unfold settled, depsOf. rewrite Hh, Hc, Hp. now apply Hs.
  - destruct h; simpl in *; subst; reflexivity.
Qed.

Lemma lookup_snoc {A} (l : list A) (x : A) : (l ++ [x]) !! length l = Some x.
Proof. now apply list_lookup_middle. Qed.

(** *** Runs of the [[question]] effect *)

Lemma questionCleanup_runs s :
  runs (hooks (questionCleanup s)) =
  alter run_unmount (pred (length (runs (hooks s)))) (runs (hooks s)).
Proof.
  unfold questionCleanup. destruct (last (runs (hooks s))) eqn:L.
  - unfold_effects. repeat case_match; reflexivity.
  - apply last_None in L. rewrite L. reflexivity.
Qed.

Lemma render_runs r :
  runs (hooks (render r)) =
  if changed d_question (rendered (hooks r)) (depsOf r)
  then alter run_unmount (pred (length (runs (hooks r)))) (runs (hooks r)) ++ [newRun r]
  else runs (hooks r).
Proof.
  unfold render.
  set (c1 := _ || _). set (c2 := _ || _ || _). set (qC := changed d_question _ _).
  set (fC := changed d_flowState _ _). clearbody c1 c2 qC fC.
  assert (A : Pres (same (fun s => runs (hooks s))) (setRendered (Some (depsOf r)) >>> when c1 timerCleanup))
    by (pres; stage).
  assert (B : Pres (same (fun s => runs (hooks s))) (when c1 (timerEffect r) >>> when c2 (initRecognition r)))
    by (pres; stage).
  assert (C : Pres (same (fun s => runs (hooks s))) (when fC (flowStateEffect r))) by (pres; stage).
  unfold andThen in *. rewrite C. destruct qC; unfold when at 1.
  - change (runs (hooks (questionEffect r ?s))) with (runs (hooks s) ++ [newRun r]).
    rewrite B. unfold when at 1. rewrite questionCleanup_runs, A. reflexivity.
  - unfold skip. rewrite B. unfold when at 1, skip. apply A.
Qed.

#[export] Instance runsFade_preorder : PreOrder runsFade.
Proof.
  split.
  - intros s k x H. exists x. auto.
  - intros s1 s2 s3 H12 H23 k x H.
    destruct (H12 k x H) as (x2 & L2 & A2 & B2).
    destruct (H23 k x2 L2) as (x3 & L3 & A3 & B3).
    exists x3. auto.
Qed.

Lemma runsFade_same s s' : runs (hooks s') = runs (hooks s) -> runsFade s s'.
Proof. intros E k x H. exists x. rewrite E. auto. Qed.

Lemma runsFade_alter (f : EffectRun -> EffectRun) i s s' :
  (forall x, (run_isMounted x = false -> run_isMounted (f x) = false) /\
             (run_timer x = false -> run_timer (f x) = false)) ->
  runs (hooks s') = alter f i (runs (hooks s)) -> runsFade s s'.
Proof.
  intros Hf E k x H. rewrite E. destruct (decide (i = k)) as [->|N].
  - exists (f x). rewrite list_lookup_alter_eq, H. split; [reflexivity|apply Hf].
  - exists x. rewrite list_lookup_alter_ne by assumption. auto.
Qed.

Lemma run_unmount_fades x :
  (run_isMounted x = false -> run_isMounted (run_unmount x) = false) /\
  (run_timer x = false -> run_timer (run_unmount x) = false).
Proof. split; reflexivity. Qed.

Lemma run_clearTimer_fades x :
  (run_isMounted x = false -> run_isMounted (run_clearTimer x) = false) /\
  (run_timer x = false -> run_timer (run_clearTimer x) = false).
Proof. split; [tauto|reflexivity]. Qed.

Lemma render_runsFade r : runsFade r (render r).
Proof.
  intros k x H. rewrite render_runs. destruct (changed d_question _ _).
  - destruct (runsFade_alter run_unmount (pred (length (runs (hooks r)))) r
                (updRuns (alter run_unmount (pred (length (runs (hooks r))))) r)
                run_unmount_fades eq_refl k x H) as (x' & L & A & B).
    exists x'. split; [|auto]. apply lookup_app_l_Some. exact L.
  - exists x. auto.
Qed.

Lemma handle_runs e r s :
  (forall k, e <> TimerFired k) -> e <> Unmount ->
  runs (hooks (handle e r s)) = runs (hooks s).
Proof.
  intros H1 H2.
  destruct e;
    try solve [exfalso; eapply H1; reflexivity | exfalso; apply H2; reflexivity];
    unfold_handlers; repeat (case_match; try reflexivity); reflexivity.
Qed.

Lemma handle_runsFade e r s : runsFade s (handle e r s).
Proof.
  destruct e; try (apply runsFade_same, handle_runs; discriminate).
  - (* Unmount *)
    apply (runsFade_alter run_unmount (pred (length (runs (hooks s))))); 
      [apply run_unmount_fades|].
    cbn [handle]. unfold unmount, andThen.
    change (runs (hooks (setMounted false ?x))) with (runs (hooks x)).
    rewrite questionCleanup_runs. reflexivity.
  - (* TimerFired *)
    cbn [handle]. unfold timerFired. case_match; [|reflexivity].
    eapply runsFade_alter; [apply run_clearTimer_fades|reflexivity].
Qed.

Lemma commit_runsFade n s : runsFade s (commit n s).
Proof.
  apply (Pres_commit runsFade (fun _ => True)); [|exact I].
  intros r _. split; [apply render_runsFade|exact I].
Qed.

Lemma step_runsFade s e : runsFade s (step s e).
Proof.
  unfold step. destruct (enabled s e); [|reflexivity].
  unfold afterHandler. destruct (mounted _).
  - etransitivity; [apply handle_runsFade|apply commit_runsFade].
  - etransitivity; [apply handle_runsFade|]. now apply runsFade_same.
Qed.

Lemma run_runsFade es : forall s, runsFade s (run s es).
Proof.
  induction es as [|e es IH]; intro s; simpl; [reflexivity|].
  etransitivity; [apply step_runsFade|apply IH].
Qed.

Lemma runsFade_length s s' : runsFade s s' -> length (runs (hooks s)) <= length (runs (hooks s')).
Proof.
  intro H. destruct (runs (hooks s)) as [|x l] eqn:E using rev_ind; [simpl; lia|].
  clear IHl. destruct (H (length l) x) as (x' & L & _).
  - rewrite E. apply lookup_snoc.
  - apply lookup_lt_Some in L. rewrite length_app. simpl. lia.
Qed.

Lemma deadBelow_fade n s s' : deadBelow n s -> runsFade s s' -> deadBelow n s'.
Proof.
  intros [Hn Hd] F. split.
  - pose proof (runsFade_length _ _ F). lia.
  - intros k x' Hk L'.
    destruct (lookup_lt_is_Some_2 (runs (hooks s)) k) as [x L]; [lia|].
    destruct (F k x L) as (y & Ly & A & B).
    rewrite L' in Ly. injection Ly as <-.
    destruct (Hd k x Hk L). split; auto.
Qed.

Lemma isMountedOf_dead n k s : deadBelow n s -> k < n -> isMountedOf k s = false.
Proof.
  intros [Hn Hd] Hk. unfold isMountedOf.
  destruct (runs (hooks s) !! k) eqn:L; [|reflexivity].
  now destruct (Hd k _ Hk L).
Qed.

Lemma timer_dead n k s : deadBelow n s -> k < n -> enabled s (TimerFired k) = false.
Proof.
  intros [Hn Hd] Hk. cbn [enabled].
  destruct (runs (hooks s) !! k) eqn:L; [|reflexivity].
  now destruct (Hd k _ Hk L).
Qed.

(** A render that re-runs the [[question]] effect kills the run that
    was current. *)
Lemma render_kills r :
  oldRunsDead r ->
  changed d_question (rendered (hooks r)) (depsOf r) = true ->
  deadBelow (length (runs (hooks r))) (render r) /\ oldRunsDead (render r).
Proof.
  intros [_ Hd] Hq.
  assert (D : deadBelow (length (runs (hooks r))) (render r)).
  { split; rewrite render_runs, Hq.
    - rewrite length_app, length_alter. lia.
    - intros k x Hk L. rewrite lookup_app_l in L by (rewrite length_alter; exact Hk).
      destruct (decide (pred (length (runs (hooks r))) = k)) as [<-|N].
      + rewrite list_lookup_alter_eq in L.
        destruct (runs (hooks r) !! _); [|discriminate]. injection L as <-. split; reflexivity.
      + rewrite list_lookup_alter_ne in L by assumption. apply (Hd k x); [lia|exact L]. }
  split; [exact D|].
  unfold oldRunsDead. replace (pred (length (runs (hooks (render r)))))
    with (length (runs (hooks r))); [exact D|].
  rewrite render_runs, Hq, length_app, length_alter. simpl. lia.
Qed.

Lemma render_oldRunsDead r : oldRunsDead r -> oldRunsDead (render r).
Proof.
  intro H. destruct (changed d_question (rendered (hooks r)) (depsOf r)) eqn:Hq.
  - now apply render_kills.
  - unfold oldRunsDead, deadBelow in *. rewrite render_runs, Hq. exact H.
Qed.

Lemma commit_oldRunsDead n s : oldRunsDead s -> oldRunsDead (commit n s).
Proof.
  revert s. induction n as [|n IH]; intros s H; simpl; [exact H|].
  destruct (decide _); [exact H|]. apply IH, render_oldRunsDead, H.
Qed.

Lemma oldRunsDead_alter f i s s' :
  (forall x, (run_isMounted x = false -> run_isMounted (f x) = false) /\
             (run_timer x = false -> run_timer (f x) = false)) ->
  runs (hooks s') = alter f i (runs (hooks s)) ->
  oldRunsDead s -> oldRunsDead s'.
Proof.
  intros Hf E H.
  assert (L : length (runs (hooks s')) = length (runs (hooks s)))
    by (rewrite E; apply length_alter).
  unfold oldRunsDead. rewrite L.
  apply (deadBelow_fade _ s); [exact H|]. now apply (runsFade_alter f i).
Qed.

Lemma handle_oldRunsDead e r s : oldRunsDead s -> oldRunsDead (handle e r s).
Proof.
  intro H.
  assert (G : forall h, runs (hooks h) = runs (hooks s) -> oldRunsDead h).
  { intros h E. unfold oldRunsDead, deadBelow in *. rewrite E. exact H. }
  destruct e; try (apply G, handle_runs; discriminate).
  - apply (oldRunsDead_alter run_unmount (pred (length (runs (hooks s)))) s);
      [apply run_unmount_fades| |exact H].
    cbn [handle]. unfold unmount, andThen.
    change (runs (hooks (setMounted false ?x))) with (runs (hooks x)).
    rewrite questionCleanup_runs. reflexivity.
  - cbn [handle]. unfold timerFired. case_match; [|exact H].
    eapply oldRunsDead_alter; [apply run_clearTimer_fades|reflexivity|exact H].
Qed.

Lemma step_oldRunsDead s e : oldRunsDead s -> oldRunsDead (step s e).
Proof.
  intro H. unfold step. destruct (enabled s e); [|exact H].
  unfold afterHandler. destruct (mounted _).
  - apply commit_oldRunsDead, handle_oldRunsDead, H.
  - apply (handle_oldRunsDead e s) in H. exact H.
Qed.

Lemma reachable_oldRunsDead s : reachable s -> oldRunsDead s.
Proof.
  intros (p & sr & es & ->).
  assert (H : oldRunsDead (mount p sr)).
  { apply commit_oldRunsDead. split; [simpl; lia|]. intros k x Hk. simpl in Hk. lia. }
  revert H. generalize (mount p sr). induction es as [|e es IH]; intros s H; simpl; [exact H|].
  apply IH, step_oldRunsDead, H.
Qed.

End QuestionFlowFacts.

(** ** QuestionFlow: the properties *)

Module QuestionFlowProperties.
Import QuestionFlow QuestionFlowFacts.

(** *** Permission denial *)

(** C9.  When a pending [getUserMedia] request (camera or microphone)
    is rejected, the only thing that happens is one [console.error]:
    nothing is thrown, the state cells (the flow state among them), the
    refs, the recorders, the streams and React's bookkeeping are
    unchanged, so no recorder is started and the flow stays where it
    was; and with no camera stream the Start button of the preview does
    nothing. *)
Theorem permission_denial_is_silent (s : State) (c : nat) (call : GumCall) :
  committed s ->
  gumCalls (browser s) !! c = Some call ->
  gum_settled call = false ->
  let s' := step s (GumSettled c false) in
  trace s' = trace s ++ [ConsoleError (denialMessage (gum_request call))] /\
  cells s' = cells s /\
  refs s' = refs s /\
  hooks s' = hooks s /\
  recorders (browser s') = recorders (browser s) /\
  streams (browser s') = streams (browser s) /\
  (cameraStream (cells s) = None -> step s' ClickCameraStart = s').
Proof.
  intros Hs Hc Hp s'.
  assert (E : s' = settleGum c false s).
  { subst s'. unfold step. cbn [enabled]. rewrite Hc, Hp. cbn [negb].
    apply afterHandler_quiet; [exact Hs|..]; cbn [handle];
      unfold settleGum; rewrite Hc; destruct (gum_request call); reflexivity. }
  assert (F : s' = (updGumCalls (alter gumCall_settle c) >>>
                    emit (ConsoleError (denialMessage (gum_request call)))) s).
  { rewrite E. unfold settleGum. rewrite Hc. destruct (gum_request call); reflexivity. }
  clear E. repeat split; try (rewrite F; reflexivity).
  intro Hn. unfold step. destruct (enabled s' ClickCameraStart); [|reflexivity].
  assert (Hs' : committed s') by (subst s'; now apply step_committed).
  assert (Hn' : cameraStream (cells s') = None) by (rewrite F; exact Hn).
  assert (H : handle ClickCameraStart s' s' = s')
    by (cbn [handle startRecording]; rewrite Hn'; reflexivity).
  rewrite H. now apply afterHandler_quiet.
Qed.

(** A denied microphone request at the input selection, and a denied
    camera request in the preview. *)
Lemma permission_denial_is_silent_witness :
  let s := run (mount sampleProps true) (narrated ++ [ClickMic]) in
  flowState (cells (step s (GumSettled 0 false))) = INPUT_SELECTION /\
  trace (step s (GumSettled 0 false)) = [ConsoleError "Recording start failed"].
Proof.
  intro s.
  destruct (permission_denial_is_silent s 0 (mkGumCall VoiceRequest false))
    as (T & C & _); [intros _; reflexivity|reflexivity|reflexivity|].
  split; [rewrite C; reflexivity|rewrite T; reflexivity].
Defined.

(** *** Redo *)



(** *** Narration fallback *)

(** C7.  When the remote synthesis call of the [[question]] effect
    returns no data, or playing its result throws, the question text is
    spoken by the platform synthesizer instead; nothing is thrown and no
    state cell changes (the failure is at most logged with
    [console.error]), and when that utterance ends the flow moves from
    READING to INPUT_SELECTION. *)
Theorem narration_falls_back_to_synthesizer
    (s : State) (c k : nat) (call : SpeechCall) (out : SpeechOutcome) :
  mounted (hooks s) = true ->
  settled s ->
  flowState (cells s) = READING ->
  speechCalls (browser s) !! c = Some call ->
  sc_settled call = false ->
  sc_owner call = ByEffect k ->
  isMountedOf k s = true ->
  out = NoData \/ (exists created, out = PlaybackThrows created) ->
  let s1 := step s (SpeechSettled c out) in
  let u := length (utterances (browser s)) in
  utterances (browser s1) !! u = Some (mkUtterance (ByEffect k) (sc_text call) Speaking) /\
  cells s1 = cells s /\
  trace s1 = trace s ++
    match out with
    | PlaybackThrows _ =>
        [ConsoleError "Gemini TTS playback failed, falling back to synthesis"]
    | _ => []
    end /\
  flowState (cells (step s1 (UtteranceEnded u))) = INPUT_SELECTION.
Proof.
  intros Hm Hs Hf Hc Hp Ho Hk Hout s1 u.
  set (h := settleSpeech c out s).
  assert (Hh : h = (updSpeechCalls (alter speechCall_settle c) >>>
                    (if match out with PlaybackThrows true => true | _ => false end
                     then createContext else skip) >>>
                    match out with
                    | PlaybackThrows _ =>
                        emit (ConsoleError "Gemini TTS playback failed, falling back to synthesis")
                    | _ => skip
                    end >>>
                    fallbackSpeech (ByEffect k) (sc_text call)) s).
  { subst h. unfold settleSpeech. rewrite Hc, Ho. unfold andThen at 1.
    unfold afterGenerateSpeech.
    change (isMountedOf k (updSpeechCalls (alter speechCall_settle c) s))
      with (isMountedOf k s). rewrite Hk.
    destruct Hout as [->|[[] ->]]; reflexivity. }
  assert (E : s1 = h).
  { subst s1. unfold step. cbn [enabled]. rewrite Hc, Hp. cbn [negb handle]. fold h.
    apply afterHandler_quiet; [now intros _|..]; rewrite Hh;
      destruct Hout as [->|[[] ->]]; reflexivity. }
  assert (U : utterances (browser s1) =
              map utterance_cancel (utterances (browser s)) ++
                [mkUtterance (ByEffect k) (sc_text call) Speaking]).
  { rewrite E, Hh. destruct Hout as [->|[[] ->]]; reflexivity. }
  assert (L : utterances (browser s1) !! u =
              Some (mkUtterance (ByEffect k) (sc_text call) Speaking)).
  { rewrite U. subst u. rewrite <- (length_map utterance_cancel). apply lookup_snoc. }
  assert (C : cells s1 = cells s).
  { rewrite E, Hh. destruct Hout as [->|[[] ->]]; reflexivity. }
  assert (H1 : hooks s1 = hooks s).
  { rewrite E, Hh. destruct Hout as [->|[[] ->]]; reflexivity. }
  assert (P1 : props s1 = props s).
  { rewrite E, Hh. destruct Hout as [->|[[] ->]]; reflexivity. }
  split; [exact L|]. split; [exact C|]. split.
  { rewrite E, Hh. destruct Hout as [->|[[] ->]]; cbn; rewrite ?app_nil_r; reflexivity. }
  destruct (step_enabled s1 (UtteranceEnded u)) as (F & _ & _);
    [discriminate|discriminate|congruence| | |].
  { unfold settled, depsOf. rewrite H1, C, P1. exact Hs. }
  { cbn [enabled]. rewrite L. reflexivity. }
  rewrite (ef_flowState _ _ F). cbn [handle]. unfold utteranceEnded. rewrite L.
  unfold andThen. cbn [utt_owner narrationDone].
  change (isMountedOf k (updUtterances (alter utterance_finish u) s1))
    with (isMountedOf k s1).
  unfold isMountedOf in *. rewrite H1, Hk. cbn. rewrite C, Hf. reflexivity.
Qed.

(** The remote call of the first narration returns nothing. *)
Lemma narration_falls_back_to_synthesizer_witness :
  let s := run (mount sampleProps true) [TimerFired 0] in
  mounted (hooks s) = true /\ settled s /\ flowState (cells s) = READING /\
  flowState (cells (step (step s (SpeechSettled 0 NoData)) (UtteranceEnded 0)))
    = INPUT_SELECTION.
Proof.
  intro s. split; [reflexivity|]. split; [reflexivity|]. split; [reflexivity|].
  apply (narration_falls_back_to_synthesizer s 0 0
           (mkSpeechCall (ByEffect 0) "Tell me about yourself" false) NoData);
    try reflexivity.
  left; reflexivity.
Defined.

(** *** The completion callback *)

Lemma handle_completions e r s : completions (handle e r s) = completions s.
Proof.
  destruct e; unfold_handlers; unfold completions;
    repeat (case_match; try reflexivity); cbn;
    rewrite ?List.filter_app; cbn; rewrite ?app_nil_r; reflexivity.
Qed.

Lemma step_completions s e : completions (step s e) = completions s.
Proof.
  unfold step. destruct (enabled s e); [|reflexivity].
  unfold afterHandler. destruct (mounted _).
  - unfold completions. rewrite (commit_same trace renderFuel render_trace).
    apply handle_completions.
  - apply handle_completions.
Qed.

Lemma run_completions es : forall s, completions (run s es) = completions s.
Proof.
  induction es as [|e es IH]; intro s; simpl; [reflexivity|].
  rewrite IH. apply step_completions.
Qed.

(** C1, as the code behaves.  A typed answer is completed and under
    review, and [onComplete] has not been called; in fact no sequence of
    events after mounting ever makes the component call [onComplete]. *)
Theorem onComplete_is_never_called :
  (let s := run (mount sampleProps true)
              (narrated ++ [ClickKeyboard; ChangeTranscript "I build things"; ClickTypingDone]) in
   flowState (cells s) = REVIEW /\
   heldRecording s = Some (TypedRecording "I build things") /\
   completions s = []) /\
  (forall p speechRecognition es, completions (run (mount p speechRecognition) es) = []).
Proof.
  split; [repeat split|].
  intros p sr es. rewrite run_completions. unfold mount, completions.
  rewrite (commit_same trace renderFuel render_trace). reflexivity.
Qed.

(** *** Streams *)

(** C3, as the code behaves.  On the camera path the [[flowState]]
    effect calls [startCamera] again when the flow enters
    RECORDING_CAMERA: a second stream is opened while the first, which is
    being recorded, was never stopped; after Done and the recorder's
    [stop] event only the second one has been released. *)
Theorem camera_path_holds_two_streams :
  let s1 := run (mount sampleProps true)
              (narrated ++ [ClickVideo; GumSettled 0 true; ClickCameraStart]) in
  let s2 := step s1 (GumSettled 1 true) in
  let s3 := run s2 [ClickCameraDone; RecorderStopped 0] in
  (flowState (cells s1) = RECORDING_CAMERA /\ streams (browser s1) = [true] /\
   gumCalls (browser s1) = [mkGumCall CameraRequest true; mkGumCall CameraRequest false]) /\
  (flowState (cells s2) = RECORDING_CAMERA /\ streams (browser s2) = [true; true] /\
   liveStreams s2 = 2 /\ cameraStream (cells s2) = Some 1 /\
   recorders (browser s2) = [mkRecorder 0 video recording false]) /\
  (flowState (cells s3) = REVIEW /\ streams (browser s3) = [true; false] /\
   cameraStream (cells s3) = None).
Proof. repeat split. Qed.

(** C4, as the code behaves.  The cleanup of the [[question]] effect
    closes over the [voiceStream] of the render the effect ran in, which
    is [null]: when the component is unmounted, or gets another
    question, during a voice recording, the microphone stream stays
    live and its recorder keeps recording. *)
Theorem cleanup_leaves_microphone_open :
  let s := run (mount sampleProps true) (narrated ++ [ClickMic; GumSettled 0 true]) in
  let gone := step s Unmount in
  let next := step s (NewProps (mkProps otherQuestion false)) in
  (flowState (cells s) = RECORDING_VOICE /\ voiceStream (cells s) = Some 0 /\
   streams (browser s) = [true]) /\
  (mounted (hooks gone) = false /\ streams (browser gone) = [true] /\
   recorders (browser gone) = [mkRecorder 0 audio recording false]) /\
  (flowState (cells next) = READING /\ voiceStream (cells next) = None /\
   streams (browser next) = [true] /\
   recorders (browser next) = [mkRecorder 0 audio recording false]).
Proof. repeat split. Qed.

(** *** Pausing *)

(** C8, as the code behaves.  After Pause the interval is cleared and no
    tick can arrive, but the recognizer that is listening is not the one
    [recognitionRef] holds (the recognition effect replaced it after it
    was started), so [togglePause] stops another instance: the
    listening one still delivers results, which are appended to the
    transcript while the recording is paused. *)
Theorem pause_leaves_recognizer_listening :
  let s := run (mount sampleProps true)
             (narrated ++ [ClickMic; GumSettled 0 true; ClickPause]) in
  let s' := step s (RecognitionResult 2 [(true, "hello")]) in
  (flowState (cells s) = RECORDING_VOICE /\ isPaused (cells s) = true /\
   recorders (browser s) = [mkRecorder 0 audio paused false]) /\
  (interval (hooks s) = false /\ enabled s Tick = false) /\
  (recognitionRef (refs s) = Some 4 /\
   recognizerStatus 2 s = Some Listening /\ recognizerStatus 4 s = Some Idle) /\
  (transcript (cells s) = EmptyString /\ isPaused (cells s') = true /\
   transcript (cells s') = "hello ").
Proof. repeat split. Qed.

(** *** Question change during narration *)

Lemma step_unmounted_cells s e : mounted (hooks s) = false -> cells (step s e) = cells s.
Proof.
  intro M. unfold step. destruct (enabled s e) eqn:E; [|reflexivity].
  assert (U : e <> Unmount).
  { intros ->. cbn [enabled] in E. congruence. }
  unfold afterHandler. rewrite (handle_mounted e s s U), M. reflexivity.
Qed.

(** The handler of a narration callback whose run is dead does
    nothing but mark the browser object. *)
Lemma dead_source_ended s i b k :
  committed s ->
  sources (browser s) !! i = Some b -> src_owner b = ByEffect k ->
  isMountedOf k s = false ->
  cells (step s (SourceEnded i)) = cells s.
Proof.
  intros Hs Hb Ho Hk. unfold step. destruct (enabled _ _); [|reflexivity].
  assert (E : handle (SourceEnded i) s s = updSources (alter source_finish i) s).
  { cbn [handle]. unfold sourceEnded. rewrite Hb, Ho. unfold andThen. cbn [narrationDone].
    change (isMountedOf k (updSources (alter source_finish i) s)) with (isMountedOf k s).
    now rewrite Hk. }
  rewrite E, afterHandler_quiet; auto.
Qed.

Lemma dead_utterance_ended s j u k :
  committed s ->
  utterances (browser s) !! j = Some u -> utt_owner u = ByEffect k ->
  isMountedOf k s = false ->
  cells (step s (UtteranceEnded j)) = cells s.
Proof.
  intros Hs Hb Ho Hk. unfold step. destruct (enabled _ _); [|reflexivity].
  assert (E : handle (UtteranceEnded j) s s = updUtterances (alter utterance_finish j) s).
  { cbn [handle]. unfold utteranceEnded. rewrite Hb, Ho. unfold andThen. cbn [narrationDone].
    change (isMountedOf k (updUtterances (alter utterance_finish j) s)) with (isMountedOf k s).
    now rewrite Hk. }
  rewrite E, afterHandler_quiet; auto.
Qed.

Lemma dead_speech_settled s c call k out :
  committed s ->
  speechCalls (browser s) !! c = Some call -> sc_owner call = ByEffect k ->
  isMountedOf k s = false ->
  let s' := step s (SpeechSettled c out) in
  cells s' = cells s /\ refs s' = refs s /\
  sources (browser s') = sources (browser s) /\
  utterances (browser s') = utterances (browser s) /\
  contexts (browser s') = contexts (browser s).
Proof.
  intros Hs Hb Ho Hk s'. subst s'. unfold step.
  destruct (enabled _ _); [|repeat split].
  assert (E : handle (SpeechSettled c out) s s =
              (updSpeechCalls (alter speechCall_settle c) >>>
               match out with
               | Rejected => emit (Uncaught "generateSpeech rejected")
               | _ => skip
               end) s).
  { cbn [handle]. unfold settleSpeech. rewrite Hb, Ho. unfold andThen, afterGenerateSpeech.
    change (isMountedOf k (updSpeechCalls (alter speechCall_settle c) s)) with (isMountedOf k s).
    rewrite Hk. destruct out; reflexivity. }
  rewrite E, afterHandler_quiet; auto; destruct out; repeat split.
Qed.

(** What a change of question does at once. *)
Lemma question_change_step s p' :
  committed s -> oldRunsDead s ->
  mounted (hooks s) = true ->
  question p' <> question (props s) ->
  let s1 := step s (NewProps p') in
  flowState (cells s1) = READING /\
  deadBelow (length (runs (hooks s))) s1.
Proof.
  intros Hs Hd Hm Hq s1.
  set (h := withProps (fun _ => p') s).
  assert (E : s1 = commit 3 (render h)).
  { subst s1. unfold step. cbn [enabled]. rewrite Hm. unfold afterHandler.
    cbn [handle]. fold h. change (mounted (hooks h)) with (mounted (hooks s)). rewrite Hm.
    unfold renderFuel. cbn [commit]. destruct (decide _) as [E|_]; [|reflexivity].
    exfalso. change (rendered (hooks h)) with (rendered (hooks s)) in E.
    rewrite (Hs Hm) in E. injection E as E. apply Hq. symmetry. exact E. }
  assert (C : changed d_question (rendered (hooks h)) (depsOf h) = true).
  { change (rendered (hooks h)) with (rendered (hooks s)). rewrite (Hs Hm). cbn.
    rewrite bool_decide_eq_false_2; [reflexivity|]. intro X. apply Hq. symmetry. exact X. }
  split.
  - rewrite E, (ef_flowState _ _ (commit_frame 3 _ (render_questionCommitted h))).
    change (flowState (cells (render h))) with (d_flowState (depsOf (render h))).
    rewrite render_deps. cbv zeta. rewrite C. reflexivity.
  - rewrite E. apply (deadBelow_fade _ (render h)); [|apply commit_runsFade].
    apply (render_kills h); [exact Hd|exact C].
Qed.

(** C5, as the code behaves.  A narration started by [performRedo] is
    in progress when the question changes.  The cleanup of the
    [[question]] effect cancels the utterance, stops the source and
    closes the context, but [source.onended], [utter.onend] and
    [redoAction] of [performRedo] have no [isMounted] guard: the end of
    the cancelled narration moves the flow of the new question out of
    READING (to TYPING on the fallback path; to PREVIEW_CAMERA, with a
    camera request, on the remote path), and a synthesis call that was
    still pending speaks the text of the old question.  The narration
    of the [[question]] effect is guarded: the end of its cancelled
    utterance leaves the flow in READING. *)
Theorem question_change_lets_redo_narration_end :
  let answered :=
    narrated ++ [ClickKeyboard; ChangeTranscript "I build things"; ClickTypingDone] in
  let next := NewProps (mkProps otherQuestion true) in
  (let s := run (mount hastyProps true)
              (answered ++ [ClickRedo typing; SpeechSettled 1 NoData]) in
   let s1 := step s next in
   let s2 := step s1 (UtteranceEnded 1) in
   (flowState (cells s) = READING /\
    utterances (browser s) !! 1 =
      Some (mkUtterance (ByRedo typing) "Tell me about yourself" Speaking)) /\
   (flowState (cells s1) = READING /\ question (props s1) = otherQuestion /\
    utterances (browser s1) !! 1 =
      Some (mkUtterance (ByRedo typing) "Tell me about yourself" Cancelled)) /\
   (flowState (cells s2) = TYPING /\ question (props s2) = otherQuestion)) /\
  (let s := run (mount hastyProps true)
              (answered ++ [ClickRedo camera; SpeechSettled 1 Playable]) in
   let s1 := step s next in
   let s2 := step s1 (SourceEnded 0) in
   (flowState (cells s) = READING /\
    sources (browser s) = [mkSource (ByRedo camera) false false] /\
    contexts (browser s) = [true]) /\
   (flowState (cells s1) = READING /\ question (props s1) = otherQuestion /\
    sources (browser s1) = [mkSource (ByRedo camera) true false] /\
    contexts (browser s1) = [false]) /\
   (flowState (cells s2) = PREVIEW_CAMERA /\
    gumCalls (browser s2) = [mkGumCall CameraRequest false])) /\
  (let s := run (mount hastyProps true) (answered ++ [ClickRedo voice]) in
   let s1 := step s next in
   let s2 := step s1 (SpeechSettled 1 NoData) in
   (flowState (cells s1) = READING /\ qtext (question (props s1)) = "Why this team?") /\
   utterances (browser s2) !! 1 =
     Some (mkUtterance (ByRedo voice) "Tell me about yourself" Speaking)) /\
  (let s := run (mount hastyProps true) [TimerFired 0; SpeechSettled 0 NoData] in
   let s1 := step s next in
   let s2 := step s1 (UtteranceEnded 0) in
   utterances (browser s1) = [mkUtterance (ByEffect 0) "Tell me about yourself" Cancelled] /\
   flowState (cells s1) = READING /\ flowState (cells s2) = READING).
Proof. repeat split. Qed.

(** *** The three answer paths *)

Lemma flowIs_true f s :
  mounted (hooks s) = true -> flowState (cells s) = f -> flowIs f s = true.
Proof. intros M F. unfold flowIs. rewrite M, F. now rewrite bool_decide_eq_true_2. Qed.

Lemma flowIs_other f g s : flowState (cells s) = f -> f <> g -> flowIs g s = false.
Proof.
  intros F N. unfold flowIs. rewrite F, bool_decide_eq_false_2 by exact N.
  apply andb_false_r.
Qed.

(** The events of a recording in progress keep it in progress. *)
Lemma recording_continues f mode r s e :
  isRecordingState f = true ->
  recordingWith f mode r s -> duringRecording e = true ->
  recordingWith f mode r (step s e).
Proof.
  intros Hf Hs He. pose proof Hs as (M & S & F & R & (m & L & Mo & St) & V & A).
  destruct (enabled s e) eqn:En; [|now rewrite step_disabled].
  destruct (step_enabled s e) as (Fr & S' & M');
    [destruct e; discriminate|destruct e; discriminate|assumption..|].
  assert (G : flowState (cells (handle e s s)) = f /\
              mediaRecorderRef (refs (handle e s s)) = Some r /\
              (exists m', recorders (browser (handle e s s)) !! r = Some m' /\
                          rec_mode m' = mode /\ rec_state m' <> inactive) /\
              recordedVideoUrl (cells (handle e s s)) = None /\
              recordedAudioUrl (cells (handle e s s)) = None).
  { destruct e; try discriminate He; cbn [handle].
    - (* ClickPause *)
      unfold togglePause. rewrite R, L.
      destruct (rec_state m) eqn:Sm; [congruence| |];
        destruct (isPaused (cells s)); unfold andThen, startListening, stopListening;
        repeat case_match; cbn; rewrite ?list_lookup_alter_eq, ?L; cbn;
        (repeat split; try assumption; eexists; (split; [reflexivity|]); split;
         [exact Mo|discriminate]).
    - (* Tick *) repeat split; try assumption. eauto.
    - (* RecognitionResult *)
      unfold onresult. case_match; repeat split; try assumption; eauto.
    - (* RecognitionError *) repeat split; try assumption. eauto.
    - (* RecognitionEnded *)
      unfold onend. unfold andThen, startListening.
      repeat case_match; repeat split; try assumption; eauto. }
  destruct G as (G1 & G2 & G3 & G4 & G5). destruct Fr.
  split; [exact M'|]. split; [exact S'|].
  split; [congruence|]. split; [congruence|].
  split; [rewrite ef_recorders0; exact G3|].
  split; congruence.
Qed.

Lemma recording_continues_run f mode r es : forall s,
  isRecordingState f = true ->
  recordingWith f mode r s -> forallb duringRecording es = true ->
  recordingWith f mode r (run s es).
Proof.
  induction es as [|e es IH]; intros s Hf Hs He; simpl; [exact Hs|].
  simpl in He. apply andb_prop in He as [He1 He2].
  apply IH; auto. now apply recording_continues.
Qed.


(** Picking the microphone and being granted it starts a voice
    recording. *)
Lemma voice_recording_starts s :
  mounted (hooks s) = true -> settled s ->
  flowState (cells s) = INPUT_SELECTION ->
  recordedVideoUrl (cells s) = None -> recordedAudioUrl (cells s) = None ->
  recordingWith RECORDING_VOICE audio (length (recorders (browser s)))
    (run s [ClickMic; GumSettled (length (gumCalls (browser s))) true]).
Proof.
  intros M S F V A. cbn [run fold_left].
  set (s1 := step s ClickMic).
  assert (E : s1 = updGumCalls (fun l => l ++ [mkGumCall VoiceRequest false]) s).
  { subst s1. unfold step. cbn [enabled]. rewrite (flowIs_true _ _ M F).
    apply afterHandler_quiet; [now intros _|reflexivity..]. }
  set (g := length (gumCalls (browser s))).
  assert (L : gumCalls (browser s1) !! g = Some (mkGumCall VoiceRequest false)).
  { rewrite E. apply lookup_snoc. }
  destruct (step_enabled s1 (GumSettled g true)) as (Fr & S2 & M2);
    [discriminate|discriminate|rewrite E; exact M|rewrite E; exact S| |].
  { cbn [enabled]. now rewrite L. }
  cbn [handle] in Fr. unfold settleGum in Fr. rewrite L in Fr.
  cbn [gum_request] in Fr. destruct Fr.
  split; [exact M2|]. split; [exact S2|].
  split; [rewrite ef_flowState0; reflexivity|].
  split; [rewrite ef_mediaRecorderRef0; cbn; rewrite E; reflexivity|].
  split.
  { eexists. rewrite ef_recorders0. cbn. rewrite E. cbn.
    split; [apply lookup_snoc|]. split; [reflexivity|discriminate]. }
  split.
  - rewrite ef_recordedVideoUrl0. cbn. rewrite E. exact V.
  - rewrite ef_recordedAudioUrl0. cbn. rewrite E. exact A.
Qed.

(** *** Camera requests *)

Lemma afterHandler_same_deps s h :
  mounted (hooks h) = true -> rendered (hooks h) = Some (depsOf h) ->
  afterHandler s h = h.
Proof. intros M S. unfold afterHandler. rewrite M. now apply commit_settled. Qed.

(** A render asks for the camera exactly when the flow state changed
    and is now a camera state. *)
Lemma render_gumCalls r :
  questionCommitted r ->
  gumCalls (browser (render r)) =
  if changed d_flowState (rendered (hooks r)) (depsOf r) &&
     isCameraState (flowState (cells r))
  then gumCalls (browser r) ++ [mkGumCall CameraRequest false]
  else gumCalls (browser r).
Proof.
  intro Q. unfold render. rewrite (changed_question_committed r Q).
  set (c1 := _ || _). set (c2 := _ || _ || _).
  set (fC := changed d_flowState _ _). clearbody c1 c2 fC.
  assert (P : Pres (same (fun x => gumCalls (browser x)))
            (setRendered (Some (depsOf r)) >>> when c1 timerCleanup >>>
             when false questionCleanup >>> when c1 (timerEffect r) >>>
             when c2 (initRecognition r) >>> when false (questionEffect r)))
    by (pres; stage).
  unfold andThen in *. destruct fC; cbn [andb].
  - change (when true (flowStateEffect r) ?x) with (flowStateEffect r x).
    unfold flowStateEffect.
    destruct (isCameraState (flowState (cells r))), (isRecordingState (flowState (cells r)));
      unfold andThen, startCamera, stopCamera, startListening, stopListening;
      repeat case_match; cbn; rewrite P; reflexivity.
  - change (when false (flowStateEffect r) ?x) with x. apply P.
Qed.

Lemma commit_S n s :
  commit (S n) s =
  if decide (rendered (hooks s) = Some (depsOf s)) then s else commit n (render s).
Proof. reflexivity. Qed.





(** C2, as the code behaves.  A voice answer is stopped, and the
    respondent redoes it by typing before the recorder's [stop] event is
    delivered.  [performRedo] has cleared the URLs, but [onstop] has no
    guard and stores the URL of the discarded recording afterwards: the
    typing path then ends in REVIEW holding that audio URL next to the
    typed text.  The same happens when the question changes instead of
    the redo: the audio of the answer to the old question is held with
    the text typed for the new one. *)
Theorem late_stop_event_restores_audio_url :
  (let s := run (mount hastyProps true)
              (narrated ++ [ClickMic; GumSettled 0 true; ClickVoiceDone; ClickRedo typing]) in
   let s1 := run s [RecorderStopped 0; SpeechSettled 1 NoData; UtteranceEnded 1] in
   let s2 := run s1 [ChangeTranscript "typed"; ClickTypingDone] in
   (flowState (cells s) = READING /\ recordedAudioUrl (cells s) = None /\
    recordedVideoUrl (cells s) = None /\ enabled s (RecorderStopped 0) = true) /\
   (flowState (cells s1) = TYPING /\ recordedAudioUrl (cells s1) = Some (mkUrl audio 0)) /\
   (flowState (cells s2) = REVIEW /\
    heldRecording s2 = Some (AudioRecording (mkUrl audio 0) "typed"))) /\
  (let s := run (mount sampleProps true)
              (narrated ++ [ClickMic; GumSettled 0 true; ClickVoiceDone;
                            NewProps (mkProps otherQuestion false)]) in
   let s1 := run s [RecorderStopped 0; TimerFired 1; SpeechSettled 1 NoData;
                    UtteranceEnded 1] in
   let s2 := run s1 [ClickKeyboard; ChangeTranscript "typed"; ClickTypingDone] in
   (flowState (cells s) = READING /\ recordedAudioUrl (cells s) = None /\
    question (props s) = otherQuestion) /\
   (flowState (cells s1) = INPUT_SELECTION /\
    recordedAudioUrl (cells s1) = Some (mkUrl audio 0)) /\
   (flowState (cells s2) = REVIEW /\
    heldRecording s2 = Some (AudioRecording (mkUrl audio 0) "typed"))).
Proof. repeat split. Qed.

End QuestionFlowProperties.

(** ** QuestionFlow: further properties *)

Module QuestionFlowExtras.
Import QuestionFlow QuestionFlowMore QuestionFlowFacts QuestionFlowProperties.

(** *** Rendering *)

Lemma commit_add n m s : commit (n + m) s = commit m (commit n s).
Proof.
  revert s. induction n as [|n IH]; intro s; [reflexivity|].
  change (S n + m) with (S (n + m)). rewrite !commit_S.
  destruct (decide _) as [E|N]; [|apply IH].
  symmetry. now apply commit_settled.
Qed.

(** X1.  The effects of the component do not re-trigger each other
    without end: whatever the state, at most three renders follow an event,
    after which the committed dependency values are the current ones;
    rendering further changes nothing. *)
Theorem rendering_stops (s : State) (more : nat) :
  settled (commit 3 s) /\
  commit (3 + more) s = commit 3 s /\
  commit renderFuel s = commit 3 s.
Proof.
  assert (H : settled (commit 3 s)).
  { unfold settled. rewrite !commit_S.
    destruct (decide _) as [E0|_]; [exact E0|].
    pose proof (render_rendered s) as R1. pose proof (render_nextDeps s) as D1.
    set (s1 := render s) in *. clearbody s1.
    destruct (decide _) as [E1|_]; [exact E1|].
    pose proof (render_rendered s1) as R2. pose proof (render_nextDeps s1) as D2.
    set (s2 := render s1) in *. clearbody s2.
    destruct (decide _) as [E2|_]; [exact E2|].
    pose proof (render_rendered s2) as R3. pose proof (render_nextDeps s2) as D3.
    set (s3 := render s2) in *. clearbody s3.
    cbn [commit]. rewrite R3. f_equal.
    rewrite D3, R2, D2, R1, D1. symmetry. apply nextDeps_stops. }
  split; [exact H|]. split.
  - rewrite commit_add. now apply commit_settled.
  - change renderFuel with (3 + 1). rewrite commit_add. now apply commit_settled.
Qed.

(** *** The elapsed-time counter *)

Lemma render_interval r :
  interval (hooks (render r)) =
  if changed d_flowState (rendered (hooks r)) (depsOf r) ||
     changed d_isPaused (rendered (hooks r)) (depsOf r)
  then isRecordingState (flowState (cells r)) && negb (isPaused (cells r))
  else interval (hooks r).
Proof.
  unfold render.
  set (c1 := _ || _). set (c2 := _ || _ || _). set (qC := changed d_question _ _).
  set (fC := changed d_flowState _ _). clearbody c2 qC fC.
  assert (P : Pres (same (fun x => interval (hooks x)))
            (when c2 (initRecognition r) >>> when qC (questionEffect r) >>>
             when fC (flowStateEffect r))) by (pres; stage).
  assert (Q : Pres (same (fun x => interval (hooks x))) (when qC questionCleanup))
    by (pres; stage).
  unfold andThen in *. rewrite P. clearbody c1. destruct c1.
  - change (when true (timerEffect r) ?x) with (timerEffect r x).
    unfold timerEffect.
    destruct (isRecordingState (flowState (cells r)) && negb (isPaused (cells r)));
      [reflexivity|]. unfold skip. rewrite Q. reflexivity.
  - change (when false (timerEffect r) ?x) with x. rewrite Q. reflexivity.
Qed.

Lemma render_intervalFollows r :
  mounted (hooks r) = true -> intervalFollows r -> intervalFollows (render r).
Proof.
  intros M H. unfold intervalFollows in *.
  rewrite (render_mounted r : mounted (hooks (render r)) = _), M in *.
  exists (depsOf r). split; [apply render_rendered|].
  rewrite render_interval. destruct H as (d & Hd & Hi). rewrite Hd. cbn.
  destruct (bool_decide (d_flowState d = flowState (cells r))) eqn:E1;
    destruct (bool_decide (d_isPaused d = isPaused (cells r))) eqn:E2; cbn; try reflexivity.
  apply bool_decide_eq_true in E1, E2. rewrite Hi, E1, E2. reflexivity.
Qed.

Lemma commit_intervalFollows n : forall s,
  mounted (hooks s) = true -> intervalFollows s -> intervalFollows (commit n s).
Proof.
  induction n as [|n IH]; intros s M H; [exact H|].
  rewrite commit_S. destruct (decide _); [exact H|].
  apply IH; [|now apply render_intervalFollows].
  rewrite (render_mounted s : mounted (hooks (render s)) = _). exact M.
Qed.

Lemma handle_interval e r s :
  e <> Unmount -> interval (hooks (handle e r s)) = interval (hooks s).
Proof.
  intro H. destruct e; try (exfalso; apply H; reflexivity);
    unfold_handlers; repeat (case_match; try reflexivity); reflexivity.
Qed.

Lemma unmount_interval s :
  interval (hooks (unmount s)) = false /\ mounted (hooks (unmount s)) = false.
Proof.
  unfold unmount, andThen. split; [|reflexivity].
  change (interval (hooks (setMounted false ?x))) with (interval (hooks x)).
  assert (Q : Pres (same (fun x => interval (hooks x))) questionCleanup) by stage.
  rewrite Q. reflexivity.
Qed.

Lemma step_intervalFollows s e : intervalFollows s -> intervalFollows (step s e).
Proof.
  intro H. unfold step. destruct (enabled s e) eqn:En; [|exact H].
  assert (D : e = Unmount \/ e <> Unmount)
    by (destruct e; ((left; reflexivity) || (right; discriminate))).
  destruct D as [->|U].
  - cbn [handle]. destruct (unmount_interval s) as [I M].
    unfold afterHandler. rewrite M. unfold intervalFollows.
    change (hooks (withCells ?f ?x)) with (hooks x). rewrite M. exact I.
  - unfold afterHandler. rewrite (handle_mounted e s s U).
    destruct (mounted (hooks s)) eqn:M.
    + apply commit_intervalFollows; [now rewrite handle_mounted|].
      unfold intervalFollows in *. rewrite handle_mounted, M, handle_rendered, handle_interval in *
        by assumption. exact H.
    + unfold intervalFollows in *. cbn. rewrite handle_mounted, M in * by assumption.
      rewrite handle_interval by assumption. exact H.
Qed.

Lemma reachable_intervalFollows s : reachable s -> intervalFollows s.
Proof.
  intros (p & sr & es & ->).
  assert (H : intervalFollows (mount p sr)).
  { unfold mount, renderFuel. rewrite commit_S.
    destruct (decide _) as [E|_]; [discriminate E|].
    apply commit_intervalFollows;
      [rewrite (render_mounted _ : mounted (hooks (render _)) = _); reflexivity|].
    unfold intervalFollows.
    rewrite (render_mounted _ : mounted (hooks (render _)) = _). cbn [mounted hooks initialState].
    exists (depsOf (initialState p sr)). split; [apply render_rendered|].
    rewrite render_interval. reflexivity. }
  revert H. generalize (mount p sr).
  induction es as [|e es IH]; intros s H; simpl; [exact H|].
  apply IH, step_intervalFollows, H.
Qed.

(** X2.  In every state the component can reach, a timer tick can
    arrive exactly when the component is mounted, the flow is in
    RECORDING_VOICE or RECORDING_CAMERA and the recording is not paused;
    a tick adds one second to the counter and changes no other state
    cell. *)
Theorem counter_ticks_while_recording_unpaused
    (p : Props) (speechRecognition : bool) (es : list Event) :
  let s := run (mount p speechRecognition) es in
  (enabled s Tick = true <->
     mounted (hooks s) = true /\
     isRecordingState (flowState (cells s)) = true /\ isPaused (cells s) = false) /\
  (enabled s Tick = true ->
     step s Tick = updRecordingDuration S s) /\
  (enabled s Tick = false -> step s Tick = s).
Proof.
  intro s.
  assert (R : reachable s) by (exists p, speechRecognition, es; reflexivity).
  pose proof (reachable_intervalFollows s R) as I.
  pose proof (reachable_committed s R) as C.
  assert (A : enabled s Tick = true <->
     mounted (hooks s) = true /\
     isRecordingState (flowState (cells s)) = true /\ isPaused (cells s) = false).
  { cbn [enabled]. unfold intervalFollows in I. destruct (mounted (hooks s)) eqn:M.
    - destruct I as (d & Hd & Hi). rewrite (C M) in Hd. injection Hd as <-.
      rewrite Hi. cbn. destruct (isRecordingState _), (isPaused _); cbn; intuition congruence.
    - rewrite I. intuition congruence. }
  split; [exact A|]. split.
  - intro En. unfold step. rewrite En. cbn [handle].
    apply A in En as (M & _). apply afterHandler_same_deps; [exact M|].
    exact (C M).
  - apply step_disabled.
Qed.

(** *** Live transcription *)

Lemma append_empty_r (a : string) : String.append a EmptyString = a.
Proof.
  induction a as [|c a IH]; [reflexivity|].
  change (String c (String.append a EmptyString) = String c a). now rewrite IH.
Qed.

Lemma append_assoc (a b c : string) :
  String.append (String.append a b) c = String.append a (String.append b c).
Proof.
  induction a as [|x a IH]; [reflexivity|].
  change (String x (String.append (String.append a b) c) =
          String x (String.append a (String.append b c))). now rewrite IH.
Qed.

Lemma finalTranscript_app a b :
  finalTranscript (a ++ b) = String.append (finalTranscript a) (finalTranscript b).
Proof.
  induction a as [|[isFinal text] a IH]; [reflexivity|].
  change (finalTranscript (((isFinal, text) :: a) ++ b))
    with (if isFinal
          then String.append (String.append text " ") (finalTranscript (a ++ b))
          else finalTranscript (a ++ b)).
  change (finalTranscript ((isFinal, text) :: a))
    with (if isFinal
          then String.append (String.append text " ") (finalTranscript a)
          else finalTranscript a).
  destruct isFinal; [|exact IH]. now rewrite IH, !append_assoc.
Qed.

Lemma finalTranscript_interim segs : allInterim segs = true -> finalTranscript segs = EmptyString.
Proof.
  induction segs as [|[isFinal text] segs IH]; simpl; [reflexivity|].
  destruct isFinal; simpl; [discriminate|exact IH].
Qed.

Lemma updTranscript_empty s :
  updTranscript (fun prev => String.append prev EmptyString) s = s.
Proof.
  destruct s as [p c r b h t]. destruct c. unfold updTranscript, withCells. cbn.
  now rewrite append_empty_r.
Qed.

Lemma updTranscript_append a b s :
  updTranscript (fun prev => String.append prev b)
    (updTranscript (fun prev => String.append prev a) s) =
  updTranscript (fun prev => String.append prev (String.append a b)) s.
Proof.
  destruct s as [p c r bb h t]. destruct c. unfold updTranscript, withCells. cbn.
  now rewrite append_assoc.
Qed.

(** X3.  A result event of a listening recognizer, on a mounted
    component, appends to the transcript each final segment followed by
    a space, in order, and changes nothing else; interim segments are
    dropped, so an all-interim result changes nothing at all; and one
    event carrying two batches of segments appends what two events
    would. *)
Theorem recognition_appends_final_segments
    (s : State) (i : nat) (segments more : list (bool * string)) :
  mounted (hooks s) = true ->
  settled s ->
  recognizerStatus i s = Some Listening ->
  let s' := step s (RecognitionResult i segments) in
  s' = updTranscript (fun prev => String.append prev (finalTranscript segments)) s /\
  (allInterim segments = true -> s' = s) /\
  step s (RecognitionResult i (segments ++ more)) = step s' (RecognitionResult i more).
Proof.
  intros M S L s'.
  assert (G : forall x segs, mounted (hooks x) = true -> settled x ->
              recognizerStatus i x = Some Listening ->
              step x (RecognitionResult i segs) =
              updTranscript (fun prev => String.append prev (finalTranscript segs)) x).
  { intros x segs Mx Sx Lx. unfold step. cbn [enabled]. rewrite Lx. cbn [handle].
    unfold onresult. destruct (decide _) as [E|N].
    - rewrite E. unfold skip. rewrite afterHandler_same_deps by assumption.
      symmetry. apply updTranscript_empty.
    - now apply afterHandler_same_deps. }
  assert (E : s' = updTranscript (fun prev => String.append prev (finalTranscript segments)) s)
    by now apply G.
  split; [exact E|]. split.
  - intro I. rewrite E, (finalTranscript_interim _ I). apply updTranscript_empty.
  - rewrite (G s) by assumption. rewrite (G s'); [|rewrite E; assumption..].
    rewrite E, finalTranscript_app. symmetry. apply updTranscript_append.
Qed.

(** A listening recognizer hears one final and one interim segment. *)
Lemma recognition_appends_final_segments_witness :
  let s := run (mount sampleProps true) (narrated ++ [ClickMic; GumSettled 0 true]) in
  mounted (hooks s) = true /\ settled s /\ recognizerStatus 2 s = Some Listening /\
  step s (RecognitionResult 2 [(true, "hello"); (false, "wor")]) =
  updTranscript (fun prev => String.append prev "hello ") s.
Proof.
  intro s.
  assert (M : mounted (hooks s) = true) by (vm_compute; reflexivity).
  assert (S : settled s) by (vm_compute; reflexivity).
  assert (L : recognizerStatus 2 s = Some Listening) by (vm_compute; reflexivity).
  split; [exact M|]. split; [exact S|]. split; [exact L|].
  exact (proj1 (recognition_appends_final_segments s 2
                  [(true, "hello"); (false, "wor")] [] M S L)).
Defined.

(** *** The recorder's stop event *)

(** X4.  When the [stop] event of a recorder reaches a mounted
    component, no effect runs again (the URLs and [voiceStream] are in
    no dependency array) and the handler's result is the new state: an
    audio recorder stores the audio URL, stops the
    tracks of its own microphone stream and clears [voiceStream]; a video
    recorder stores the video URL and stops no stream (the camera
    stream is left to the [[flowState]] effect).  The other URL and the
    flow state are left alone. *)
Theorem recorder_stop_stores_artifact (s : State) (j : nat) (m : MediaRecorder) :
  mounted (hooks s) = true ->
  settled s ->
  recorders (browser s) !! j = Some m ->
  rec_stopQueued m = true ->
  let s' := step s (RecorderStopped j) in
  let url := mkUrl (rec_mode m) (objectUrls (browser s)) in
  s' = onstop j s /\
  flowState (cells s') = flowState (cells s) /\
  recorders (browser s') !! j = Some (recorder_delivered m) /\
  match rec_mode m with
  | audio =>
      recordedAudioUrl (cells s') = Some url /\
      recordedVideoUrl (cells s') = recordedVideoUrl (cells s) /\
      streams (browser s') = <[rec_stream m := false]> (streams (browser s)) /\
      voiceStream (cells s') = None
  | video =>
      recordedVideoUrl (cells s') = Some url /\
      recordedAudioUrl (cells s') = recordedAudioUrl (cells s) /\
      streams (browser s') = streams (browser s) /\
      voiceStream (cells s') = voiceStream (cells s) /\
      cameraStream (cells s') = cameraStream (cells s)
  end.
Proof.
  intros M S L Q s' url.
  assert (E : s' = onstop j s).
  { subst s'. unfold step. cbn [enabled]. rewrite L, Q. cbn [handle].
    apply afterHandler_same_deps; unfold onstop; rewrite L;
      destruct (rec_mode m); assumption. }
  split; [exact E|]. rewrite E. unfold onstop. rewrite L.
  destruct (rec_mode m) eqn:Mo; cbn; rewrite list_lookup_alter_eq, L; repeat split.
Qed.

(** The stop event of a voice recording. *)
Lemma recorder_stop_stores_artifact_witness :
  let s := run (mount sampleProps true)
             (narrated ++ [ClickMic; GumSettled 0 true; ClickVoiceDone]) in
  mounted (hooks s) = true /\ settled s /\
  recorders (browser s) !! 0 = Some (mkRecorder 0 audio inactive true) /\
  step s (RecorderStopped 0) = onstop 0 s.
Proof.
  intro s.
  assert (M : mounted (hooks s) = true) by (vm_compute; reflexivity).
  assert (S : settled s) by (vm_compute; reflexivity).
  assert (L : recorders (browser s) !! 0 = Some (mkRecorder 0 audio inactive true))
    by (vm_compute; reflexivity).
  split; [exact M|]. split; [exact S|]. split; [exact L|].
  exact (proj1 (recorder_stop_stores_artifact s 0 _ M S L eq_refl)).
Defined.

(** *** The camera and the flow state *)

Section SameFlow.
Context {A : Type} (f : State -> A).
Hypothesis f_setRendered : forall d, Pres (same f) (setRendered d).
Hypothesis f_timerCleanup : Pres (same f) timerCleanup.
Hypothesis f_timerEffect : forall r, Pres (same f) (timerEffect r).
Hypothesis f_initRecognition : forall r, Pres (same f) (initRecognition r).

(** A reading that only the [[flowState]] and [[question]] effects
    change is kept by a render that runs neither. *)
Lemma render_same_flow r :
  questionCommitted r ->
  changed d_flowState (rendered (hooks r)) (depsOf r) = false ->
  f (render r) = f r.
Proof.
  intros Q C. unfold render. rewrite (changed_question_committed r Q), C.
  match goal with |- f (?a r) = f r => cut (Pres (same f) a); [intro H; apply H|] end.
  pres; auto.
Qed.

Lemma commit_same_flow n : forall r,
  questionCommitted r ->
  changed d_flowState (rendered (hooks r)) (depsOf r) = false ->
  f (commit n r) = f r.
Proof.
  induction n as [|n IH]; intros r Q C; [reflexivity|].
  rewrite commit_S. destruct (decide _); [reflexivity|].
  rewrite IH.
  - now apply render_same_flow.
  - apply render_questionCommitted.
  - rewrite render_rendered. cbn.
    rewrite (ef_flowState _ _ (render_frame r Q)). now rewrite bool_decide_eq_true_2.
Qed.

(** After one render the flow state is committed, so the renders that
    follow keep the reading. *)
Lemma commit_after_render n r :
  questionCommitted r -> f (commit n (render r)) = f (render r).
Proof.
  intro Q. apply commit_same_flow; [apply render_questionCommitted|].
  rewrite render_rendered. cbn.
  rewrite (ef_flowState _ _ (render_frame r Q)). now rewrite bool_decide_eq_true_2.
Qed.

End SameFlow.

(** What the [[flowState]] effect does to the streams and to
    [cameraStream] in a render where the flow state changed. *)
Lemma render_camera r :
  questionCommitted r ->
  changed d_flowState (rendered (hooks r)) (depsOf r) = true ->
  cameraStream (cells (render r)) =
    (if isCameraState (flowState (cells r)) then cameraStream (cells r) else None) /\
  streams (browser (render r)) =
    (if isCameraState (flowState (cells r)) then streams (browser r)
     else match cameraStream (cells r) with
          | Some i => <[i := false]> (streams (browser r))
          | None => streams (browser r)
          end).
Proof.
  intros Q C. unfold render. rewrite (changed_question_committed r Q), C.
  set (c1 := _ || _). set (c2 := _ || _ || _). clearbody c1 c2.
  assert (P1 : Pres (same (fun x => cameraStream (cells x)))
            (setRendered (Some (depsOf r)) >>> when c1 timerCleanup >>>
             when false questionCleanup >>> when c1 (timerEffect r) >>>
             when c2 (initRecognition r) >>> when false (questionEffect r)))
    by (pres; stage).
  assert (P2 : Pres (same (fun x => streams (browser x)))
            (setRendered (Some (depsOf r)) >>> when c1 timerCleanup >>>
             when false questionCleanup >>> when c1 (timerEffect r) >>>
             when c2 (initRecognition r) >>> when false (questionEffect r)))
    by (pres; stage).
  unfold andThen in *.
  change (when true (flowStateEffect r) ?x) with (flowStateEffect r x).
  unfold flowStateEffect.
  destruct (isCameraState (flowState (cells r))), (isRecordingState (flowState (cells r)));
    unfold andThen, startCamera, stopCamera, startListening, stopListening;
    destruct (cameraStream (cells r)) eqn:Ec; repeat case_match; cbn;
    rewrite ?P1, ?P2, ?Ec; split; reflexivity.
Qed.

(** X5.  Whenever the handler of an event moves a mounted component's
    flow to another state, the [[flowState]] effect runs once: if the new
    state is PREVIEW_CAMERA or RECORDING_CAMERA it asks for the camera
    (one new pending [getUserMedia] request) and stops no stream; if it
    is any other state it asks for nothing, stops the tracks of the
    stream in [cameraStream], if there is one, and clears
    [cameraStream]. *)
Theorem flow_change_drives_camera (s : State) (e : Event) :
  mounted (hooks s) = true ->
  settled s ->
  enabled s e = true ->
  (forall p, e <> NewProps p) ->
  e <> Unmount ->
  let h := handle e s s in
  flowState (cells h) <> flowState (cells s) ->
  let s' := step s e in
  if isCameraState (flowState (cells h))
  then gumCalls (browser s') = gumCalls (browser h) ++ [mkGumCall CameraRequest false] /\
       streams (browser s') = streams (browser h) /\
       cameraStream (cells s') = cameraStream (cells h)
  else gumCalls (browser s') = gumCalls (browser h) /\
       streams (browser s') =
         match cameraStream (cells h) with
         | Some i => <[i := false]> (streams (browser h))
         | None => streams (browser h)
         end /\
       cameraStream (cells s') = None.
Proof.
  intros M S En Np Nu h Hf s'.
  assert (Mh : mounted (hooks h) = true) by (subst h; rewrite handle_mounted; auto).
  assert (Rh : rendered (hooks h) = Some (depsOf s)) by (subst h; now rewrite handle_rendered).
  assert (Q : questionCommitted h).
  { exists (depsOf s). split; [exact Rh|]. subst h. cbn. now rewrite handle_props. }
  assert (C : changed d_flowState (rendered (hooks h)) (depsOf h) = true).
  { rewrite Rh. cbn. rewrite bool_decide_eq_false_2; [reflexivity|]. congruence. }
  assert (E : s' = commit 3 (render h)).
  { subst s'. unfold step. rewrite En. unfold afterHandler. fold h. rewrite Mh.
    unfold renderFuel. rewrite commit_S. destruct (decide _) as [X|_]; [|reflexivity].
    rewrite Rh in X. exfalso. apply Hf.
    apply (f_equal (fun o => match o with Some d => d_flowState d | None => READING end)) in X.
    symmetry. exact X. }
  destruct (render_camera h Q C) as [Rc Rs].
  pose proof (render_gumCalls h Q) as Rg. rewrite C in Rg. cbn [andb] in Rg.
  assert (Eg : gumCalls (browser s') = gumCalls (browser (render h))).
  { rewrite E. apply (commit_after_render (fun x => gumCalls (browser x)));
      try (intros; stage); exact Q. }
  assert (Es : streams (browser s') = streams (browser (render h))).
  { rewrite E. apply (commit_after_render (fun x => streams (browser x)));
      try (intros; stage); exact Q. }
  assert (Ec : cameraStream (cells s') = cameraStream (cells (render h))).
  { rewrite E. apply (commit_after_render (fun x => cameraStream (cells x)));
      try (intros; stage); exact Q. }
  rewrite Eg, Es, Ec, Rg, Rs, Rc.
  destruct (isCameraState (flowState (cells h))); repeat split.
Qed.

(** Done on the camera path: the flow leaves RECORDING_CAMERA, and the
    stream in [cameraStream] is stopped. *)
Lemma flow_change_drives_camera_witness :
  let s := run (mount sampleProps true)
             (narrated ++ [ClickVideo; GumSettled 0 true; ClickCameraStart;
                           GumSettled 1 true]) in
  mounted (hooks s) = true /\ settled s /\ enabled s ClickCameraDone = true /\
  cameraStream (cells (step s ClickCameraDone)) = None.
Proof.
  intro s.
  assert (M : mounted (hooks s) = true) by (vm_compute; reflexivity).
  assert (S : settled s) by (vm_compute; reflexivity).
  assert (En : enabled s ClickCameraDone = true) by (vm_compute; reflexivity).
  split; [exact M|]. split; [exact S|]. split; [exact En|].
  assert (Np : forall p, ClickCameraDone <> NewProps p) by discriminate.
  assert (Nu : ClickCameraDone <> Unmount) by discriminate.
  assert (Hf : flowState (cells (handle ClickCameraDone s s)) <> flowState (cells s))
    by (vm_compute; discriminate).
  pose proof (flow_change_drives_camera s ClickCameraDone M S En Np Nu Hf) as H.
  cbv zeta in H.
  assert (Hc : isCameraState (flowState (cells (handle ClickCameraDone s s))) = false)
    by (vm_compute; reflexivity).
  rewrite Hc in H. exact (proj2 (proj2 H)).
Defined.

(** *** The buttons *)

Lemma flowIs_inv f s : flowIs f s = true -> flowState (cells s) = f.
Proof.
  unfold flowIs. intro H. apply andb_prop in H as [_ H].
  now apply bool_decide_eq_true in H.
Qed.

(** X6.  A click or edit of the respondent on a mounted component
    either leaves the flow state as it is or moves it along one of the
    ten edges the buttons stand for; in particular no click leads to
    INPUT_SELECTION or to RECORDING_VOICE (the first is entered when a
    narration ends, the second when the microphone is granted), and
    READING has no button at all. *)
Theorem buttons_follow_the_flow (s : State) (e : Event) :
  mounted (hooks s) = true ->
  settled s ->
  isRespondentEvent e = true ->
  let f := flowState (cells s) in
  let f' := flowState (cells (step s e)) in
  (f' = f \/ buttonEdge f f' = true) /\
  (f = READING -> step s e = s).
Proof.
  intros M S R f f'. split.
  - destruct (enabled s e) eqn:En; [|left; subst f'; now rewrite step_disabled].
    destruct (step_enabled s e) as (F & _ & _);
      [destruct e; discriminate|destruct e; discriminate|assumption..|].
    subst f f'. rewrite (ef_flowState _ _ F). clear F.
    destruct e; try discriminate R; cbn [enabled] in En;
      try (apply orb_prop in En as [En|En]); apply flowIs_inv in En; rewrite En;
      cbn [handle]; unfold_handlers; repeat case_match; cbn; rewrite ?En; auto.
  - intro Hf. apply step_disabled.
    destruct e; try discriminate R; cbn [enabled]; unfold flowIs;
      subst f; rewrite Hf; cbn; rewrite ?andb_false_r; reflexivity.
Qed.

(** The Done button of the typing screen. *)
Lemma buttons_follow_the_flow_witness :
  let s := run (mount sampleProps true) (narrated ++ [ClickKeyboard]) in
  mounted (hooks s) = true /\ settled s /\
  buttonEdge (flowState (cells s)) (flowState (cells (step s ClickTypingDone))) = true.
Proof.
  intro s.
  assert (M : mounted (hooks s) = true) by (vm_compute; reflexivity).
  assert (S : settled s) by (vm_compute; reflexivity).
  split; [exact M|]. split; [exact S|].
  destruct (proj1 (buttons_follow_the_flow s ClickTypingDone M S eq_refl)) as [H|H];
    [|exact H].
  exfalso. revert H. vm_compute. discriminate.
Defined.

(** *** After unmount *)

Lemma step_unmounted s e :
  mounted (hooks s) = false ->
  mounted (hooks (step s e)) = false /\ cells (step s e) = cells s /\
  interval (hooks (step s e)) = interval (hooks s).
Proof.
  intro M. split; [|split; [now apply step_unmounted_cells|]].
  - unfold step. destruct (enabled s e) eqn:E; [|exact M].
    assert (U : e <> Unmount) by (intros ->; cbn in E; congruence).
    unfold afterHandler. rewrite (handle_mounted e s s U), M.
    change (mounted (hooks (withCells ?f ?x))) with (mounted (hooks x)).
    now rewrite handle_mounted.
  - unfold step. destruct (enabled s e) eqn:E; [|reflexivity].
    assert (U : e <> Unmount) by (intros ->; cbn in E; congruence).
    unfold afterHandler. rewrite (handle_mounted e s s U), M.
    change (interval (hooks (withCells ?f ?x))) with (interval (hooks x)).
    now apply handle_interval.
Qed.

Lemma run_unmounted es : forall s,
  mounted (hooks s) = false ->
  mounted (hooks (run s es)) = false /\ cells (run s es) = cells s /\
  interval (hooks (run s es)) = interval (hooks s).
Proof.
  induction es as [|e es IH]; intros s M; [auto|].
  destruct (step_unmounted s e M) as (M1 & C1 & I1).
  destruct (IH _ M1) as (M2 & C2 & I2).
  change (run s (e :: es)) with (run (step s e) es). rewrite M2, C2, I2. auto.
Qed.

Lemma unmount_kills s :
  oldRunsDead s -> deadBelow (length (runs (hooks s))) (unmount s).
Proof.
  intros [_ Hd].
  assert (R : runs (hooks (unmount s)) =
              alter run_unmount (pred (length (runs (hooks s)))) (runs (hooks s))).
  { unfold unmount, andThen.
    change (runs (hooks (setMounted false ?x))) with (runs (hooks x)).
    now rewrite questionCleanup_runs. }
  split; rewrite R.
  - now rewrite length_alter.
  - intros k x Hk L.
    destruct (decide (pred (length (runs (hooks s))) = k)) as [<-|N].
    + rewrite list_lookup_alter_eq in L.
      destruct (runs (hooks s) !! _); [|discriminate]. injection L as <-. split; reflexivity.
    + rewrite list_lookup_alter_ne in L by assumption. apply (Hd k x); [lia|exact L].
Qed.

(** X14.  After a mounted component is unmounted, whatever happens:
    it stays unmounted, no state cell changes any more, no button can be
    clicked, the counter's interval is cleared so no tick arrives, and
    every run of the [[question]] effect is dead, so no narration timer
    fires and the end of a narration it started changes nothing. *)
Theorem unmount_is_final
    (p : Props) (speechRecognition : bool) (es0 es : list Event) :
  let s := run (mount p speechRecognition) es0 in
  mounted (hooks s) = true ->
  let s' := run (step s Unmount) es in
  mounted (hooks s') = false /\
  cells s' = cells s /\
  enabled s' Tick = false /\
  (forall e, isRespondentEvent e = true -> enabled s' e = false) /\
  (forall k, k < length (runs (hooks s)) ->
     enabled s' (TimerFired k) = false /\ isMountedOf k s' = false).
Proof.
  intros s M s'.
  assert (R : reachable s) by (exists p, speechRecognition, es0; reflexivity).
  set (u := step s Unmount).
  assert (E : u = withCells (fun _ => cells s) (unmount s)).
  { subst u. unfold step. cbn [enabled]. rewrite M. cbn [handle]. unfold afterHandler.
    now rewrite (proj2 (unmount_interval s)). }
  assert (Mu : mounted (hooks u) = false) by (rewrite E; apply unmount_interval).
  assert (Iu : interval (hooks u) = false) by (rewrite E; apply unmount_interval).
  assert (Du : deadBelow (length (runs (hooks s))) u).
  { rewrite E. apply (unmount_kills s). now apply reachable_oldRunsDead. }
  destruct (run_unmounted es u Mu) as (M' & C' & I'). fold s' in M', C', I'.
  assert (D' : deadBelow (length (runs (hooks s))) s')
    by (apply (deadBelow_fade _ u); [exact Du|apply run_runsFade]).
  split; [exact M'|]. split; [transitivity (cells u); [exact C'|rewrite E; reflexivity]|].
  split; [cbn [enabled]; transitivity (interval (hooks u)); [exact I'|exact Iu]|]. split.
  - intros e He. destruct e; try discriminate He; cbn [enabled]; unfold flowIs;
      change (mounted (hooks s')) with (mounted (hooks (run u es))); rewrite M'; reflexivity.
  - intros k Hk. split; [now apply (timer_dead _ k s' D')|now apply (isMountedOf_dead _ k s' D')].
Qed.

(** Unmounted during a voice recording; a tick and a click follow. *)
Lemma unmount_is_final_witness :
  let s := run (mount sampleProps true) (narrated ++ [ClickMic; GumSettled 0 true]) in
  let s' := run (step s Unmount) [Tick; ClickVoiceDone] in
  mounted (hooks s) = true /\ cells s' = cells s.
Proof.
  intros s s'.
  assert (M : mounted (hooks s) = true) by (vm_compute; reflexivity).
  split; [exact M|].
  exact (proj1 (proj2 (unmount_is_final sampleProps true
           (narrated ++ [ClickMic; GumSettled 0 true]) [Tick; ClickVoiceDone] M))).
Defined.

(** *** What is narrated *)

Lemma last_snoc {A} (l : list A) (x : A) : last (l ++ [x]) = Some x.
Proof. induction l as [|a [|b l] IH]; [reflexivity..|exact IH]. Qed.

Lemma last_lookup_pred {A} (l : list A) : last l = l !! pred (length l).
Proof. apply last_lookup. Qed.

(** The question of the current run is the question of the committed
    render. *)
Lemma currentRun_question_keeps (q : Question) (f : EffectRun -> EffectRun) i l :
  (forall x, run_question (f x) = run_question x) ->
  (exists x, last l = Some x /\ run_question x = q) ->
  exists x, last (alter f i l) = Some x /\ run_question x = q.
Proof.
  intros Hf (x & L & Q). rewrite last_lookup in *. rewrite length_alter.
  destruct (decide (i = pred (length l))) as [->|N].
  - rewrite list_lookup_alter_eq, L. exists (f x). now rewrite Hf.
  - rewrite list_lookup_alter_ne by exact N. eauto.
Qed.

Lemma render_narrates r : narratesCommittedQuestion r -> narratesCommittedQuestion (render r).
Proof.
  intros H d Hd. rewrite render_rendered in Hd. injection Hd as <-.
  rewrite render_runs. destruct (rendered (hooks r)) as [d0|] eqn:R; cbn [changed].
  - destruct (bool_decide (d_question d0 = d_question (depsOf r))) eqn:B; cbn [negb].
    + apply bool_decide_eq_true in B. rewrite <- B. now apply H.
    + exists (newRun r). split; [apply last_snoc|reflexivity].
  - exists (newRun r). split; [apply last_snoc|reflexivity].
Qed.

Lemma commit_narrates n : forall s,
  narratesCommittedQuestion s -> narratesCommittedQuestion (commit n s).
Proof.
  induction n as [|n IH]; intros s H; [exact H|].
  rewrite commit_S. destruct (decide _); [exact H|]. apply IH, render_narrates, H.
Qed.

Lemma handle_narrates e r s :
  narratesCommittedQuestion s -> narratesCommittedQuestion (handle e r s).
Proof.
  intros H d Hd. rewrite handle_rendered in Hd. specialize (H d Hd).
  assert (G : forall h, runs (hooks h) = runs (hooks s) ->
              exists x, last (runs (hooks h)) = Some x /\ run_question x = d_question d).
  { intros h E. now rewrite E. }
  destruct e; try (apply G, handle_runs; discriminate).
  - cbn [handle]. unfold unmount, andThen.
    change (runs (hooks (setMounted false ?x))) with (runs (hooks x)).
    rewrite questionCleanup_runs. apply currentRun_question_keeps; [reflexivity|exact H].
  - cbn [handle]. unfold timerFired. case_match; [|exact H].
    cbn. apply currentRun_question_keeps; [reflexivity|exact H].
Qed.

Lemma step_narrates s e : narratesCommittedQuestion s -> narratesCommittedQuestion (step s e).
Proof.
  intro H. unfold step. destruct (enabled s e); [|exact H].
  unfold afterHandler. destruct (mounted _).
  - apply commit_narrates, handle_narrates, H.
  - apply (handle_narrates e s) in H. exact H.
Qed.

Lemma reachable_narrates s : reachable s -> narratesCommittedQuestion s.
Proof.
  intros (p & sr & es & ->).
  assert (H : narratesCommittedQuestion (mount p sr)).
  { apply commit_narrates. intros d Hd. discriminate Hd. }
  revert H. generalize (mount p sr).
  induction es as [|e es IH]; intros s H; [exact H|].
  apply (IH (step s e)), step_narrates, H.
Qed.

(** X15.  In every state a mounted component can reach, the current
    run of the [[question]] effect was started for the question the
    component now has; when its 500 ms timer fires, exactly one remote
    synthesis call is requested, for the text of that question, and
    nothing is rendered again. *)
Theorem narration_reads_current_question
    (p : Props) (speechRecognition : bool) (es : list Event) :
  let s := run (mount p speechRecognition) es in
  mounted (hooks s) = true ->
  let k := pred (length (runs (hooks s))) in
  exists x,
    runs (hooks s) !! k = Some x /\
    run_question x = question (props s) /\
    (run_timer x = true ->
       let s' := step s (TimerFired k) in
       speechCalls (browser s') =
         speechCalls (browser s) ++
           [mkSpeechCall (ByEffect k) (qtext (question (props s))) false] /\
       cells s' = cells s /\
       enabled s' (TimerFired k) = false).
Proof.
  intros s M k.
  assert (R : reachable s) by (exists p, speechRecognition, es; reflexivity).
  pose proof (reachable_committed s R M) as S.
  destruct (reachable_narrates s R _ S) as (x & L & Q).
  rewrite last_lookup in L. fold k in L. cbn in Q.
  exists x. split; [exact L|]. split; [exact Q|].
  intros T s'.
  assert (E : s' = (updRuns (alter run_clearTimer k) >>>
                    updSpeechCalls (fun l => l ++
                      [mkSpeechCall (ByEffect k) (qtext (run_question x)) false])) s).
  { subst s'. unfold step. cbn [enabled]. rewrite L, T. cbn [handle]. unfold timerFired.
    rewrite L. now apply afterHandler_same_deps. }
  rewrite E, <- Q. split; [reflexivity|]. split; [reflexivity|].
  cbn. rewrite list_lookup_alter_eq, L. reflexivity.
Qed.

(** After a change of question. *)
Lemma narration_reads_current_question_witness :
  let s := run (mount sampleProps true)
             (narrated ++ [NewProps (mkProps otherQuestion false)]) in
  mounted (hooks s) = true /\
  exists x, runs (hooks s) !! 1 = Some x /\ run_question x = otherQuestion.
Proof.
  intro s.
  assert (M : mounted (hooks s) = true) by (vm_compute; reflexivity).
  split; [exact M|].
  destruct (narration_reads_current_question sampleProps true
              (narrated ++ [NewProps (mkProps otherQuestion false)]) M) as (x & L & Q & _).
  exists x. split; [|].
  - revert L. vm_compute. exact (fun H => H).
  - revert Q. vm_compute. exact (fun H => H).
Defined.

(** *** Pause and resume *)

Lemma voice_recording_starts_unpaused s :
  mounted (hooks s) = true -> settled s ->
  flowState (cells s) = INPUT_SELECTION ->
  let s' := run s [ClickMic; GumSettled (length (gumCalls (browser s))) true] in
  isPaused (cells s') = false /\
  recordingDuration (cells s') = 0 /\
  transcript (cells s') = EmptyString /\
  recorderFollowsPause (length (recorders (browser s))) s'.
Proof.
  intros M S F. cbn [run fold_left].
  set (s1 := step s ClickMic).
  assert (E : s1 = updGumCalls (fun l => l ++ [mkGumCall VoiceRequest false]) s).
  { subst s1. unfold step. cbn [enabled]. rewrite (flowIs_true _ _ M F).
    apply afterHandler_quiet; [now intros _|reflexivity..]. }
  set (g := length (gumCalls (browser s))).
  assert (L : gumCalls (browser s1) !! g = Some (mkGumCall VoiceRequest false)).
  { rewrite E. apply lookup_snoc. }
  destruct (step_enabled s1 (GumSettled g true)) as (Fr & S2 & M2);
    [discriminate|discriminate|rewrite E; exact M|rewrite E; exact S| |].
  { cbn [enabled]. now rewrite L. }
  cbn [handle] in Fr. unfold settleGum in Fr. rewrite L in Fr.
  cbn [gum_request] in Fr. destruct Fr. cbv zeta.
  split; [rewrite ef_isPaused0; reflexivity|].
  split; [rewrite ef_recordingDuration0; reflexivity|].
  split; [rewrite ef_transcript0; reflexivity|].
  unfold recorderFollowsPause. rewrite ef_isPaused0, ef_recorders0. cbn. rewrite E. cbn.
  eexists. split; [apply lookup_snoc|reflexivity].
Qed.

(** One event of a voice recording in progress. *)
Lemma pause_step r s e :
  recordingWith RECORDING_VOICE audio r s -> recorderFollowsPause r s ->
  duringRecording e = true ->
  isPaused (cells (step s e)) = xorb (isPaused (cells s)) (isPauseClick e) /\
  recorderFollowsPause r (step s e).
Proof.
  intros Hs Hr He. pose proof Hs as (M & S & F & R & _ & _).
  destruct Hr as (m & L & St).
  destruct (enabled s e) eqn:En.
  - destruct (step_enabled s e) as (Fr & _ & _);
      [destruct e; discriminate|destruct e; discriminate|assumption..|].
    unfold recorderFollowsPause.
    rewrite (ef_isPaused _ _ Fr), (ef_recorders _ _ Fr). clear Fr.
    destruct e; try discriminate He; cbn [handle isPauseClick].
    + unfold togglePause. rewrite R, L.
      destruct (isPaused (cells s)) eqn:P; rewrite St;
        unfold andThen, startListening, stopListening;
        destruct (recognitionRef (refs s)) eqn:RR; cbn; rewrite ?RR; cbn;
        rewrite list_lookup_alter_eq, L; cbn; eauto.
    + rewrite xorb_false_r. split; [reflexivity|]. exists m. auto.
    + rewrite xorb_false_r. unfold onresult.
      destruct (decide (finalTranscript segments = EmptyString));
        (split; [reflexivity|]); exists m; auto.
    + rewrite xorb_false_r. split; [reflexivity|]. exists m. auto.
    + rewrite xorb_false_r. unfold onend, andThen, startListening.
      destruct (recognizers (browser s) !! recognizer) as [g|];
        [|split; [reflexivity|]; exists m; auto].
      destruct (_ && _); [|split; [reflexivity|]; exists m; auto].
      cbn. destruct (recognitionRef (refs s));
        [|split; [reflexivity|]; exists m; auto].
      destruct (alter recognizer_end recognizer (recognizers (browser s)) !! _) as [g'|];
        [|split; [reflexivity|]; exists m; auto].
      destruct (rg_status g'); (split; [reflexivity|]); exists m; auto.
  - rewrite step_disabled by exact En.
    assert (X : isPauseClick e = false).
    { destruct e; try reflexivity. cbn [enabled] in En.
      now rewrite (flowIs_true _ _ M F) in En. }
    rewrite X, xorb_false_r. split; [reflexivity|]. exists m. auto.
Qed.

Lemma pause_run r es : forall s,
  recordingWith RECORDING_VOICE audio r s -> recorderFollowsPause r s ->
  forallb duringRecording es = true ->
  isPaused (cells (run s es)) = xorb (isPaused (cells s)) (Nat.odd (pauseClicks es)) /\
  recorderFollowsPause r (run s es).
Proof.
  induction es as [|e es IH]; intros s Hs Hr He.
  - cbn. now rewrite xorb_false_r.
  - cbn in He. apply andb_prop in He as [He1 He2].
    destruct (pause_step r s e Hs Hr He1) as [P1 R1].
    destruct (IH (step s e)) as [P2 R2];
      [now apply recording_continues|exact R1|exact He2|].
    change (run s (e :: es)) with (run (step s e) es).
    split; [|exact R2]. rewrite P2, P1. unfold pauseClicks. cbn [List.filter].
    destruct (isPauseClick e); cbn [length]; rewrite ?Nat.odd_succ, <- ?Nat.negb_odd;
      destruct (isPaused (cells s)), (Nat.odd _); reflexivity.
Qed.

(** X16.  A voice recording starts unpaused with the counter at zero
    and an empty transcript.  From then on, through any ticks, pause
    clicks and recognizer events, every click on the pause button flips
    [isPaused] together with the state of the recorder: the recording is
    paused exactly when the button was clicked an odd number of times,
    and the recorder is then ['paused'], otherwise ['recording']. *)
Theorem pause_button_toggles_recorder (s : State) (mids : list Event) :
  mounted (hooks s) = true ->
  settled s ->
  flowState (cells s) = INPUT_SELECTION ->
  recordedVideoUrl (cells s) = None ->
  recordedAudioUrl (cells s) = None ->
  forallb duringRecording mids = true ->
  let g := length (gumCalls (browser s)) in
  let r := length (recorders (browser s)) in
  let s1 := run s [ClickMic; GumSettled g true] in
  let s2 := run s1 mids in
  (isPaused (cells s1) = false /\ recordingDuration (cells s1) = 0 /\
   transcript (cells s1) = EmptyString) /\
  flowState (cells s2) = RECORDING_VOICE /\
  isPaused (cells s2) = Nat.odd (pauseClicks mids) /\
  recorderFollowsPause r s2.
Proof.
  intros M S F V A Hm g r s1 s2.
  destruct (voice_recording_starts_unpaused s M S F) as (P1 & D1 & T1 & R1).
  pose proof (voice_recording_starts s M S F V A) as W.
  fold g r s1 in P1, D1, T1, R1, W.
  split; [auto|].
  pose proof (recording_continues_run RECORDING_VOICE audio r mids s1 eq_refl W Hm) as (_ & _ & F2 & _).
  split; [exact F2|].
  destruct (pause_run r mids s1 W R1 Hm) as [P2 R2].
  split; [|exact R2]. unfold s2. rewrite P2, P1. reflexivity.
Qed.

(** Pause, a tick that cannot arrive, resume, pause. *)
Lemma pause_button_toggles_recorder_witness :
  let s := run (mount sampleProps true) narrated in
  let mids := [ClickPause; Tick; ClickPause; ClickPause] in
  mounted (hooks s) = true /\ settled s /\ flowState (cells s) = INPUT_SELECTION /\
  forallb duringRecording mids = true /\
  isPaused (cells (run (run s [ClickMic; GumSettled 0 true]) mids)) = true.
Proof.
  intros s mids.
  assert (M : mounted (hooks s) = true) by (vm_compute; reflexivity).
  assert (S : settled s) by (vm_compute; reflexivity).
  assert (F : flowState (cells s) = INPUT_SELECTION) by (vm_compute; reflexivity).
  assert (V : recordedVideoUrl (cells s) = None) by (vm_compute; reflexivity).
  assert (A : recordedAudioUrl (cells s) = None) by (vm_compute; reflexivity).
  split; [exact M|]. split; [exact S|]. split; [exact F|]. split; [reflexivity|].
  destruct (pause_button_toggles_recorder s mids M S F V A eq_refl) as (_ & _ & P & _).
  assert (G : length (gumCalls (browser s)) = 0) by (vm_compute; reflexivity).
  rewrite G in P. exact P.
Defined.

(** *** Where a redo goes *)

(** The handler of the end of a redo narration: the source or the
    utterance is marked, then [startNextMode] runs. *)
Lemma redo_narration_handler s e m :
  narrationOwner s e = Some (ByRedo m) ->
  ((forall p, e <> NewProps p) /\ e <> Unmount) /\
  exists s0, handle e s s = startNextMode m s s0 /\
    cells s0 = cells s /\ props s0 = props s /\ hooks s0 = hooks s /\
    gumCalls (browser s0) = gumCalls (browser s).
Proof.
  intro O. split; [destruct e; try discriminate O; (split; [intro p; discriminate|discriminate])|].
  destruct e; try discriminate O; cbn [narrationOwner] in O; cbn [handle].
  - unfold sourceEnded. destruct (sources (browser s) !! source) as [b|]; [|discriminate O].
    injection O as O. rewrite O. unfold andThen. cbn [narrationDone].
    eexists. split; [reflexivity|]. now destruct s.
  - unfold utteranceEnded.
    destruct (utterances (browser s) !! utterance) as [u|]; [|discriminate O].
    injection O as O. rewrite O. unfold andThen. cbn [narrationDone].
    eexists. split; [reflexivity|]. now destruct s.
Qed.

(** X17.  The end of the narration that [performRedo] started, the
    [ended] event of its buffer source or the [end] event of its
    utterance, routes by the mode of the redo: typing enters TYPING,
    camera enters PREVIEW_CAMERA; voice asks for the microphone and the
    flow stays in READING until the request settles, entering
    RECORDING_VOICE when it is granted and remaining in READING when it
    is denied. *)
Theorem redo_routes_to_requested_mode (s : State) (e : Event) (m : RedoMode) :
  mounted (hooks s) = true ->
  settled s ->
  flowState (cells s) = READING ->
  enabled s e = true ->
  narrationOwner s e = Some (ByRedo m) ->
  let s1 := step s e in
  let g := length (gumCalls (browser s)) in
  match m with
  | typing => flowState (cells s1) = TYPING
  | camera => flowState (cells s1) = PREVIEW_CAMERA
  | voice =>
      flowState (cells s1) = READING /\
      gumCalls (browser s1) = gumCalls (browser s) ++ [mkGumCall VoiceRequest false] /\
      flowState (cells (step s1 (GumSettled g true))) = RECORDING_VOICE /\
      flowState (cells (step s1 (GumSettled g false))) = READING
  end.
Proof.
  intros M S F En O s1 g.
  destruct (redo_narration_handler s e m O) as ([He1 He2] & s0 & Hh & Ac & Ap & Ah & Ag).
  destruct (step_enabled s e He1 He2 M S En) as (Fr & S1 & M1). fold s1 in Fr, S1, M1.
  rewrite Hh in Fr.
  destruct m; cbn [startNextMode startRecording] in Fr, Hh.
  - assert (E : s1 = updGumCalls (fun l => l ++ [mkGumCall VoiceRequest false]) s0).
    { subst s1. unfold step. rewrite En, Hh.
      apply afterHandler_quiet; [now intros _|cbn; assumption..]. }
    assert (G : gumCalls (browser s1) = gumCalls (browser s) ++ [mkGumCall VoiceRequest false]).
    { rewrite E. cbn. now rewrite Ag. }
    assert (F1 : flowState (cells s1) = READING).
    { rewrite E. cbn. now rewrite Ac. }
    assert (L : gumCalls (browser s1) !! g = Some (mkGumCall VoiceRequest false)).
    { rewrite G. apply lookup_snoc. }
    split; [exact F1|]. split; [exact G|].
    split.
    + destruct (step_enabled s1 (GumSettled g true)) as (Fr2 & _ & _);
        [discriminate|discriminate|assumption..| |].
      { cbn [enabled]. now rewrite L. }
      cbn [handle] in Fr2. unfold settleGum in Fr2. rewrite L in Fr2.
      cbn [gum_request] in Fr2. rewrite (ef_flowState _ _ Fr2). reflexivity.
    + destruct (step_enabled s1 (GumSettled g false)) as (Fr2 & _ & _);
        [discriminate|discriminate|assumption..| |].
      { cbn [enabled]. now rewrite L. }
      cbn [handle] in Fr2. unfold settleGum in Fr2. rewrite L in Fr2.
      cbn [gum_request] in Fr2. rewrite (ef_flowState _ _ Fr2). cbn. exact F1.
  - rewrite (ef_flowState _ _ Fr). reflexivity.
  - rewrite (ef_flowState _ _ Fr). reflexivity.
Qed.

(** A typed answer is redone by voice; the synthesis call returns no
    data, and the utterance of the fallback ends. *)
Lemma redo_routes_to_requested_mode_witness :
  let s := run (mount hastyProps true)
             (narrated ++ [ClickKeyboard; ChangeTranscript "I build things"; ClickTypingDone;
                           ClickRedo voice; SpeechSettled 1 NoData]) in
  let s1 := step s (UtteranceEnded 1) in
  (mounted (hooks s) = true /\ settled s /\ flowState (cells s) = READING /\
   enabled s (UtteranceEnded 1) = true /\
   narrationOwner s (UtteranceEnded 1) = Some (ByRedo voice)) /\
  flowState (cells (step s1 (GumSettled 0 true))) = RECORDING_VOICE.
Proof.
  intros s s1.
  assert (M : mounted (hooks s) = true) by (vm_compute; reflexivity).
  assert (S : settled s) by (vm_compute; reflexivity).
  assert (F : flowState (cells s) = READING) by (vm_compute; reflexivity).
  assert (En : enabled s (UtteranceEnded 1) = true) by (vm_compute; reflexivity).
  assert (O : narrationOwner s (UtteranceEnded 1) = Some (ByRedo voice))
    by (vm_compute; reflexivity).
  split; [split; [exact M|split; [exact S|split; [exact F|split; [exact En|exact O]]]]|].
  pose proof (redo_routes_to_requested_mode s (UtteranceEnded 1) voice M S F En O) as H.
  cbv zeta in H. destruct H as (_ & _ & H & _).
  assert (G : length (gumCalls (browser s)) = 0) by (vm_compute; reflexivity).
  rewrite G in H. exact H.
Defined.

(** *** The recording flag *)

Lemma handle_isRecordingMedia e r s :
  isRecordingMedia (cells (handle e r s)) = isRecordingMedia (cells s).
Proof. destruct e; unfold_handlers; repeat (case_match; try reflexivity); reflexivity. Qed.

Lemma render_flagFollowsFlow r :
  flagFollowsFlow r \/ rendered (hooks r) = None -> flagFollowsFlow (render r).
Proof.
  intro H. exists (depsOf r). split; [apply render_rendered|].
  pose proof (f_equal d_isRecordingMedia (render_deps r)) as D.
  change (d_isRecordingMedia (depsOf (render r))) with (isRecordingMedia (cells (render r))) in D.
  rewrite D. cbn [d_isRecordingMedia d_flowState depsOf].
  destruct H as [(d & R & I)|R]; rewrite R; cbn [changed]; [|reflexivity].
  change (d_flowState (depsOf r)) with (flowState (cells r)).
  destruct (bool_decide (d_flowState d = flowState (cells r))) eqn:B; [|reflexivity].
  apply bool_decide_eq_true in B. cbn [negb]. rewrite I, B. reflexivity.
Qed.

Lemma commit_flagFollowsFlow n : forall s, flagFollowsFlow s -> flagFollowsFlow (commit n s).
Proof.
  induction n as [|n IH]; intros s H; [exact H|].
  rewrite commit_S. destruct (decide _); [exact H|].
  apply IH, render_flagFollowsFlow. now left.
Qed.

Lemma commit_mounted n s : mounted (hooks (commit n s)) = mounted (hooks s).
Proof. apply (commit_same (fun x => mounted (hooks x))), render_mounted. Qed.

(** The flag is right in a committed state, and stays right on a
    component that was unmounted. *)
Lemma step_flag s e :
  committed s /\ flagFollowsFlow s /\
    isRecordingMedia (cells s) = isRecordingState (flowState (cells s)) ->
  committed (step s e) /\ flagFollowsFlow (step s e) /\
    isRecordingMedia (cells (step s e)) = isRecordingState (flowState (cells (step s e))).
Proof.
  intros (C & Fl & P). split; [now apply step_committed|].
  unfold step. destruct (enabled s e); [|now split].
  assert (Fh : flagFollowsFlow (handle e s s)).
  { destruct Fl as (d & R & I). exists d. now rewrite handle_rendered, handle_isRecordingMedia. }
  unfold afterHandler. destruct (mounted (hooks (handle e s s))) eqn:M.
  - pose proof (commit_flagFollowsFlow renderFuel _ Fh) as F'. split; [exact F'|].
    destruct F' as (d & R & I). rewrite I.
    pose proof (commit_settles (handle e s s)) as St. unfold settled in St.
    rewrite St in R. injection R as <-. reflexivity.
  - split; [|exact P]. destruct Fh as (d & R & I). exists d. cbn.
    split; [exact R|]. destruct Fl as (d' & R' & I'). rewrite handle_rendered in R.
    congruence.
Qed.

Lemma reachable_flag s :
  reachable s -> isRecordingMedia (cells s) = isRecordingState (flowState (cells s)).
Proof.
  intros (p & sr & es & ->).
  assert (H : committed (mount p sr) /\ flagFollowsFlow (mount p sr) /\
              isRecordingMedia (cells (mount p sr)) =
              isRecordingState (flowState (cells (mount p sr)))).
  { split; [apply mount_committed|].
    assert (F : flagFollowsFlow (mount p sr)).
    { unfold mount, renderFuel. rewrite commit_S.
      destruct (decide _) as [E|_]; [discriminate E|].
      apply commit_flagFollowsFlow, render_flagFollowsFlow. now right. }
    split; [exact F|]. destruct F as (d & R & I). rewrite I.
    assert (St : settled (mount p sr)) by (unfold mount; apply commit_settles).
    unfold settled in St. rewrite St in R. injection R as <-. reflexivity. }
  revert H. generalize (mount p sr).
  induction es as [|e es IH]; intros s H; [apply H|].
  change (run s (e :: es)) with (run (step s e) es). apply IH, step_flag, H.
Qed.

(** X18.  In every state the component can reach, mounted or not,
    [isRecordingMedia] is set exactly when the flow is in
    RECORDING_VOICE or RECORDING_CAMERA. *)
Theorem recording_flag_follows_flow (s : State) :
  reachable s ->
  isRecordingMedia (cells s) = isRecordingState (flowState (cells s)).
Proof. apply reachable_flag. Qed.

(** The flag during a voice recording. *)
Lemma recording_flag_follows_flow_witness :
  let s := run (mount sampleProps true) (narrated ++ [ClickMic; GumSettled 0 true]) in
  reachable s /\ isRecordingMedia (cells s) = true.
Proof.
  intro s.
  assert (R : reachable s) by (exists sampleProps, true; eexists; reflexivity).
  split; [exact R|].
  rewrite (recording_flag_follows_flow s R). vm_compute. reflexivity.
Defined.

(** *** The recognizer that listens *)

Lemma handle_supported e r s :
  speechRecognitionSupported (browser (handle e r s)) = speechRecognitionSupported (browser s).
Proof. destruct e; unfold_handlers; repeat (case_match; try reflexivity); reflexivity. Qed.

Lemma alter_snoc {A} (f : A -> A) (l : list A) (a : A) :
  alter f (length l) (l ++ [a]) = l ++ [f a].
Proof. induction l as [|x l IH]; [reflexivity|]. cbn. now rewrite IH. Qed.

(** The render that enters a recording state: the recognition effect
    makes an instance with the values of this render, and the
    [[flowState]] effect starts it. *)
Lemma render_enters_recording r :
  questionCommitted r ->
  changed d_flowState (rendered (hooks r)) (depsOf r) = true ->
  speechRecognitionSupported (browser r) = true ->
  isRecordingState (flowState (cells r)) = true ->
  recognizers (browser (render r)) =
    recognizers (browser r) ++
      [mkRecognizer Listening (isRecordingMedia (cells r)) (isPaused (cells r))
         (flowState (cells r))] /\
  recognitionRef (refs (render r)) = Some (length (recognizers (browser r))).
Proof.
  intros Q C Su Rec. unfold render. rewrite (changed_question_committed r Q), C.
  rewrite orb_true_r. set (c1 := _ || _). clearbody c1.
  assert (P : Pres (same (fun x => (recognizers (browser x),
                                     speechRecognitionSupported (browser x))))
            (setRendered (Some (depsOf r)) >>> when c1 timerCleanup >>>
             when false questionCleanup >>> when c1 (timerEffect r)))
    by (pres; stage).
  specialize (P r). unfold same, andThen in P. unfold andThen.
  set (x := when c1 (timerEffect r) _) in *. clearbody x.
  injection P as P1 P2.
  unfold when, skip. cbv beta iota.
  unfold initRecognition. cbv beta. rewrite P2, Su.
  unfold flowStateEffect. rewrite Rec.
  destruct (isCameraState (flowState (cells r)));
    unfold andThen, startCamera, stopCamera, startListening;
    destruct (cameraStream (cells r)); cbn; rewrite P1, alter_snoc; split; reflexivity.
Qed.

(** The render after it: [isRecordingMedia] has changed, and the
    recognition effect replaces the instance in [recognitionRef] by an
    idle one. *)
Lemma render_replaces_recognizer r :
  questionCommitted r ->
  changed d_flowState (rendered (hooks r)) (depsOf r) = false ->
  changed d_isPaused (rendered (hooks r)) (depsOf r) = false ->
  changed d_isRecordingMedia (rendered (hooks r)) (depsOf r) = true ->
  speechRecognitionSupported (browser r) = true ->
  render r =
    (setRendered (Some (depsOf r)) >>>
     updRecognizers (fun l => l ++ [mkRecognizer Idle (isRecordingMedia (cells r))
                                      (isPaused (cells r)) (flowState (cells r))]) >>>
     setRecognitionRef (Some (length (recognizers (browser r))))) r.
Proof.
  intros Q C1 C2 C3 Su. unfold render.
  rewrite (changed_question_committed r Q), C1, C2, C3. cbn [orb].
  unfold andThen.
  unfold when, skip. cbv beta iota.
  unfold initRecognition. cbn. rewrite Su. reflexivity.
Qed.

(** X19.  When an event moves a mounted component with speech
    recognition from a state that is not a recording state into
    RECORDING_VOICE or RECORDING_CAMERA, two recognizer instances are
    made: the first captures [isRecordingMedia = false] and is the one
    that listens; the second captures [true], stays idle and is the one
    [recognitionRef] holds.  So when the listening instance ends, its
    [onend] finds [isRecordingMedia] false and restarts nothing: the
    instance is idle, and nothing else changes. *)
Theorem listening_recognizer_never_restarts (s : State) (e : Event) :
  reachable s ->
  mounted (hooks s) = true ->
  enabled s e = true ->
  (forall p, e <> NewProps p) ->
  e <> Unmount ->
  speechRecognitionSupported (browser s) = true ->
  let h := handle e s s in
  isRecordingState (flowState (cells s)) = false ->
  isRecordingState (flowState (cells h)) = true ->
  let s1 := step s e in
  let n := length (recognizers (browser h)) in
  recognizers (browser s1) =
    recognizers (browser h) ++
      [mkRecognizer Listening false (isPaused (cells h)) (flowState (cells h));
       mkRecognizer Idle true (isPaused (cells h)) (flowState (cells h))] /\
  recognitionRef (refs s1) = Some (S n) /\
  step s1 (RecognitionEnded n) = updRecognizers (alter recognizer_end n) s1.
Proof.
  intros Re M En Np Nu Su h N0 N1 s1 n.
  pose proof (reachable_committed s Re M) as S.
  assert (B : isRecordingMedia (cells h) = false).
  { subst h. rewrite handle_isRecordingMedia, (reachable_flag s Re). exact N0. }
  assert (Hf : flowState (cells h) <> flowState (cells s)) by congruence.
  assert (Mh : mounted (hooks h) = true) by (subst h; rewrite handle_mounted; auto).
  assert (Rh : rendered (hooks h) = Some (depsOf s)) by (subst h; now rewrite handle_rendered).
  assert (Q : questionCommitted h).
  { exists (depsOf s). split; [exact Rh|]. subst h. cbn. now rewrite handle_props. }
  assert (C : changed d_flowState (rendered (hooks h)) (depsOf h) = true).
  { rewrite Rh. cbn. rewrite bool_decide_eq_false_2; [reflexivity|]. congruence. }
  assert (Sh : speechRecognitionSupported (browser h) = true)
    by (subst h; now rewrite handle_supported).
  assert (E : s1 = commit 3 (render h)).
  { subst s1. unfold step. rewrite En. unfold afterHandler. fold h. rewrite Mh.
    unfold renderFuel. rewrite commit_S. destruct (decide _) as [X|_]; [|reflexivity].
    rewrite Rh in X. exfalso. apply Hf.
    apply (f_equal (fun o => match o with Some d => d_flowState d | None => READING end)) in X.
    symmetry. exact X. }
  destruct (render_enters_recording h Q C Sh N1) as [G1 R1]. rewrite B in G1.
  pose proof (render_frame h Q) as Fr.
  pose proof (render_rendered h) as Rr.
  pose proof (render_deps h) as D. rewrite (changed_question_committed h Q), C in D.
  cbv zeta iota in D. rewrite N1 in D.
  set (r1 := render h) in *. clearbody r1.
  assert (D1 : isRecordingMedia (cells r1) = true) by exact (f_equal d_isRecordingMedia D).
  assert (D2 : isPaused (cells r1) = isPaused (cells h)) by exact (f_equal d_isPaused D).
  assert (D3 : flowState (cells r1) = flowState (cells h)) by exact (f_equal d_flowState D).
  assert (Q1 : questionCommitted r1).
  { exists (depsOf h). split; [exact Rr|].
    symmetry. exact (f_equal question (ef_props _ _ Fr)). }
  assert (E2 : render r1 =
    (setRendered (Some (depsOf r1)) >>>
     updRecognizers (fun l => l ++ [mkRecognizer Idle (isRecordingMedia (cells r1))
                                      (isPaused (cells r1)) (flowState (cells r1))]) >>>
     setRecognitionRef (Some (length (recognizers (browser r1))))) r1).
  { apply render_replaces_recognizer; [exact Q1|rewrite Rr, D; cbn..|].
    - now rewrite bool_decide_eq_true_2.
    - now rewrite bool_decide_eq_true_2.
    - rewrite B. reflexivity.
    - rewrite (ef_supported _ _ Fr). exact Sh. }
  assert (E3 : s1 = render r1).
  { rewrite E. rewrite commit_S. destruct (decide _) as [X|_].
    - exfalso. rewrite Rr in X.
      apply (f_equal (fun o => match o with
                               | Some d => d_isRecordingMedia d
                               | None => false
                               end)) in X.
      change (isRecordingMedia (cells h) = isRecordingMedia (cells r1)) in X. congruence.
    - apply commit_settled. unfold settled. rewrite E2. reflexivity. }
  rewrite D1, D2, D3, G1 in E2. rewrite <- E3 in E2. clear E3 E.
  assert (G : recognizers (browser s1) =
              recognizers (browser h) ++
                [mkRecognizer Listening false (isPaused (cells h)) (flowState (cells h));
                 mkRecognizer Idle true (isPaused (cells h)) (flowState (cells h))]).
  { rewrite E2. cbn. rewrite G1, <- app_assoc. reflexivity. }
  split; [exact G|]. split.
  { rewrite E2. cbn. rewrite length_app. cbn. fold n. f_equal. lia. }
  assert (L : recognizers (browser s1) !! n =
              Some (mkRecognizer Listening false (isPaused (cells h)) (flowState (cells h)))).
  { rewrite G. apply list_lookup_middle. reflexivity. }
  assert (C1 : committed s1) by (apply step_committed; now intros _).
  unfold step.
  assert (En1 : enabled s1 (RecognitionEnded n) = true).
  { cbn [enabled]. unfold recognizerStatus. rewrite L. reflexivity. }
  rewrite En1. cbn [handle]. unfold onend. rewrite L. cbn [rg_isRecordingMedia andb].
  apply afterHandler_quiet; [exact C1|reflexivity..].
Qed.

(** The microphone is granted on the voice path. *)
Lemma listening_recognizer_never_restarts_witness :
  let s := run (mount sampleProps true) (narrated ++ [ClickMic]) in
  let s1 := step s (GumSettled 0 true) in
  reachable s /\ mounted (hooks s) = true /\ enabled s (GumSettled 0 true) = true /\
  speechRecognitionSupported (browser s) = true /\
  isRecordingState (flowState (cells s)) = false /\
  isRecordingState (flowState (cells (handle (GumSettled 0 true) s s))) = true /\
  step s1 (RecognitionEnded 2) = updRecognizers (alter recognizer_end 2) s1.
Proof.
  intros s s1.
  assert (R : reachable s) by (exists sampleProps, true; eexists; reflexivity).
  assert (M : mounted (hooks s) = true) by (vm_compute; reflexivity).
  assert (En : enabled s (GumSettled 0 true) = true) by (vm_compute; reflexivity).
  assert (Su : speechRecognitionSupported (browser s) = true) by (vm_compute; reflexivity).
  assert (N0 : isRecordingState (flowState (cells s)) = false) by (vm_compute; reflexivity).
  assert (N1 : isRecordingState (flowState (cells (handle (GumSettled 0 true) s s))) = true)
    by (vm_compute; reflexivity).
  split; [exact R|]. split; [exact M|]. split; [exact En|]. split; [exact Su|].
  split; [exact N0|]. split; [exact N1|].
  assert (Np : forall p, GumSettled 0 true <> NewProps p) by discriminate.
  assert (Nu : GumSettled 0 true <> Unmount) by discriminate.
  pose proof (listening_recognizer_never_restarts s (GumSettled 0 true) R M En Np Nu Su N0 N1)
    as H.
  cbv zeta in H. destruct H as (_ & _ & H).
  assert (G : length (recognizers (browser (handle (GumSettled 0 true) s s))) = 2)
    by (vm_compute; reflexivity).
  rewrite G in H. exact H.
Defined.

(** *** A change of question and the narration of the effect *)

(** The render for a new question runs the cleanup of the
    [[question]] effect: the utterances are cancelled, the source in
    [ttsSourceRef] is stopped and the context in [ttsAudioContextRef] is
    closed; no effect body touches them. *)
Lemma render_cancels r x :
  changed d_question (rendered (hooks r)) (depsOf r) = true ->
  last (runs (hooks r)) = Some x ->
  utterances (browser (render r)) = map utterance_cancel (utterances (browser r)) /\
  sources (browser (render r)) =
    match ttsSourceRef (refs r) with
    | Some i => alter source_stop i (sources (browser r))
    | None => sources (browser r)
    end /\
  contexts (browser (render r)) =
    match ttsAudioContextRef (refs r) with
    | Some i => <[i := false]> (contexts (browser r))
    | None => contexts (browser r)
    end.
Proof.
  intros C L. unfold render. rewrite C.
  change (when true questionCleanup) with questionCleanup.
  change (when true (questionEffect r)) with (questionEffect r).
  set (c1 := _ || _). set (c2 := _ || _ || _). set (fC := changed d_flowState _ _).
  clearbody c1 c2 fC.
  assert (PS : Pres (same (fun y => (utterances (browser y), sources (browser y),
                                      contexts (browser y))))
            (when c1 (timerEffect r) >>> when c2 (initRecognition r) >>>
             questionEffect r >>> when fC (flowStateEffect r)))
    by (pres; stage).
  assert (PP : Pres (same (fun y => (utterances (browser y), sources (browser y),
                                      contexts (browser y), ttsSourceRef (refs y),
                                      ttsAudioContextRef (refs y), runs (hooks y))))
            (setRendered (Some (depsOf r)) >>> when c1 timerCleanup))
    by (pres; stage).
  specialize (PP r). unfold same, andThen in PP, PS. unfold andThen.
  set (y := when c1 timerCleanup _) in *. clearbody y.
  injection PP as U0 S0 C0 R0 A0 L0.
  specialize (PS (questionCleanup y)). injection PS as U1 S1 C1.
  rewrite U1, S1, C1. clear U1 S1 C1.
  unfold questionCleanup. rewrite L0, L. rewrite <- U0, <- S0, <- C0, <- R0, <- A0.
  unfold andThen, speechSynthesis_cancel, stopTtsSource, closeTtsContext, stopCamera,
    stopListening, stopTracks, skip, andThen.
  cbn. destruct (ttsSourceRef (refs y)); cbn;
    destruct (ttsAudioContextRef (refs y)); cbn;
    destruct (run_cameraStream x); cbn;
    destruct (recognitionRef (refs y)); cbn;
    destruct (run_voiceStream x); cbn; repeat split; reflexivity.
Qed.

Lemma question_change_cancels s p' x :
  committed s ->
  mounted (hooks s) = true ->
  question p' <> question (props s) ->
  last (runs (hooks s)) = Some x ->
  let s1 := step s (NewProps p') in
  utterances (browser s1) = map utterance_cancel (utterances (browser s)) /\
  sources (browser s1) =
    match ttsSourceRef (refs s) with
    | Some i => alter source_stop i (sources (browser s))
    | None => sources (browser s)
    end /\
  contexts (browser s1) =
    match ttsAudioContextRef (refs s) with
    | Some i => <[i := false]> (contexts (browser s))
    | None => contexts (browser s)
    end.
Proof.
  intros Hs Hm Hq L s1.
  set (h := withProps (fun _ => p') s).
  assert (E : s1 = commit 3 (render h)).
  { subst s1. unfold step. cbn [enabled]. rewrite Hm. unfold afterHandler.
    cbn [handle]. fold h. change (mounted (hooks h)) with (mounted (hooks s)). rewrite Hm.
    unfold renderFuel. cbn [commit]. destruct (decide _) as [E|_]; [|reflexivity].
    exfalso. change (rendered (hooks h)) with (rendered (hooks s)) in E.
    rewrite (Hs Hm) in E.
    apply (f_equal (fun o => match o with
                             | Some d => d_question d
                             | None => question p'
                             end)) in E.
    apply Hq. symmetry. exact E. }
  assert (C : changed d_question (rendered (hooks h)) (depsOf h) = true).
  { change (rendered (hooks h)) with (rendered (hooks s)). rewrite (Hs Hm). cbn.
    rewrite bool_decide_eq_false_2; [reflexivity|]. intro X. apply Hq. symmetry. exact X. }
  destruct (render_cancels h x C L) as (U & So & Co).
  pose proof (commit_frame 3 _ (render_questionCommitted h)) as Fr.
  rewrite E, (ef_utterances _ _ Fr), (ef_sources _ _ Fr), (ef_contexts _ _ Fr).
  rewrite U, So, Co. repeat split.
Qed.

(** X20.  When the question changes on a mounted component, the flow is
    back in READING; every utterance that was being spoken is cancelled,
    the buffer source in [ttsSourceRef] is stopped and the context in
    [ttsAudioContextRef] is closed; and every run of the [[question]]
    effect that existed is dead: from then on, whatever else happens,
    its 500 ms timer cannot fire, a remote synthesis call it left
    pending settles without starting any playback or speech, and the end
    of its playback or of its fallback utterance changes no state
    cell. *)
Theorem question_change_abandons_effect_narration
    (p : Props) (speechRecognition : bool) (es0 : list Event)
    (p' : Props) (es : list Event) :
  let s := run (mount p speechRecognition) es0 in
  mounted (hooks s) = true ->
  question p' <> question (props s) ->
  let n := length (runs (hooks s)) in
  let s1 := step s (NewProps p') in
  let s2 := run s1 es in
  (flowState (cells s1) = READING /\ deadBelow n s1 /\
   utterances (browser s1) = map utterance_cancel (utterances (browser s)) /\
   sources (browser s1) =
     match ttsSourceRef (refs s) with
     | Some i => alter source_stop i (sources (browser s))
     | None => sources (browser s)
     end /\
   contexts (browser s1) =
     match ttsAudioContextRef (refs s) with
     | Some i => <[i := false]> (contexts (browser s))
     | None => contexts (browser s)
     end) /\
  (forall k, k < n ->
     enabled s2 (TimerFired k) = false /\
     (forall c call out,
        speechCalls (browser s2) !! c = Some call -> sc_owner call = ByEffect k ->
        let s3 := step s2 (SpeechSettled c out) in
        cells s3 = cells s2 /\ refs s3 = refs s2 /\
        sources (browser s3) = sources (browser s2) /\
        utterances (browser s3) = utterances (browser s2) /\
        contexts (browser s3) = contexts (browser s2)) /\
     (forall i b,
        sources (browser s2) !! i = Some b -> src_owner b = ByEffect k ->
        cells (step s2 (SourceEnded i)) = cells s2) /\
     (forall j u,
        utterances (browser s2) !! j = Some u -> utt_owner u = ByEffect k ->
        cells (step s2 (UtteranceEnded j)) = cells s2)).
Proof.
  intros s Hm Hq n s1 s2.
  assert (R : reachable s) by (exists p, speechRecognition, es0; reflexivity).
  pose proof (reachable_committed s R) as Cs.
  pose proof (reachable_oldRunsDead s R) as Ds.
  destruct (reachable_narrates s R _ (Cs Hm)) as (x & Lx & _).
  destruct (question_change_step s p' Cs Ds Hm Hq) as [F1 D1]. fold s1 n in F1, D1.
  destruct (question_change_cancels s p' x Cs Hm Hq Lx) as (U1 & So1 & Co1).
  fold s1 in U1, So1, Co1.
  assert (C2 : committed s2) by (apply run_committed, step_committed, Cs).
  assert (D2 : deadBelow n s2) by (apply (deadBelow_fade n s1); [exact D1|apply run_runsFade]).
  split; [split; [exact F1|split; [exact D1|split; [exact U1|split; [exact So1|exact Co1]]]]|].
  intros k Hk. pose proof (isMountedOf_dead n k s2 D2 Hk) as Mk.
  split; [now apply (timer_dead n)|]. split; [|split].
  - intros c call out Hc Ho. now apply (dead_speech_settled s2 c call k).
  - intros i b Hb Ho. now apply (dead_source_ended s2 i b k).
  - intros j u Hu Ho. now apply (dead_utterance_ended s2 j u k).
Qed.

(** The question changes while the remote narration is playing; the
    [ended] event of the stopped source arrives afterwards. *)
Lemma question_change_abandons_effect_narration_witness :
  let s := run (mount sampleProps true) [TimerFired 0; SpeechSettled 0 Playable] in
  let s1 := step s (NewProps (mkProps otherQuestion false)) in
  let s2 := run s1 [] in
  mounted (hooks s) = true /\
  question (mkProps otherQuestion false) <> question (props s) /\
  flowState (cells s1) = READING /\
  sources (browser s1) = [mkSource (ByEffect 0) true false] /\
  contexts (browser s1) = [false] /\
  cells (step s2 (SourceEnded 0)) = cells s2.
Proof.
  intros s s1 s2.
  assert (Hm : mounted (hooks s) = true) by (vm_compute; reflexivity).
  assert (Hq : question (mkProps otherQuestion false) <> question (props s))
    by (vm_compute; discriminate).
  split; [exact Hm|]. split; [exact Hq|].
  destruct (question_change_abandons_effect_narration sampleProps true
              [TimerFired 0; SpeechSettled 0 Playable] (mkProps otherQuestion false) [] Hm Hq)
    as ((F & _ & _ & So & Co) & A).
  split; [exact F|].
  assert (T1 : ttsSourceRef (refs s) = Some 0) by (vm_compute; reflexivity).
  assert (T2 : ttsAudioContextRef (refs s) = Some 0) by (vm_compute; reflexivity).
  unfold s in T1, T2. rewrite T1 in So. rewrite T2 in Co.
  split; [transitivity (alter source_stop 0 (sources (browser s)));
          [exact So|vm_compute; reflexivity]|].
  split; [transitivity (<[0 := false]> (contexts (browser s)));
          [exact Co|vm_compute; reflexivity]|].
  assert (H0 : 0 < length (runs (hooks s))) by (vm_compute; lia).
  destruct (A 0 H0) as (_ & _ & S & _).
  assert (H1 : sources (browser s2) !! 0 = Some (mkSource (ByEffect 0) true false))
    by (vm_compute; reflexivity).
  exact (S 0 _ H1 eq_refl).
Defined.

(** *** The three answer paths, run without interference *)









End QuestionFlowExtras.

(** ** decodePCM: properties *)

Module PCMFacts.
Import QArith_base.
#[local] Close Scope Q_scope.
Import PCM.

Lemma int16_range lo hi : (-32768 <= int16 lo hi < 32768)%Z.
Proof.
  unfold int16.
  pose proof (Byte.to_N_bounded lo). pose proof (Byte.to_N_bounded hi).
  destruct (Z.ltb_spec (Z.of_N (Byte.to_N lo) + 256 * Z.of_N (Byte.to_N hi)) 32768); lia.
Qed.

Lemma int16_inj lo hi lo' hi' : int16 lo hi = int16 lo' hi' -> lo = lo' /\ hi = hi'.
Proof.
  unfold int16. intro H.
  pose proof (Byte.to_N_bounded lo). pose proof (Byte.to_N_bounded hi).
  pose proof (Byte.to_N_bounded lo'). pose proof (Byte.to_N_bounded hi').
  assert (E : Byte.to_N lo = Byte.to_N lo' /\ Byte.to_N hi = Byte.to_N hi').
  { destruct (Z.ltb_spec (Z.of_N (Byte.to_N lo) + 256 * Z.of_N (Byte.to_N hi)) 32768),
             (Z.ltb_spec (Z.of_N (Byte.to_N lo') + 256 * Z.of_N (Byte.to_N hi')) 32768); lia. }
  destruct E as [E1 E2].
  split; apply (f_equal Byte.of_N) in E1, E2; rewrite !Byte.of_to_N in E1, E2; congruence.
Qed.

Lemma pair_ind {A} (P : list A -> Prop) :
  P [] -> (forall x, P [x]) -> (forall a b l, P l -> P (a :: b :: l)) ->
  forall l, P l.
Proof.
  intros H0 H1 H2 l.
  assert (H : P l /\ forall x, P (x :: l)); [|tauto].
  induction l as [|a l [IH1 IH2]]; [auto|]. split; [apply IH2|]. intro x. now apply H2.
Qed.

Lemma int16s_length bytes : length (int16s bytes) = length bytes / 2.
Proof.
  induction bytes as [|x|a b l IH] using pair_ind; [reflexivity..|].
  cbn [int16s length]. rewrite IH.
  change (S (S (length l))) with (1 * 2 + length l).
  rewrite Nat.div_add_l by lia. reflexivity.
Qed.

Lemma int16s_inj b1 : forall b2,
  Nat.even (length b1) = true -> Nat.even (length b2) = true ->
  int16s b1 = int16s b2 -> b1 = b2.
Proof.
  induction b1 as [|x|a b l IH] using pair_ind; intros b2 E1 E2 H.
  - destruct b2 as [|a' [|b' l']]; [reflexivity|discriminate..].
  - discriminate.
  - destruct b2 as [|a' [|b' l']]; [discriminate..|].
    cbn [int16s] in H. injection H as H1 H2.
    apply int16_inj in H1 as [-> ->]. f_equal. f_equal. apply IH; assumption.
Qed.

(** *** The loops *)

Lemma fillChannel_S d c ch n chan :
  fillChannel d c ch (S n) chan =
  <[n := scaled d (n * c + ch)]> (fillChannel d c ch n chan).
Proof. unfold fillChannel. rewrite seq_S, fold_left_app. reflexivity. Qed.

Lemma fillChannel_length d c ch n chan : length (fillChannel d c ch n chan) = length chan.
Proof.
  induction n as [|n IH]; [reflexivity|]. now rewrite fillChannel_S, length_insert.
Qed.

Lemma fillChannel_lookup d c ch n chan i :
  i < length chan ->
  fillChannel d c ch n chan !! i =
  if Nat.ltb i n then Some (scaled d (i * c + ch)) else chan !! i.
Proof.
  intro Hi. induction n as [|n IH]; [reflexivity|].
  rewrite fillChannel_S. destruct (decide (n = i)) as [->|N].
  - rewrite list_lookup_insert_eq by (rewrite fillChannel_length; exact Hi).
    now rewrite (proj2 (Nat.ltb_lt i (S i))) by lia.
  - rewrite list_lookup_insert_ne by exact N. rewrite IH.
    destruct (Nat.ltb_spec i n), (Nat.ltb_spec i (S n)); try reflexivity; lia.
Qed.

Lemma channels_loop (g : nat -> list Sample -> list Sample) m b :
  let b' := fold_left (fun buf channel => setChannel channel (g channel) buf) (seq 0 m) b in
  sampleRate b' = sampleRate b /\
  length (channels b') = length (channels b) /\
  forall ch, channels b' !! ch =
             if Nat.ltb ch m then g ch <$> channels b !! ch else channels b !! ch.
Proof.
  induction m as [|m (IH1 & IH2 & IH3)]; [repeat split|].
  cbv zeta. rewrite seq_S, fold_left_app. cbn [fold_left Nat.add].
  set (b1 := fold_left _ (seq 0 m) b) in *.
  split; [exact IH1|]. split; [cbn; now rewrite length_alter|].
  intro ch. cbn [setChannel channels]. destruct (decide (m = ch)) as [->|N].
  - rewrite list_lookup_alter_eq, IH3.
    rewrite (proj2 (Nat.ltb_ge ch ch)) by lia.
    now rewrite (proj2 (Nat.ltb_lt ch (S ch))) by lia.
  - rewrite list_lookup_alter_ne by exact N. rewrite IH3.
    destruct (Nat.ltb_spec ch m), (Nat.ltb_spec ch (S m)); try reflexivity; lia.
Qed.

Lemma iterations_cover samples c : 0 < c -> samples / c <= (samples + c - 1) / c.
Proof. intro H. apply Nat.Div0.div_le_mono. lia. Qed.

Lemma decodePCM_even data ctx rate numChannels buffer :
  decodePCM data ctx rate numChannels = Some buffer -> Nat.even (length data) = true.
Proof.
  unfold decodePCM, Int16Array.
  destruct (Nat.even (length data)); [reflexivity|discriminate].
Qed.

(** X7.  [decodePCM] throws exactly when the byte count is odd, when
    the number of channels is zero or above the limit of the context,
    when the data holds fewer 16-bit samples than there are channels
    (so also on empty data), or when the rate is outside the limits of
    the context. *)
Theorem decodePCM_throws_iff
    (data : list byte) (ctx : AudioContext) (rate : N) (numChannels : nat) :
  decodePCM data ctx rate numChannels = None <->
  Nat.even (length data) = false \/ numChannels = 0 \/ maxChannels ctx < numChannels \/
  length data / 2 < numChannels \/ (rate < minRate ctx)%N \/ (maxRate ctx < rate)%N.
Proof.
  unfold decodePCM, Int16Array, createBuffer, framesOf.
  destruct (Nat.even (length data)) eqn:E; [|tauto].
  rewrite int16s_length.
  assert (Z : numChannels <> 0 ->
              (length data / 2 / numChannels = 0 <-> length data / 2 < numChannels))
    by (intro; now apply Nat.div_small_iff).
  destruct (Nat.eqb_spec numChannels 0) as [C0|C0]; cbn [orb]; [tauto|].
  destruct (Nat.ltb_spec (maxChannels ctx) numChannels) as [C1|C1]; cbn [orb]; [tauto|].
  destruct (Nat.eqb_spec (length data / 2 / numChannels) 0) as [F|F]; cbn [orb].
  { apply Z in F; [tauto|exact C0]. }
  destruct (N.ltb_spec rate (minRate ctx)) as [R0|R0]; cbn [orb]; [tauto|].
  destruct (N.ltb_spec (maxRate ctx) rate) as [R1|R1]; cbn [orb]; [tauto|].
  split; [discriminate|].
  intros [H|[H|[H|[H|[H|H]]]]]; try discriminate; try lia;
    exfalso; apply F, Z; assumption.
Qed.

(** The buffer [decodePCM] returns, frame by frame. *)
Lemma decodePCM_frames
    (data : list byte) (ctx : AudioContext) (rate : N) (numChannels : nat)
    (buffer : AudioBuffer) :
  decodePCM data ctx rate numChannels = Some buffer ->
  sampleRate buffer = rate /\
  length (channels buffer) = numChannels /\
  forall ch, ch < numChannels ->
    exists channelData,
      channels buffer !! ch = Some channelData /\
      length channelData = length data / 2 / numChannels /\
      forall i, i < length channelData ->
        exists v, int16s data !! (i * numChannels + ch) = Some v /\
                  channelData !! i = Some (Number (v # 32768)) /\
                  inRange (Number (v # 32768)).
Proof.
  unfold decodePCM, Int16Array, createBuffer, framesOf, iterationsOf.
  destruct (Nat.even (length data)); [|discriminate].
  destruct (Nat.eqb_spec numChannels 0) as [->|N]; cbn [orb]; [discriminate|].
  destruct (Nat.ltb (maxChannels ctx) numChannels); cbn [orb]; [discriminate|].
  destruct (Nat.eqb_spec (length (int16s data) / numChannels) 0) as [Z|Z];
    cbn [orb]; [discriminate|].
  destruct (N.ltb rate (minRate ctx)); cbn [orb]; [discriminate|].
  destruct (N.ltb (maxRate ctx) rate); [discriminate|].
  intro H. injection H as <-.
  match goal with |- context [fold_left ?f (seq 0 numChannels) ?b] =>
    destruct (channels_loop
                (fun channel => fillChannel (int16s data) numChannels channel
                   ((length (int16s data) + numChannels - 1) / numChannels))
                numChannels b) as (R & L & C)
  end.
  cbv zeta in R, L, C. split; [exact R|]. split.
  { rewrite L. cbn. apply length_replicate. }
  intros ch Hch. rewrite C. rewrite (proj2 (Nat.ltb_lt ch numChannels)) by exact Hch.
  cbn [channels]. rewrite lookup_replicate_2 by exact Hch. cbn [fmap option_fmap option_map].
  eexists. split; [reflexivity|]. rewrite fillChannel_length, length_replicate.
  split; [now rewrite int16s_length|].
  intros i Hi.
  assert (K : i * numChannels + ch < length (int16s data)).
  { assert (X : numChannels * (length (int16s data) / numChannels) <= length (int16s data))
      by (apply Nat.Div0.mul_div_le). nia. }
  destruct (lookup_lt_is_Some_2 _ _ K) as [v Hv]. exists v. split; [exact Hv|].
  split.
  - rewrite fillChannel_lookup by (rewrite length_replicate; exact Hi).
    assert (I : i < (length (int16s data) + numChannels - 1) / numChannels).
    { pose proof (iterations_cover (length (int16s data)) numChannels). lia. }
    rewrite (proj2 (Nat.ltb_lt _ _) I). unfold scaled. now rewrite Hv.
  - assert (B : (-32768 <= v < 32768)%Z).
    { clear -Hv. revert Hv. generalize (i * numChannels + ch).
      induction data as [|x|a b l IH] using pair_ind; intros n Hn;
        [discriminate..|].
      destruct n; cbn in Hn; [injection Hn as <-; apply int16_range|eauto]. }
    unfold inRange, Qle, Qlt. cbn. lia.
Qed.

(** X8.  When [decodePCM] returns, the buffer has the requested rate
    and number of channels, each of [samples / numChannels] frames
    (rounded down), and frame [i] of channel [ch] is the 16-bit sample
    at index [i * numChannels + ch] divided by 32768: a number from -1
    up to but excluding 1, never [NaN], also when the channels do not
    divide the sample count. *)
Theorem decodePCM_deinterleaves
    (data : list byte) (ctx : AudioContext) (rate : N) (numChannels : nat)
    (buffer : AudioBuffer) :
  decodePCM data ctx rate numChannels = Some buffer ->
  sampleRate buffer = rate /\
  length (channels buffer) = numChannels /\
  forall ch, ch < numChannels ->
    exists channelData,
      channels buffer !! ch = Some channelData /\
      length channelData = length data / 2 / numChannels /\
      forall i, i < length channelData ->
        exists v, int16s data !! (i * numChannels + ch) = Some v /\
                  channelData !! i = Some (Number (v # 32768)) /\
                  inRange (Number (v # 32768)).
Proof. apply decodePCM_frames. Qed.

(** Four bytes, two channels. *)
Lemma decodePCM_deinterleaves_witness :
  decodePCM ["000"; "128"; "255"; "127"]%byte sampleContext 24000 2 =
    Some (mkBuffer 24000 [[Number (-32768 # 32768)]; [Number (32767 # 32768)]]) /\
  length (channels (mkBuffer 24000 [[Number (-32768 # 32768)]; [Number (32767 # 32768)]])) = 2.
Proof.
  assert (H : decodePCM ["000"; "128"; "255"; "127"]%byte sampleContext 24000 2 =
    Some (mkBuffer 24000 [[Number (-32768 # 32768)]; [Number (32767 # 32768)]]))
    by (vm_compute; reflexivity).
  split; [exact H|].
  exact (proj1 (proj2 (decodePCM_deinterleaves _ _ _ _ _ H))).
Defined.

(** X9.  The narration decoder loses nothing: two byte sequences that
    [decodePCM(pcmData, ctx)] turns into the same buffer, in whatever
    contexts, are the same bytes. *)
Theorem decodeQuestionAudio_injective
    (data1 data2 : list byte) (ctx1 ctx2 : AudioContext) (buffer : AudioBuffer) :
  decodeQuestionAudio data1 ctx1 = Some buffer ->
  decodeQuestionAudio data2 ctx2 = Some buffer ->
  data1 = data2.
Proof.
  unfold decodeQuestionAudio. intros H1 H2.
  pose proof (decodePCM_even _ _ _ _ _ H1) as E1.
  pose proof (decodePCM_even _ _ _ _ _ H2) as E2.
  destruct (decodePCM_frames _ _ _ _ _ H1) as (_ & _ & C1).
  destruct (decodePCM_frames _ _ _ _ _ H2) as (_ & _ & C2).
  destruct (C1 0) as (c1 & L1 & N1 & S1); [lia|].
  destruct (C2 0) as (c2 & L2 & N2 & S2); [lia|].
  rewrite L1 in L2. injection L2 as <-.
  rewrite Nat.div_1_r, <- int16s_length in N1, N2.
  apply int16s_inj; [assumption..|].
  apply list_eq. intro i.
  destruct (Nat.lt_ge_cases i (length c1)) as [Hi|Hi].
  - destruct (S1 i Hi) as (v1 & A1 & B1 & _). destruct (S2 i Hi) as (v2 & A2 & B2 & _).
    rewrite Nat.mul_1_r, Nat.add_0_r in A1, A2.
    rewrite A1, A2. rewrite B1 in B2. injection B2 as ->. reflexivity.
  - rewrite !lookup_ge_None_2 by lia. reflexivity.
Qed.

(** Two bytes decode to one frame. *)
Lemma decodeQuestionAudio_injective_witness :
  decodeQuestionAudio ["001"; "000"]%byte sampleContext =
    Some (mkBuffer 24000 [[Number (1 # 32768)]]) /\
  ["001"; "000"]%byte = ["001"; "000"]%byte.
Proof.
  assert (H : decodeQuestionAudio ["001"; "000"]%byte sampleContext
              = Some (mkBuffer 24000 [[Number (1 # 32768)]])) by (vm_compute; reflexivity).
  split; [exact H|].
  exact (decodeQuestionAudio_injective _ _ _ _ _ H H).
Defined.

End PCMFacts.

(** ** formatTime: properties *)

Module FormatTimeFacts.
Import FormatTime.

Lemma append_length (a b : string) :
  String.length (String.append a b) = String.length a + String.length b.
Proof.
  induction a as [|c a IH]; [reflexivity|].
  change (S (String.length (String.append a b)) = S (String.length a + String.length b)).
  now rewrite IH.
Qed.

(** Equal concatenations with tails of equal length have equal parts. *)
Lemma append_inj (a b p q : string) :
  String.length p = String.length q ->
  String.append a p = String.append b q -> a = b /\ p = q.
Proof.
  intro L. revert b. induction a as [|c a IH]; intros [|d b] H.
  - auto.
  - exfalso. change (p = String d (String.append b q)) in H.
    apply (f_equal String.length) in H. cbn in H. rewrite append_length in H. lia.
  - exfalso. change (String c (String.append a p) = q) in H.
    apply (f_equal String.length) in H. cbn in H. rewrite append_length in H. lia.
  - change (String c (String.append a p) = String d (String.append b q)) in H.
    injection H as -> H. destruct (IH _ H) as [-> ->]. auto.
Qed.

Lemma secondsField_reads_back :
  forallb (fun k => bool_decide (twoDigits (secondsField k) = Some k)) (seq 0 60) = true.
Proof. vm_compute. reflexivity. Qed.

Lemma secondsField_twoDigits k : k < 60 -> twoDigits (secondsField k) = Some k.
Proof.
  intro H. pose proof secondsField_reads_back as F.
  rewrite forallb_forall in F. specialize (F k).
  apply bool_decide_eq_true in F; [exact F|]. apply in_seq. lia.
Qed.

Lemma secondsField_length k : k < 60 -> String.length (secondsField k) = 2.
Proof.
  intro H. pose proof (secondsField_twoDigits k H) as T.
  destruct (secondsField k) as [|a [|b [|c s]]]; try discriminate T. reflexivity.
Qed.

(** X10.  [formatTime] shows the seconds as exactly two characters,
    both decimal digits (["0"] to ["9"]), whose value is
    [seconds mod 60], after the minutes and a colon, and different
    durations are shown differently. *)
Theorem formatTime_shows_duration (a b : nat) :
  (exists field,
     formatTime a = String.append (pretty (a / 60)) (String.append ":" field) /\
     String.length field = 2 /\ twoDigits field = Some (a mod 60)) /\
  (formatTime a = formatTime b -> a = b).
Proof.
  assert (Ha : a mod 60 < 60) by (apply Nat.mod_upper_bound; lia).
  assert (Hb : b mod 60 < 60) by (apply Nat.mod_upper_bound; lia).
  split.
  - exists (secondsField (a mod 60)). split; [reflexivity|].
    split; [now apply secondsField_length|now apply secondsField_twoDigits].
  - unfold formatTime. cbv zeta. fold (secondsField (a mod 60)) (secondsField (b mod 60)).
    intro H. apply append_inj in H as [Hm Hs].
    + apply (inj pretty) in Hm.
      change (String ":" (secondsField (a mod 60)) = String ":" (secondsField (b mod 60))) in Hs.
      injection Hs as Hs. apply (f_equal twoDigits) in Hs.
      rewrite !secondsField_twoDigits in Hs by assumption.
      assert (Hr : a mod 60 = b mod 60) by (injection Hs; intro X; exact X).
      rewrite (Nat.div_mod_eq a 60), (Nat.div_mod_eq b 60). now rewrite Hm, Hr.
    + change (S (String.length (secondsField (a mod 60))) =
              S (String.length (secondsField (b mod 60)))).
      now rewrite !secondsField_length.
Qed.

(** One minute and five seconds. *)
Lemma formatTime_shows_duration_witness :
  formatTime 65 = "1:05" /\ formatTime 65 = formatTime 65 /\ 65 = 65.
Proof.
  split; [vm_compute; reflexivity|]. split; [reflexivity|].
  exact (proj2 (formatTime_shows_duration 65 65) eq_refl).
Defined.

End FormatTimeFacts.

(** ** Playback: properties *)

Module PlaybackFacts.
Import Playback.

Lemma step_mirrors st e :
  e <> Unmount -> flagMirrorsElement st -> flagMirrorsElement (step st e).
Proof.
  unfold flagMirrorsElement, step. intros U H.
  destruct (enabled st e) eqn:En; [|exact H].
  destruct e; try contradiction; cbn.
  - unfold handlePlayPause. destruct (recordedAudioUrl st); [|exact H].
    destruct (playbackIsPlaying st); reflexivity.
  - destruct (playbackAudioRef st); reflexivity.
  - reflexivity.
  - exact H.
Qed.

Lemma step_keeps_source st e a :
  e <> Redo -> e <> Unmount -> playbackAudioRef st = Some a ->
  exists a', playbackAudioRef (step st e) = Some a' /\ audio_src a' = audio_src a.
Proof.
  intros R U H. unfold step. destruct (enabled st e); [|eauto].
  destruct e; try contradiction; cbn.
  - unfold handlePlayPause. destruct (recordedAudioUrl st); [|eauto].
    rewrite H. destruct (playbackIsPlaying st); cbn; eauto.
  - rewrite H. cbn. eauto.
  - eauto.
Qed.

(** X11.  While the component is mounted, the flag that draws the
    pause icon is set exactly when an audio element exists and plays.
    With no recorded audio the play button's handler does nothing.  The
    element is made from the URL at the first play and is then reused:
    no event but a redo or the unmount replaces it or changes its
    source, not even a new recorded URL; a redo drops it. *)
Theorem playback_flag_mirrors_element (es : list Event) :
  staysMounted es = true ->
  let st := run initial es in
  flagMirrorsElement st /\
  (recordedAudioUrl st = None -> handlePlayPause st = st) /\
  (forall url, recordedAudioUrl st = Some url -> playbackAudioRef st = None ->
     playbackAudioRef (step st ClickPlayPause) = Some (mkAudio url true)) /\
  (forall a e, playbackAudioRef st = Some a -> e <> Redo -> e <> Unmount ->
     exists a', playbackAudioRef (step st e) = Some a' /\ audio_src a' = audio_src a) /\
  step st Redo = initial.
Proof.
  intros M st.
  assert (F : flagMirrorsElement st).
  { subst st. revert M. generalize initial, (eq_refl : flagMirrorsElement initial).
    induction es as [|e es IH]; intros s0 H0 M; [exact H0|].
    cbn in M. apply andb_prop in M as [M1 M2]. cbn. apply IH; [|exact M2].
    apply step_mirrors; [|exact H0]. intros ->. discriminate. }
  split; [exact F|]. split; [|split; [|split]].
  - intro N. unfold handlePlayPause. now rewrite N.
  - intros url U N. unfold step. cbn [enabled]. rewrite U.
    rewrite bool_decide_eq_true_2 by eauto.
    unfold handlePlayPause, flagMirrorsElement in *. rewrite U, N in *. rewrite F. reflexivity.
  - intros a e Ha R U. now apply step_keeps_source.
  - reflexivity.
Qed.

(** Play, then a new recording arrives, then play is pressed twice. *)
Lemma playback_flag_mirrors_element_witness :
  let es := [UrlSet (Some (QuestionFlow.mkUrl QuestionFlow.audio 0)); ClickPlayPause;
             UrlSet (Some (QuestionFlow.mkUrl QuestionFlow.audio 1));
             ClickPlayPause; ClickPlayPause] in
  staysMounted es = true /\
  playbackAudioRef (run initial es) =
    Some (mkAudio (QuestionFlow.mkUrl QuestionFlow.audio 0) true) /\
  flagMirrorsElement (run initial es).
Proof.
  intro es. split; [reflexivity|]. split; [reflexivity|].
  exact (proj1 (playback_flag_mirrors_element es eq_refl)).
Defined.

End PlaybackFacts.

(** ** Navbar: properties *)

Module NavbarFacts.
Import Navbar.

Lemma run_sound es : forall st,
  isSoundOn (fst (run st es)) =
  if Nat.even (soundClicks es) then isSoundOn st else negb (isSoundOn st).
Proof.
  induction es as [|e es IH]; intro st; [reflexivity|].
  cbn [run]. destruct (step st e) as [st1 c1] eqn:S1.
  specialize (IH st1). destruct (run st1 es) as [st2 c2]. cbn [fst] in *.
  rewrite IH. unfold soundClicks in *. cbn [List.filter].
  destruct e; cbn in S1; injection S1 as <- <-; cbn [isSoundClick length]; try reflexivity.
  cbn [toggleSound isSoundOn]. rewrite Nat.even_succ, <- Nat.negb_even.
  destruct (Nat.even _), (isSoundOn st); reflexivity.
Qed.

Lemma run_back es : forall st,
  canGoBack (props st) = false -> neverBack es = true ->
  count onBack (snd (run st es)) = 0.
Proof.
  induction es as [|e es IH]; intros st C N; [reflexivity|].
  cbn in N. apply andb_prop in N as [N1 N2].
  cbn [run]. destruct (step st e) as [st1 c1] eqn:S1.
  assert (H : canGoBack (props st1) = false /\ count onBack c1 = 0).
  { destruct e; cbn in S1; injection S1 as <- <-; cbn; rewrite ?C; auto.
    - destruct (canGoForward (props st)); auto.
    - unfold onMouseEnter. destruct (isSoundOn st); auto.
    - unfold onMouseEnter. destruct (isSoundOn st); auto.
    - split; [|reflexivity]. now destruct (canGoBack p). }
  destruct H as [C1 Z1]. specialize (IH st1 C1 N2).
  destruct (run st1 es) as [st2 c2]. cbn [snd] in *.
  unfold count in *. rewrite List.filter_app, length_app. lia.
Qed.

(** X12.  The sound is on after an even number of clicks on the sound
    button and off after an odd number; [onMouseEnter] of a navigation
    button, when it is dispatched, plays the hover sound exactly when
    the sound is on; and as long as the parent never allows going back,
    [onBack] is never called, however often the button is clicked. *)
Theorem navbar_sound_and_back (p : Props) (es : list Event) :
  let st := fst (run (initial p) es) in
  isSoundOn st = Nat.even (soundClicks es) /\
  snd (step st EnterBack) = (if Nat.even (soundClicks es) then [playHoverSound] else []) /\
  snd (step st EnterForward) = (if Nat.even (soundClicks es) then [playHoverSound] else []) /\
  (canGoBack p = false -> neverBack es = true ->
   count onBack (snd (run (initial p) es)) = 0).
Proof.
  intro st.
  assert (S : isSoundOn st = Nat.even (soundClicks es)).
  { subst st. rewrite run_sound. cbn. now destruct (Nat.even _). }
  split; [exact S|]. split; [|split].
  - cbn. unfold onMouseEnter. now rewrite S.
  - cbn. unfold onMouseEnter. now rewrite S.
  - intros C N. now apply run_back.
Qed.

(** Back is clicked three times with going back never allowed. *)
Lemma navbar_sound_and_back_witness :
  canGoBack (mkProps false true) = false /\
  neverBack [ClickBack; ClickSound; ClickBack; EnterBack; ClickBack] = true /\
  count onBack (snd (run (initial (mkProps false true))
                       [ClickBack; ClickSound; ClickBack; EnterBack; ClickBack])) = 0.
Proof.
  split; [reflexivity|]. split; [reflexivity|].
  exact (proj2 (proj2 (proj2 (navbar_sound_and_back (mkProps false true)
           [ClickBack; ClickSound; ClickBack; EnterBack; ClickBack]))) eq_refl eq_refl).
Defined.

End NavbarFacts.

(** ** CustomQuestionInput: further properties *)

Module CustomQuestionInputExtras.
Import CustomQuestionInput.

(** X13.  Clicking Add never changes the fields of the component (they
    are not cleared), so [n] clicks on an enabled button make [n]
    identical [onAdd] calls, each with the question exactly as typed
    (not trimmed) and, in the second variant, with the answer as typed,
    which may be blank; whether the button is enabled does not depend
    on the answer. *)
Theorem add_keeps_fields (v : Variant) (st : State) (n : nat) (answer : jsstring) :
  addEnabled st = true ->
  run v st (replicate n ClickAdd) = (st, replicate n (onClickAdd v st)) /\
  calledQuestion (onClickAdd v st) = questionText st /\
  onClickAdd QuestionAndAnswer st = onAdd2 (questionText st) (answerText st) /\
  addEnabled (fst (step v st (ChangeAnswer answer))) = true.
Proof.
  intro E. split; [|split; [|split]].
  - induction n as [|n IH]; [reflexivity|].
    cbn [replicate run step]. unfold addEnabled in E.
    destruct (addDisabled st); [discriminate|]. rewrite IH. reflexivity.
  - now destruct v.
  - reflexivity.
  - exact E.
Qed.

(** "Hi " typed as question, nothing as answer, Add clicked twice. *)
Lemma add_keeps_fields_witness :
  let st := mkState [72; 105; 32]%N [] false in
  addEnabled st = true /\
  run QuestionAndAnswer st [ClickAdd; ClickAdd] =
    (st, [onAdd2 [72; 105; 32]%N []; onAdd2 [72; 105; 32]%N []]).
Proof.
  intro st. split; [reflexivity|].
  exact (proj1 (add_keeps_fields QuestionAndAnswer st 2 [] eq_refl)).
Defined.

End CustomQuestionInputExtras.
